(** * Task API: a shallow embedding of the Express/SQLite service

    The development follows the repository file by file:
    - [Js]: the JavaScript values and string primitives the handlers rely on;
    - [Store]: the two tables of [src/db/database.js] with their constraints,
      the parameter binding of [better-sqlite3], and the prepared statements
      the controllers run against them;
    - [Http]: responses and the centralized [errorHandler];
    - [TaskController], [AuthMiddleware], [AuthController]: the handlers;
    - [Server]: the routes of [src/server.js] and the databases they reach;
    - [Props], [AsWorded], [Demo]: the predicates the theorems are stated
      with, and a small database to run the handlers on.

    State is passed explicitly: a handler is a function from the database to
    an outcome, the new database and the list of statements the engine
    stepped.  Values the environment supplies ([uuidv4()], [datetime('now')])
    are arguments of the handler that consumes them. *)

From Stdlib Require Import List String Ascii Bool ZArith Lia.
From Stdlib Require Import Permutation Sorted.
From Stdlib Require Import DecimalString.
Import ListNotations.
Local Open Scope string_scope.
Local Open Scope list_scope.

(* ------------------------------------------------------------------ *)
(** ** JavaScript values *)

Module Js.

(** What [express.json()] (or the query-string parser) can put in a field of
    [req.body] / [req.query].  [VUndefined] is a key that is absent; it is
    never an element of an array.  [VNum n] is the number whose value is the
    integer [n], for the integers a double holds exactly (all of them up to
    2^53 in magnitude); fractions are not modelled.  [VObj] is a plain object
    without a [length] key: the handlers and the store never look inside
    one. *)
#[local] Set Warnings "-register-all".
Inductive value : Type :=
| VUndefined
| VNull
| VBool (b : bool)
| VNum (n : Z)
| VStr (s : string)
| VArr (elements : list value)
| VObj.

(** [ToBoolean]: what [if (v)], [!v], [v && ...] and [v || ...] test. *)
Definition truthy (v : value) : bool :=
  match v with
  | VUndefined | VNull => false
  | VBool b => b
  | VNum n => negb (n =? 0)%Z
  | VStr s => negb (s =? "")
  | VArr _ | VObj => true
  end.

(** [Array.isArray(v)] *)
Definition is_array (v : value) : bool :=
  match v with VArr _ => true | _ => false end.

(** [v || d] *)
Definition or_else (v d : value) : value := if truthy v then v else d.

(** [v !== undefined] *)
Definition defined (v : value) : bool :=
  match v with VUndefined => false | _ => true end.

(** [list.includes(v)] on a list of string literals: only a string that is
    equal to one of them is found. *)
Definition includes (l : list string) (v : value) : bool :=
  match v with
  | VStr s => existsb (String.eqb s) l
  | _ => false
  end.

(** [list.join(sep)] *)
Definition join (sep : string) (l : list string) : string := String.concat sep l.

(** White space as [String.prototype.trim] sees it, for code units below
    256: TAB, LF, VT, FF, CR, SPACE and NBSP. *)
Definition is_ws (c : ascii) : bool :=
  let n := nat_of_ascii c in
  (Nat.leb 9 n && Nat.leb n 13) || Nat.eqb n 32 || Nat.eqb n 160.

Fixpoint trim_start (s : string) : string :=
  match s with
  | EmptyString => EmptyString
  | String c r => if is_ws c then trim_start r else s
  end.

Fixpoint trim_end (s : string) : string :=
  match s with
  | EmptyString => EmptyString
  | String c r =>
      match trim_end r with
      | EmptyString => if is_ws c then EmptyString else String c EmptyString
      | r' => String c r'
      end
  end.

Definition trim (s : string) : string := trim_end (trim_start s).

(** [s.split(' ')]: always at least one part. *)
Fixpoint split_space (s : string) : list string :=
  match s with
  | EmptyString => [EmptyString]
  | String c r =>
      if Ascii.eqb c " "%char then EmptyString :: split_space r
      else match split_space r with
           | p :: ps => String c p :: ps
           | [] => [String c EmptyString]
           end
  end.

(** A thrown JavaScript error, as far as [errorHandler] reads it. *)
Record exn : Type := mkExn {
  name : string;          (* err.name *)
  status : option Z;      (* err.status, when a thrower sets one *)
  message : string        (* err.message *)
}.

Definition TypeError (msg : string) : exn := mkExn "TypeError" None msg.
Definition RangeError (msg : string) : exn := mkExn "RangeError" None msg.
Definition Error (msg : string) : exn := mkExn "Error" None msg.

(** Outcome of evaluating an expression that may throw. *)
Inductive result (A : Type) : Type :=
| Ok (a : A)
| Throw (e : exn).
Arguments Ok {A} a.
Arguments Throw {A} e.

(** [v.trim()]: only strings have the method. *)
Definition call_trim (v : value) : result string :=
  match v with
  | VStr s => Ok (trim s)
  | VUndefined | VNull =>
      Throw (TypeError "Cannot read properties of null or undefined (reading 'trim')")
  | _ => Throw (TypeError "trim is not a function")
  end.

(** [v.length]: [None] is [undefined]. *)
Definition get_length (v : value) : result (option nat) :=
  match v with
  | VStr s => Ok (Some (String.length s))
  | VArr l => Ok (Some (List.length l))
  | VUndefined | VNull =>
      Throw (TypeError "Cannot read properties of null or undefined (reading 'length')")
  | _ => Ok None
  end.

End Js.

(* ------------------------------------------------------------------ *)
(** ** The store: [src/db/database.js] *)

Module Store.
Import Js.

(** A bound statement parameter or a cell: every column of the schema has
    TEXT affinity, so a cell is NULL or a text. *)
Inductive sqlval : Type :=
| SqlNull
| SqlText (s : string).

Definition SqliteError (msg : string) : exn := mkExn "SqliteError" None msg.

(** ** Parameter binding *)

Definition decimal (n : Z) : string := NilZero.string_of_int (Z.to_int n).

Fixpoint drop_trailing_zeros (s : string) : string :=
  match s with
  | EmptyString => EmptyString
  | String c r =>
      match drop_trailing_zeros r with
      | EmptyString => if Ascii.eqb c "0"%char then EmptyString else String c EmptyString
      | r' => String c r'
      end
  end.

(** A JavaScript number is bound as a REAL.  Stored in a column of TEXT
    affinity, or compared with one, it is converted to text as by
    [printf("%!.15g")]: an integer below 10^15 in magnitude as its digits
    followed by [.0] (5 becomes ['5.0']), a larger one with fifteen
    significant digits, rounded on the sixteenth, and an exponent
    (10^15 becomes ['1.0e+15']). *)
Definition real_text (n : Z) : string :=
  let a := Z.abs n in
  let sign := if (n <? 0)%Z then "-" else "" in
  if (a <? 10 ^ 15)%Z then (sign ++ decimal a ++ ".0")%string
  else
    let digits := Z.of_nat (String.length (decimal a)) in
    let lead := (a / 10 ^ (digits - 15))%Z in
    let next := ((a / 10 ^ (digits - 16)) mod 10)%Z in
    let rounded := if (5 <=? next)%Z then (lead + 1)%Z else lead in
    let carry := (rounded =? 10 ^ 15)%Z in
    let mantissa := if carry then (10 ^ 14)%Z else rounded in
    let exponent := if carry then digits else (digits - 1)%Z in
    match decimal mantissa with
    | String d rest =>
        let fraction := match drop_trailing_zeros rest with
                        | EmptyString => "0"
                        | r => r
                        end in
        (sign ++ String d ("." ++ fraction) ++ "e+" ++ decimal exponent)%string
    | EmptyString => EmptyString
    end.

(** One value for one parameter: numbers, strings, [null] and [undefined]
    are bound; a boolean, an array inside an array and an object are not.
    (The handlers never pass [undefined]: [||] and [!== undefined] put a
    default or the stored value in its place before the call.) *)
Definition bind_value (v : value) : option sqlval :=
  match v with
  | VUndefined | VNull => Some SqlNull
  | VNum n => Some (SqlText (real_text n))
  | VStr s => Some (SqlText s)
  | VBool _ | VArr _ | VObj => None
  end.

Definition cannot_bind : exn :=
  TypeError "SQLite3 can only bind numbers, strings, bigints, buffers, and null".
Definition too_many_values : exn :=
  RangeError "Too many parameter values were provided".
Definition too_few_values : exn :=
  RangeError "Too few parameter values were provided".
Definition two_objects : exn :=
  TypeError "You cannot specify named parameters in two different objects".

(** The elements of an array argument take the next parameters, one each.
    [free] counts the parameters of the statement not bound yet; the result
    is the values bound and the parameters still free. *)
Fixpoint bind_array (free : nat) (elements : list value) {struct elements}
  : result (list sqlval * nat) :=
  match elements with
  | [] => Ok ([], free)
  | v :: rest =>
      match bind_value v with
      | None => Throw cannot_bind
      | Some p =>
          match free with
          | O => Throw too_many_values
          | S free' =>
              match bind_array free' rest with
              | Ok (ps, unbound) => Ok (p :: ps, unbound)
              | Throw e => Throw e
              end
          end
      end
  end.

(** The arguments of [.run(...)], [.get(...)] or [.all(...)], first to
    last: an array is spread over the next parameters, a plain object is
    read as named parameters, of which the statements here have none (a
    second object is refused), and any other value takes the next
    parameter. *)
Fixpoint bind_each (free : nat) (seen_object : bool) (args : list value)
    {struct args} : result (list sqlval * nat) :=
  match args with
  | [] => Ok ([], free)
  | VArr elements :: rest =>
      match bind_array free elements with
      | Ok (ps, unbound) =>
          match bind_each unbound seen_object rest with
          | Ok (qs, unbound') => Ok (ps ++ qs, unbound')
          | Throw e => Throw e
          end
      | Throw e => Throw e
      end
  | VObj :: rest =>
      if seen_object then Throw two_objects else bind_each free true rest
  | v :: rest =>
      match bind_value v with
      | None => Throw cannot_bind
      | Some p =>
          match free with
          | O => Throw too_many_values
          | S free' =>
              match bind_each free' seen_object rest with
              | Ok (ps, unbound) => Ok (p :: ps, unbound)
              | Throw e => Throw e
              end
          end
      end
  end.

(** Binding the arguments of a call to a statement with [params]
    parameters: every parameter must have got a value. *)
Definition bind_args (params : nat) (args : list value) : result (list sqlval) :=
  match bind_each params false args with
  | Ok (ps, O) => Ok ps
  | Ok (_, S _) => Throw too_few_values
  | Throw e => Throw e
  end.

(** The value bound to the parameter at position [i], counting from 0. *)
Definition param (i : nat) (ps : list sqlval) : sqlval := nth i ps SqlNull.

(** ** Tables *)

(** [users] table. *)
Record user : Type := mkUser {
  u_id : string;            (* TEXT PRIMARY KEY *)
  u_email : string;         (* TEXT UNIQUE NOT NULL *)
  u_password : string;      (* TEXT NOT NULL *)
  u_name : string;          (* TEXT NOT NULL *)
  u_created_at : string     (* TEXT NOT NULL DEFAULT (datetime('now')) *)
}.

(** [tasks] table. *)
Record task : Type := mkTask {
  t_id : string;                  (* TEXT PRIMARY KEY *)
  t_user_id : string;             (* TEXT NOT NULL, REFERENCES users(id) *)
  t_title : string;               (* TEXT NOT NULL *)
  t_description : option string;  (* TEXT *)
  t_status : string;              (* TEXT NOT NULL DEFAULT 'pending' *)
  t_priority : string;            (* TEXT NOT NULL DEFAULT 'medium' *)
  t_due_date : option string;     (* TEXT *)
  t_created_at : string;          (* TEXT NOT NULL DEFAULT (datetime('now')) *)
  t_updated_at : string           (* TEXT NOT NULL DEFAULT (datetime('now')) *)
}.

(** Rows in insertion (rowid) order. *)
Record db : Type := mkDb {
  users : list user;
  tasks : list task
}.

Definition empty_db : db := mkDb [] [].

(** The statements the controllers prepare. *)
Inductive stmt : Type :=
| SelectTasksOfUser      (* SELECT * FROM tasks WHERE user_id = ? ... ORDER BY created_at DESC *)
| SelectTaskByIdAndUser  (* SELECT * FROM tasks WHERE id = ? AND user_id = ? *)
| SelectTaskById         (* SELECT * FROM tasks WHERE id = ? *)
| InsertTask             (* INSERT INTO tasks (...) VALUES (...) *)
| UpdateTask             (* UPDATE tasks SET ... WHERE id = ? AND user_id = ? *)
| DeleteTask             (* DELETE FROM tasks WHERE id = ? AND user_id = ? *)
| SelectUserByEmail      (* SELECT ... FROM users WHERE email = ? *)
| InsertUser.            (* INSERT INTO users (...) VALUES (...) *)

(** A computation against the store: outcome, database afterwards, and the
    statements stepped, oldest first.  A call whose arguments do not bind
    throws before its statement is stepped. *)
Definition M (A : Type) : Type := db -> result A * db * list stmt.

Definition ret {A} (a : A) : M A := fun d => (Ok a, d, []).

Definition bind {A B} (m : M A) (f : A -> M B) : M B :=
  fun d =>
    match m d with
    | (Ok a, d1, q1) =>
        match f a d1 with
        | (r, d2, q2) => (r, d2, q1 ++ q2)
        end
    | (Throw e, d1, q1) => (Throw e, d1, q1)
    end.

(** An expression that may throw, evaluated inside a computation. *)
Definition lift {A} (r : result A) : M A := fun d => (r, d, []).

Declare Scope store_scope.
Delimit Scope store_scope with store.
Notation "x <- m ;; k" := (bind m (fun x => k))
  (at level 61, m at next level, right associativity) : store_scope.
Notation "m ;;; k" := (bind m (fun _ => k))
  (at level 61, right associativity) : store_scope.

Local Open Scope store_scope.

(** [column = ?]: a NULL parameter matches no row. *)
Definition col_eq (c : string) (p : sqlval) : bool :=
  match p with
  | SqlText s => String.eqb c s
  | SqlNull => false
  end.

(** [ORDER BY created_at DESC] under the BINARY collation.  The engine leaves
    the order of rows with equal keys open; this model keeps them in rowid
    order. *)
Fixpoint insert_desc (t : task) (l : list task) : list task :=
  match l with
  | [] => [t]
  | x :: r =>
      if String.leb (t_created_at x) (t_created_at t) then t :: l
      else x :: insert_desc t r
  end.

Definition order_by_created_at_desc (l : list task) : list task :=
  fold_right insert_desc [] l.

(** What [params.push(v)] adds for a filter that is supplied, and the column
    its [AND column = ?] clause tests. *)
Definition pushed (v : option value) : list value :=
  match v with Some x => [x] | None => [] end.

Definition clause (column : task -> string) (v : option value)
  : list (task -> string) :=
  match v with Some _ => [column] | None => [] end.

(** A row passes [WHERE c1 = ? AND c2 = ? ...] when each column equals the
    parameter at its position. *)
Fixpoint where_all (columns : list (task -> string)) (ps : list sqlval) (t : task)
  : bool :=
  match columns, ps with
  | c :: columns', p :: ps' => col_eq (c t) p && where_all columns' ps' t
  | _, _ => true
  end.

(** [SELECT * FROM tasks WHERE user_id = ? [AND status = ?] [AND priority = ?]
    ORDER BY created_at DESC], [.all(...params)]: one parameter for each
    element of [params]. *)
Definition select_tasks_of_user (uid : string) (status priority : option value)
  : M (list task) :=
  let params := VStr uid :: pushed status ++ pushed priority in
  let columns := t_user_id :: clause t_status status ++ clause t_priority priority in
  ps <- lift (bind_args (List.length params) params) ;;
  fun d =>
    (Ok (order_by_created_at_desc (filter (where_all columns ps) (tasks d))),
     d, [SelectTasksOfUser]).

(** [SELECT * FROM tasks WHERE id = ? AND user_id = ?], [.get(id, uid)], on
    two strings. *)
Definition get_task_by_id_and_user (id uid : string) : M (option task) :=
  fun d =>
    (Ok (find (fun t => String.eqb (t_id t) id && String.eqb (t_user_id t) uid)
              (tasks d)),
     d, [SelectTaskByIdAndUser]).

(** [SELECT * FROM tasks WHERE id = ?], [.get(id)], on a string. *)
Definition get_task_by_id (id : string) : M (option task) :=
  fun d =>
    (Ok (find (fun t => String.eqb (t_id t) id) (tasks d)), d, [SelectTaskById]).

Definition is_null (p : sqlval) : bool :=
  match p with SqlNull => true | SqlText _ => false end.

Definition text_or (p : sqlval) (dflt : string) : string :=
  match p with SqlText s => s | SqlNull => dflt end.

Definition cell (p : sqlval) : option string :=
  match p with SqlText s => Some s | SqlNull => None end.

(** [INSERT INTO tasks (id, user_id, title, description, status, priority,
    due_date) VALUES (?, ?, ?, ?, ?, ?, ?)], [.run(taskId, req.user.id,
    title.trim(), description || null, ...)]: the seven columns take the
    seven values bound, in order.  [created_at] and [updated_at] take their
    default, [datetime('now')].  The statement fails, changing nothing, on a
    NULL in a NOT NULL column, on a duplicate primary key, and when [user_id]
    names no user ([better-sqlite3] opens its databases with foreign keys
    enforced).  The first value bound is the id, a string. *)
Definition insert_task (id uid title : string)
    (description status priority due_date : value) (now : string) : M unit :=
  ps <- lift (bind_args 7 [VStr id; VStr uid; VStr title;
                           description; status; priority; due_date]) ;;
  fun d =>
    if is_null (param 1 ps) then
      (Throw (SqliteError "NOT NULL constraint failed: tasks.user_id"), d, [InsertTask])
    else if is_null (param 2 ps) then
      (Throw (SqliteError "NOT NULL constraint failed: tasks.title"), d, [InsertTask])
    else if is_null (param 4 ps) then
      (Throw (SqliteError "NOT NULL constraint failed: tasks.status"), d, [InsertTask])
    else if is_null (param 5 ps) then
      (Throw (SqliteError "NOT NULL constraint failed: tasks.priority"), d, [InsertTask])
    else if existsb (fun t => col_eq (t_id t) (param 0 ps)) (tasks d) then
      (Throw (SqliteError "UNIQUE constraint failed: tasks.id"), d, [InsertTask])
    else if negb (existsb (fun u => col_eq (u_id u) (param 1 ps)) (users d)) then
      (Throw (SqliteError "FOREIGN KEY constraint failed"), d, [InsertTask])
    else
      (Ok tt,
       mkDb (users d)
            (tasks d ++ [mkTask (text_or (param 0 ps) "") (text_or (param 1 ps) "")
                                (text_or (param 2 ps) "") (cell (param 3 ps))
                                (text_or (param 4 ps) "") (text_or (param 5 ps) "")
                                (cell (param 6 ps)) now now]),
       [InsertTask]).

(** The row an [UPDATE ... SET title = ?, description = ?, status = ?,
    priority = ?, due_date = ?, updated_at = datetime('now')] leaves. *)
Definition set_columns (ti de st pr du : sqlval) (now : string) (t : task) : task :=
  mkTask (t_id t) (t_user_id t) (text_or ti "") (cell de) (text_or st "")
         (text_or pr "") (cell du) (t_created_at t) now.

(** [UPDATE tasks SET ... WHERE id = ? AND user_id = ?], [.run(updatedTitle,
    updatedDescription, updatedStatus, updatedPriority, updatedDueDate,
    req.params.id, req.user.id)]: the five columns and the two tests of the
    WHERE clause take the seven values bound, in order; the result is
    [changes].  A NULL for a NOT NULL column fails the statement when a row
    is to be updated. *)
Definition update_task (title description status priority due_date : value)
    (id uid : string) (now : string) : M nat :=
  ps <- lift (bind_args 7 [title; description; status; priority; due_date;
                           VStr id; VStr uid]) ;;
  fun d =>
    let hit := fun t => col_eq (t_id t) (param 5 ps)
                        && col_eq (t_user_id t) (param 6 ps) in
    if existsb hit (tasks d) && is_null (param 0 ps) then
      (Throw (SqliteError "NOT NULL constraint failed: tasks.title"), d, [UpdateTask])
    else if existsb hit (tasks d) && is_null (param 2 ps) then
      (Throw (SqliteError "NOT NULL constraint failed: tasks.status"), d, [UpdateTask])
    else if existsb hit (tasks d) && is_null (param 3 ps) then
      (Throw (SqliteError "NOT NULL constraint failed: tasks.priority"), d, [UpdateTask])
    else
      (Ok (List.length (filter hit (tasks d))),
       mkDb (users d)
            (map (fun t => if hit t
                           then set_columns (param 0 ps) (param 1 ps) (param 2 ps)
                                            (param 3 ps) (param 4 ps) now t
                           else t)
                 (tasks d)),
       [UpdateTask]).

(** [DELETE FROM tasks WHERE id = ? AND user_id = ?], [.run(id, uid)], on two
    strings; the result is [changes]. *)
Definition delete_task (id uid : string) : M nat :=
  fun d =>
    let hit := fun t => String.eqb (t_id t) id && String.eqb (t_user_id t) uid in
    (Ok (List.length (filter hit (tasks d))),
     mkDb (users d) (filter (fun t => negb (hit t)) (tasks d)),
     [DeleteTask]).

(** [SELECT ... FROM users WHERE email = ?], [.get(email)]. *)
Definition get_user_by_email (email : value) : M (option user) :=
  ps <- lift (bind_args 1 [email]) ;;
  fun d =>
    (Ok (find (fun u => col_eq (u_email u) (param 0 ps)) (users d)),
     d, [SelectUserByEmail]).

(** [INSERT INTO users (id, email, password, name) VALUES (?, ?, ?, ?)],
    [.run(userId, email, hashedPassword, name)]: fails on a NULL, on a
    duplicate id and on a duplicate email.  The first value bound is the
    id, a string. *)
Definition insert_user (id : string) (email : value) (password : string)
    (name : value) (now : string) : M unit :=
  ps <- lift (bind_args 4 [VStr id; email; VStr password; name]) ;;
  fun d =>
    if is_null (param 1 ps) then
      (Throw (SqliteError "NOT NULL constraint failed: users.email"), d, [InsertUser])
    else if is_null (param 2 ps) then
      (Throw (SqliteError "NOT NULL constraint failed: users.password"), d, [InsertUser])
    else if is_null (param 3 ps) then
      (Throw (SqliteError "NOT NULL constraint failed: users.name"), d, [InsertUser])
    else if existsb (fun u => col_eq (u_id u) (param 0 ps)) (users d) then
      (Throw (SqliteError "UNIQUE constraint failed: users.id"), d, [InsertUser])
    else if existsb (fun u => col_eq (u_email u) (param 1 ps)) (users d) then
      (Throw (SqliteError "UNIQUE constraint failed: users.email"), d, [InsertUser])
    else
      (Ok tt,
       mkDb (users d ++ [mkUser (text_or (param 0 ps) "") (text_or (param 1 ps) "")
                                (text_or (param 2 ps) "") (text_or (param 3 ps) "") now])
            (tasks d),
       [InsertUser]).

(** No controller removes a user.  This is what the schema makes of
    [DELETE FROM users WHERE id = ?]: the row goes, and
    [FOREIGN KEY (user_id) REFERENCES users(id) ON DELETE CASCADE] takes the
    user's tasks with it. *)
Definition delete_user (uid : string) (d : db) : db :=
  mkDb (filter (fun u => negb (String.eqb (u_id u) uid)) (users d))
       (filter (fun t => negb (String.eqb (t_user_id t) uid)) (tasks d)).

(** Another request running its statements while this one awaits. *)
Definition meanwhile (other : db -> db) : M unit :=
  fun d => (Ok tt, other d, []).

End Store.

(* ------------------------------------------------------------------ *)
(** ** Responses and [src/middleware/errorHandler.js] *)

Module Http.
Import Js Store.

(** [user: { id, name, email }] in the signup and login responses. *)
Record user_view : Type := mkUserView {
  v_id : string;
  v_name : value;
  v_email : value
}.

(** The shapes handed to [res.json]. *)
Inductive json : Type :=
| ErrorBody (error message : string)                  (* { error, message } *)
| TaskList (count : nat) (tasks : list task)          (* { count, tasks } *)
| TaskOnly (task : option task)                       (* { task } *)
| TaskMessage (message : string) (task : option task) (* { message, task } *)
| MessageOnly (message : string)                      (* { message } *)
| Session (message token : string) (user : user_view). (* { message, token, user } *)

Record response : Type := mkResponse {
  code : Z;
  body : json
}.

(** The identity [req.user]: the decoded token payload. *)
Record identity : Type := mkIdentity {
  uid : string;    (* req.user.id *)
  uemail : value   (* req.user.email *)
}.

(** What a request leaves behind: the response sent, the database, and the
    statements it ran. *)
Definition handler : Type := db -> response * db * list stmt.

Definition response_of (x : response * db * list stmt) : response := fst (fst x).
Definition db_of (x : response * db * list stmt) : db := snd (fst x).
Definition ran (x : response * db * list stmt) : list stmt := snd x.

Definition generic_message : string :=
  "An unexpected error occurred. Please try again later.".

(** [errorHandler(err, req, res, next)]. *)
Definition errorHandler (err : exn) : response :=
  let status :=
    match Js.status err with
    | Some s => if (s =? 0)%Z then 500%Z else s   (* err.status || 500 *)
    | None => 500%Z
    end in
  mkResponse status
    (ErrorBody (if Js.name err =? "" then "InternalServerError" else Js.name err)
               (if (status =? 500)%Z then generic_message else Js.message err)).

(** [try { ... } catch (err) { next(err); }] around a controller body. *)
Definition try_next (m : M response) : handler :=
  fun d =>
    match m d with
    | (Ok r, d', q) => (r, d', q)
    | (Throw e, d', q) => (errorHandler e, d', q)
    end.

End Http.

(* ------------------------------------------------------------------ *)
(** ** [src/controllers/taskController.js] *)

Module TaskController.
Import Js Store Http.
Local Open Scope store_scope.

Definition VALID_STATUSES : list string := ["pending"; "in_progress"; "completed"].
Definition VALID_PRIORITIES : list string := ["low"; "medium"; "high"].

(** [req.query] of GET /api/tasks. *)
Record list_query : Type := mkQuery {
  q_status : value;
  q_priority : value
}.

(** [req.body] of POST /api/tasks and PATCH /api/tasks/:id. *)
Record task_body : Type := mkBody {
  b_title : value;
  b_description : value;
  b_status : value;
  b_priority : value;
  b_due_date : value
}.

Definition invalid_status : response :=
  mkResponse 400 (ErrorBody "ValidationError"
    ("status must be one of: " ++ join ", " VALID_STATUSES)).

Definition invalid_priority : response :=
  mkResponse 400 (ErrorBody "ValidationError"
    ("priority must be one of: " ++ join ", " VALID_PRIORITIES)).

Definition title_required : response :=
  mkResponse 400 (ErrorBody "ValidationError" "title is required.").

Definition not_found : response :=
  mkResponse 404 (ErrorBody "NotFound" "Task not found.").

(** GET /api/tasks *)
Definition listTasks (user : identity) (query : list_query) : handler :=
  try_next (
    let status := q_status query in
    let priority := q_priority query in
    let with_priority := fun status_param =>
      if truthy priority then
        if negb (includes VALID_PRIORITIES priority) then ret invalid_priority
        else
          tasks <- select_tasks_of_user (uid user) status_param (Some priority) ;;
          ret (mkResponse 200 (TaskList (List.length tasks) tasks))
      else
        tasks <- select_tasks_of_user (uid user) status_param None ;;
        ret (mkResponse 200 (TaskList (List.length tasks) tasks)) in
    if truthy status then
      if negb (includes VALID_STATUSES status) then ret invalid_status
      else with_priority (Some status)
    else with_priority None).

(** GET /api/tasks/:id *)
Definition getTask (user : identity) (id : string) : handler :=
  try_next (
    task <- get_task_by_id_and_user id (uid user) ;;
    match task with
    | None => ret not_found
    | Some _ => ret (mkResponse 200 (TaskOnly task))
    end).

(** [!title || title.trim() === ''] *)
Definition title_missing (title : value) : result bool :=
  if negb (truthy title) then Ok true
  else match call_trim title with
       | Ok s => Ok (s =? "")
       | Throw e => Throw e
       end.

(** POST /api/tasks; [taskId] is the value of [uuidv4()]. *)
Definition createTask (user : identity) (req : task_body) (taskId now : string)
  : handler :=
  try_next (
    let title := b_title req in
    let description := b_description req in
    let status := b_status req in
    let priority := b_priority req in
    let due_date := b_due_date req in
    missing <- lift (title_missing title) ;;
    if missing then ret title_required
    else if truthy status && negb (includes VALID_STATUSES status) then
      ret invalid_status
    else if truthy priority && negb (includes VALID_PRIORITIES priority) then
      ret invalid_priority
    else
      trimmed <- lift (call_trim title) ;;
      insert_task taskId (uid user) trimmed
                  (or_else description VNull)
                  (or_else status (VStr "pending"))
                  (or_else priority (VStr "medium"))
                  (or_else due_date VNull) now ;;;
      task <- get_task_by_id taskId ;;
      ret (mkResponse 201 (TaskMessage "Task created." task))).

(** A nullable column read back into JavaScript. *)
Definition of_cell (c : option string) : value :=
  match c with Some s => VStr s | None => VNull end.

(** [title !== undefined ? title.trim() : existing.title] *)
Definition merged_title (title : value) (existing : task) : result value :=
  if defined title then
    match call_trim title with
    | Ok s => Ok (VStr s)
    | Throw e => Throw e
    end
  else Ok (VStr (t_title existing)).

(** [v !== undefined ? v : stored] *)
Definition merged (v stored : value) : value :=
  if defined v then v else stored.

(** PATCH /api/tasks/:id *)
Definition updateTask (user : identity) (id : string) (req : task_body)
    (now : string) : handler :=
  try_next (
    let title := b_title req in
    let description := b_description req in
    let status := b_status req in
    let priority := b_priority req in
    let due_date := b_due_date req in
    found <- get_task_by_id_and_user id (uid user) ;;
    match found with
    | None => ret not_found
    | Some existing =>
        if truthy status && negb (includes VALID_STATUSES status) then
          ret invalid_status
        else if truthy priority && negb (includes VALID_PRIORITIES priority) then
          ret invalid_priority
        else
          updatedTitle <- lift (merged_title title existing) ;;
          let updatedDescription := merged description (of_cell (t_description existing)) in
          let updatedStatus := merged status (VStr (t_status existing)) in
          let updatedPriority := merged priority (VStr (t_priority existing)) in
          let updatedDueDate := merged due_date (of_cell (t_due_date existing)) in
          update_task updatedTitle updatedDescription updatedStatus
                      updatedPriority updatedDueDate id (uid user) now ;;;
          task <- get_task_by_id id ;;
          ret (mkResponse 200 (TaskMessage "Task updated." task))
    end).

(** DELETE /api/tasks/:id *)
Definition deleteTask (user : identity) (id : string) : handler :=
  try_next (
    changes <- delete_task id (uid user) ;;
    if Nat.eqb changes 0 then ret not_found
    else ret (mkResponse 200 (MessageOnly "Task deleted."))).

End TaskController.

(* ------------------------------------------------------------------ *)
(** ** [src/middleware/auth.js] *)

Module AuthMiddleware.
Import Js Store Http.

Section Authenticate.

(** [jwt.verify(token, process.env.JWT_SECRET)] of the [jsonwebtoken]
    package: the decoded payload, or a thrown error whose [name] is
    ["TokenExpiredError"] when the signature is good and the expiry has
    passed, and ["JsonWebTokenError"] or ["NotBeforeError"] otherwise. *)
Variable jwt_verify : string -> result identity.

(** The middleware either answers the request itself or calls [next()] with
    [req.user] set. *)
Inductive outcome : Type :=
| Responded (r : response)
| Next (user : identity).

Definition no_header : response :=
  mkResponse 401 (ErrorBody "Unauthorized"
    "No Authorization header provided. Include: Authorization: Bearer <token>").

Definition bad_format : response :=
  mkResponse 401 (ErrorBody "Unauthorized"
    "Authorization header must be in format: Bearer <token>").

Definition token_expired : response :=
  mkResponse 401 (ErrorBody "TokenExpired"
    "Your token has expired. Please log in again.").

Definition invalid_token : response :=
  mkResponse 401 (ErrorBody "InvalidToken" "Token is invalid or malformed.").

(** [authenticate(req, res, next)]; the argument is
    [req.headers['authorization']], [None] when the header is not sent. *)
Definition authenticate (authHeader : option string) : outcome :=
  match authHeader with
  | None => Responded no_header
  | Some h =>
      if h =? "" then Responded no_header
      else
        let parts := split_space h in
        if negb (Nat.eqb (List.length parts) 2)
           || negb (nth 0 parts "" =? "Bearer")
        then Responded bad_format
        else
          let token := nth 1 parts "" in
          match jwt_verify token with
          | Ok decoded => Next decoded
          | Throw err =>
              if Js.name err =? "TokenExpiredError" then Responded token_expired
              else Responded invalid_token
          end
  end.

(** [router.use(authenticate)] in [src/routes/tasks.js]: a task route runs
    its controller only after the middleware called [next()]. *)
Definition protected (authHeader : option string) (controller : identity -> handler)
  : handler :=
  match authenticate authHeader with
  | Responded r => fun d => (r, d, [])
  | Next user => controller user
  end.

End Authenticate.

End AuthMiddleware.

(* ------------------------------------------------------------------ *)
(** ** [src/controllers/authController.js] *)

Module AuthController.
Import Js Store Http.
Local Open Scope store_scope.

(** [req.body] of POST /api/auth/signup. *)
Record signup_body : Type := mkSignup {
  s_name : value;
  s_email : value;
  s_password : value
}.

(** [req.body] of POST /api/auth/login. *)
Record login_body : Type := mkLogin {
  l_email : value;
  l_password : value
}.

Definition signup_fields_required : response :=
  mkResponse 400 (ErrorBody "ValidationError"
    "name, email, and password are all required.").

Definition password_too_short : response :=
  mkResponse 400 (ErrorBody "ValidationError"
    "Password must be at least 8 characters long.").

Definition email_taken : response :=
  mkResponse 409 (ErrorBody "Conflict"
    "An account with this email already exists.").

Definition login_fields_required : response :=
  mkResponse 400 (ErrorBody "ValidationError" "email and password are required.").

Definition invalid_credentials : response :=
  mkResponse 401 (ErrorBody "InvalidCredentials" "Invalid email or password.").

Section Controllers.

(** The [bcryptjs] and [jsonwebtoken] calls, on strings. *)
Variable bcrypt_hash : string -> string.             (* bcrypt.hash(s, 10) *)
Variable bcrypt_compare : string -> string -> bool.  (* bcrypt.compare(s, hash) *)
Variable jwt_sign : identity -> string.              (* jwt.sign(payload, secret, opts) *)

(** [generateToken(payload)] *)
Definition generateToken (payload : identity) : string := jwt_sign payload.

(** [await bcrypt.hash(password, 10)]: the promise rejects when the first
    argument is not a string. *)
Definition await_hash (password : value) : result string :=
  match password with
  | VStr s => Ok (bcrypt_hash s)
  | _ => Throw (Error "Illegal arguments")
  end.

(** [await bcrypt.compare(password, hash)] *)
Definition await_compare (password : value) (hash : string) : result bool :=
  match password with
  | VStr s => Ok (bcrypt_compare s hash)
  | _ => Throw (Error "Illegal arguments")
  end.

(** [password.length < 8]; [undefined < 8] is false. *)
Definition shorter_than_8 (password : value) : result bool :=
  match get_length password with
  | Ok (Some n) => Ok (Nat.ltb n 8)
  | Ok None => Ok false
  | Throw e => Throw e
  end.

(** POST /api/auth/signup.  [userId] is the value of [uuidv4()];
    [during_await] is what other requests do to the database while the
    handler awaits the password hash, between its lookup and its insert. *)
Definition signup (req : signup_body) (userId now : string)
    (during_await : db -> db) : handler :=
  try_next (
    let name := s_name req in
    let email := s_email req in
    let password := s_password req in
    if negb (truthy name) || negb (truthy email) || negb (truthy password) then
      ret signup_fields_required
    else
      short <- lift (shorter_than_8 password) ;;
      if short then ret password_too_short
      else
        existing <- get_user_by_email email ;;
        match existing with
        | Some _ => ret email_taken
        | None =>
            hashedPassword <- lift (await_hash password) ;;
            meanwhile during_await ;;;
            insert_user userId email hashedPassword name now ;;;
            let token := generateToken (mkIdentity userId email) in
            ret (mkResponse 201
                   (Session "Account created successfully." token
                            (mkUserView userId name email)))
        end).

(** POST /api/auth/login *)
Definition login (req : login_body) : handler :=
  try_next (
    let email := l_email req in
    let password := l_password req in
    if negb (truthy email) || negb (truthy password) then
      ret login_fields_required
    else
      found <- get_user_by_email email ;;
      match found with
      | None => ret invalid_credentials
      | Some user =>
          passwordMatches <- lift (await_compare password (u_password user)) ;;
          if negb passwordMatches then ret invalid_credentials
          else
            let token := generateToken (mkIdentity (u_id user) (VStr (u_email user))) in
            ret (mkResponse 200
                   (Session "Login successful." token
                            (mkUserView (u_id user) (VStr (u_name user))
                                        (VStr (u_email user)))))
      end).

End Controllers.

End AuthController.

(* ------------------------------------------------------------------ *)
(** ** [src/server.js] and the route files *)

Module Server.
Import Js Store Http TaskController AuthController.

(** The packages the process links against. *)
Record packages : Type := mkPackages {
  jwt_verify : string -> result identity;
  jwt_sign : identity -> string;
  bcrypt_hash : string -> string;
  bcrypt_compare : string -> string -> bool
}.

(** A request to one of the routes mounted under [/api], with the values the
    environment supplies while it is served. *)
Inductive request : Type :=
| PostSignup (req : signup_body) (userId now : string) (during_await : db -> db)
| PostLogin (req : login_body)
| GetTasks (authorization : option string) (query : list_query)
| PostTasks (authorization : option string) (req : task_body) (taskId now : string)
| GetTaskById (authorization : option string) (id : string)
| PatchTaskById (authorization : option string) (id : string) (req : task_body)
                (now : string)
| DeleteTaskById (authorization : option string) (id : string).

Section App.

Variable lib : packages.

(** [app.use('/api/auth', authRoutes)], [app.use('/api/tasks', taskRoutes)]. *)
Definition serve (r : request) : handler :=
  let guarded := AuthMiddleware.protected (jwt_verify lib) in
  match r with
  | PostSignup req userId now during_await =>
      signup (bcrypt_hash lib) (jwt_sign lib) req userId now during_await
  | PostLogin req => login (bcrypt_compare lib) (jwt_sign lib) req
  | GetTasks a query => guarded a (fun user => listTasks user query)
  | PostTasks a req taskId now => guarded a (fun user => createTask user req taskId now)
  | GetTaskById a id => guarded a (fun user => getTask user id)
  | PatchTaskById a id req now => guarded a (fun user => updateTask user id req now)
  | DeleteTaskById a id => guarded a (fun user => deleteTask user id)
  end.

(** The database a request's second statement sees: only signup awaits
    between two statements. *)
Definition after_await (r : request) (d : db) : db :=
  match r with
  | PostSignup _ _ _ during_await => during_await d
  | _ => d
  end.

(** The databases the service can be in: it starts empty, requests are
    served one statement at a time (what runs during an await is itself a
    run of the service), and an operator may delete a user row. *)
Inductive reachable : db -> Prop :=
| reach_empty : reachable empty_db
| reach_serve d r :
    reachable d -> reachable (after_await r d) -> reachable (db_of (serve r d))
| reach_delete_user d uid :
    reachable d -> reachable (delete_user uid d).

End App.

End Server.

(* ------------------------------------------------------------------ *)
(** ** Properties of the store and of the rows *)

Module Props.
Import Js Store Http TaskController AuthController.

(** [id TEXT PRIMARY KEY] on tasks. *)
Definition pk_ok (d : db) : Prop := NoDup (map t_id (tasks d)).

(** [FOREIGN KEY (user_id) REFERENCES users(id)]. *)
Definition fk_ok (d : db) : Prop :=
  forall t, In t (tasks d) -> exists u, In u (users d) /\ u_id u = t_user_id t.

(** Both constraints on [tasks]. *)
Definition schema_ok (d : db) : Prop := pk_ok d /\ fk_ok d.

(** The row [SELECT * FROM tasks WHERE id = ?] finds. *)
Definition stored (d : db) (id : string) : option task :=
  find (fun t => String.eqb (t_id t) id) (tasks d).

(** The title of a row is not blank. *)
Definition title_ok (t : task) : Prop := trim (t_title t) <> "".

(** A NOT NULL text and a nullable text, as values a parameter can be
    compared with. *)
Definition to_sql (c : option string) : sqlval :=
  match c with Some s => SqlText s | None => SqlNull end.

(** A field absent from the body keeps its value. *)
Definition kept {A : Type} (v : value) (before after : A) : Prop :=
  v = VUndefined -> after = before.

(** A field present in the body is what the column now holds: the value as
    the store binds it. *)
Definition overwrites (v : value) (after : sqlval) : Prop :=
  defined v = true -> bind_value v = Some after.

(** Same for the title, which the handler trims. *)
Definition title_overwrites (v : value) (after : string) : Prop :=
  defined v = true -> call_trim v = Ok after.

Definition absent_fields_kept (req : task_body) (before after : task) : Prop :=
  kept (b_title req) (t_title before) (t_title after) /\
  kept (b_description req) (t_description before) (t_description after) /\
  kept (b_status req) (t_status before) (t_status after) /\
  kept (b_priority req) (t_priority before) (t_priority after) /\
  kept (b_due_date req) (t_due_date before) (t_due_date after).

Definition present_fields_overwrite (req : task_body) (after : task) : Prop :=
  title_overwrites (b_title req) (t_title after) /\
  overwrites (b_description req) (to_sql (t_description after)) /\
  overwrites (b_status req) (SqlText (t_status after)) /\
  overwrites (b_priority req) (SqlText (t_priority after)) /\
  overwrites (b_due_date req) (to_sql (t_due_date after)).

(** Neither the description nor the due date of the body is an array. *)
Definition no_array (req : task_body) : Prop :=
  is_array (b_description req) = false /\ is_array (b_due_date req) = false.

(** The arguments POST /api/tasks binds to its INSERT, for a title already
    trimmed, and those PATCH /api/tasks/:id binds to its UPDATE, for the
    row it found and a title already merged. *)
Definition post_args (id uid title : string) (req : task_body) : list value :=
  [VStr id; VStr uid; VStr title;
   or_else (b_description req) VNull;
   or_else (b_status req) (VStr "pending");
   or_else (b_priority req) (VStr "medium");
   or_else (b_due_date req) VNull].

Definition patch_args (title : string) (req : task_body) (existing : task)
    (id uid : string) : list value :=
  [VStr title;
   merged (b_description req) (of_cell (t_description existing));
   merged (b_status req) (VStr (t_status existing));
   merged (b_priority req) (VStr (t_priority existing));
   merged (b_due_date req) (of_cell (t_due_date existing));
   VStr id; VStr uid].

(** What a PATCH never touches. *)
Definition same_identity (before after : task) : Prop :=
  t_id after = t_id before /\ t_user_id after = t_user_id before /\
  t_created_at after = t_created_at before.

(** A body every field of which the handler and the schema accept. *)
Definition text_or_absent (v : value) : bool :=
  match v with VUndefined | VStr _ => true | _ => false end.

Definition nullable_or_absent (v : value) : bool :=
  match v with VUndefined | VNull | VStr _ => true | _ => false end.

Definition member_or_absent (l : list string) (v : value) : bool :=
  match v with
  | VUndefined => true
  | VStr s => existsb (String.eqb s) l
  | _ => false
  end.

Definition plain_patch (req : task_body) : bool :=
  text_or_absent (b_title req) && nullable_or_absent (b_description req)
  && member_or_absent VALID_STATUSES (b_status req)
  && member_or_absent VALID_PRIORITIES (b_priority req)
  && nullable_or_absent (b_due_date req).

(** [v && !list.includes(v)]: the test that rejects a field. *)
Definition rejected (l : list string) (v : value) : bool :=
  truthy v && negb (includes l v).

(** A 400 with the [ValidationError] kind. *)
Definition validation_error (r : response) : Prop :=
  code r = 400%Z /\ exists m, body r = ErrorBody "ValidationError" m.


(** The tasks a list response carries. *)
Definition listed (r : response) : list task :=
  match body r with
  | TaskList _ l => l
  | _ => []
  end.

(** A filter that is supplied selects the rows whose column equals it. *)
Definition matches_filter (v : value) (column : string) : bool :=
  negb (truthy v) || includes [column] v.

(** Newest first. *)
Definition newer_or_same (a b : task) : Prop :=
  String.leb (t_created_at b) (t_created_at a) = true.

(** A value that takes the one parameter of [WHERE email = ?] as [e]. *)
Definition looked_up_as (email : value) (e : sqlval) : Prop :=
  bind_args 1 [email] = Ok [e].

(** An email that a row of [users] holds. *)
Definition registered (email : value) (d : db) : Prop :=
  exists e, looked_up_as email e /\
            existsb (fun u => col_eq (u_email u) e) (users d) = true.

(** A signup body that passes the two input checks. *)
Definition passes_input_checks (req : signup_body) : Prop :=
  truthy (s_name req) = true /\ truthy (s_email req) = true /\
  truthy (s_password req) = true /\
  AuthController.shorter_than_8 (s_password req) = Ok false.

(** A string with a space in it. *)
Fixpoint has_space (s : string) : bool :=
  match s with
  | EmptyString => false
  | String c r => Ascii.eqb c " "%char || has_space r
  end.

(** The middleware answered 401 with the given error kind. *)
Definition rejected_as (o : AuthMiddleware.outcome) (kind : string) : Prop :=
  exists m, o = AuthMiddleware.Responded (mkResponse 401 (ErrorBody kind m)).

(** A login whose email matches no user, and one whose email matches the
    user [u]. *)
Definition unknown_email (req : login_body) (d : db) : Prop :=
  exists e,
    looked_up_as (l_email req) e /\
    find (fun u => col_eq (u_email u) e) (users d) = None.

Definition known_email (req : login_body) (d : db) (u : user) : Prop :=
  exists e,
    looked_up_as (l_email req) e /\
    find (fun u => col_eq (u_email u) e) (users d) = Some u.

(** Password verification against the stored hash fails: [bcrypt.compare]
    answers false, or rejects. *)
Definition verification_fails (compare : string -> string -> bool)
    (password : value) (hash : string) : Prop :=
  AuthController.await_compare compare password hash <> Ok true.

Definition both_fields_present (req : login_body) : Prop :=
  truthy (l_email req) = true /\ truthy (l_password req) = true.

End Props.

(* ------------------------------------------------------------------ *)
(** ** The specification's sentences the code departs from, as worded *)

Module AsWorded.
Import Js Store Http TaskController AuthController Props.

(** "a field explicitly sent as empty/null does overwrite": every present
    field overwrites, on every PATCH of an owned task. *)
Definition every_present_field_overwrites (user : identity) (id : string)
    (req : task_body) (now : string) (d : db) : Prop :=
  forall t,
    find (fun x => String.eqb (t_id x) id && String.eqb (t_user_id x) (uid user))
         (tasks d) = Some t ->
    exists t',
      stored (db_of (updateTask user id req now d)) id = Some t' /\
      absent_fields_kept req t t' /\
      present_fields_overwrite req t' /\
      (code (response_of (updateTask user id req now d)) = 200%Z ->
       t_updated_at t' = now).

(** "must surface as Conflict rather than a generic failure": an email that
    is registered when the handler looks it up, or by the time it inserts,
    gives 409 Conflict. *)
Definition duplicate_email_is_conflict (hash : string -> string)
    (sign : identity -> string) (req : signup_body) (userId now : string)
    (during_await : db -> db) (d : db) : Prop :=
  passes_input_checks req ->
  registered (s_email req) d \/ registered (s_email req) (during_await d) ->
  let r := response_of (signup hash sign req userId now during_await d) in
  code r = 409%Z /\ exists m, body r = ErrorBody "Conflict" m.

(** "identical InvalidCredentials failure in both cases": with both fields
    present, an email that matches no user and an email that matches a user
    whose stored hash the password fails against get the same 401. *)
Definition login_failures_are_identical (compare : string -> string -> bool)
    (sign : identity -> string) (r1 r2 : login_body) (d : db) : Prop :=
  both_fields_present r1 -> both_fields_present r2 ->
  unknown_email r1 d ->
  (exists u, known_email r2 d u /\
             verification_fails compare (l_password r2) (u_password u)) ->
  response_of (login compare sign r1 d) = invalid_credentials /\
  response_of (login compare sign r2 d) = invalid_credentials.

(** "an invalid status value yields ValidationError and no query
    execution": a status in the query that is not in the enumeration is
    answered 400 with no statement run. *)
Definition invalid_status_is_rejected (user : identity) (q : list_query)
    (d : db) : Prop :=
  defined (q_status q) = true -> includes VALID_STATUSES (q_status q) = false ->
  validation_error (response_of (listTasks user q d)) /\
  ran (listTasks user q d) = [].

(** "status/priority, if supplied, validated against their enumerations":
    a present value, empty string and null included, is a member or the
    request is a ValidationError that writes nothing. *)
Definition present_enum_checked (l : list string) (v : value)
    (out : response * db * list stmt) (d : db) : Prop :=
  defined v = true ->
  includes l v = true \/ (validation_error (response_of out) /\ db_of out = d).


End AsWorded.

(* ------------------------------------------------------------------ *)
(** ** A small deployment to run the handlers on *)

Module Demo.
Import Js Store Http TaskController AuthController Server.

Definition alice : identity := mkIdentity "u-alice" (VStr "alice@x.com").
Definition bob : identity := mkIdentity "u-bob" (VStr "bob@x.com").

(** Stand-ins for the two packages: a token is the user id behind a prefix,
    ["stale:"] marking one whose expiry has passed. *)
Definition demo_verify (token : string) : result identity :=
  if token =? "tok:u-alice" then Ok alice
  else if token =? "tok:u-bob" then Ok bob
  else if token =? "stale:u-alice" then Throw (mkExn "TokenExpiredError" None "jwt expired")
  else Throw (mkExn "JsonWebTokenError" None "invalid signature").

Definition demo_sign (payload : identity) : string := "tok:" ++ uid payload.
Definition demo_hash (s : string) : string := "$2a$10$" ++ s.
Definition demo_compare (s hash : string) : bool := hash =? demo_hash s.

Definition demo_lib : packages :=
  mkPackages demo_verify demo_sign demo_hash demo_compare.

Definition signup_alice : request :=
  PostSignup (mkSignup (VStr "Alice") (VStr "alice@x.com") (VStr "longenough1"))
             "u-alice" "2024-05-01 09:00:00" (fun d => d).

Definition signup_bob : request :=
  PostSignup (mkSignup (VStr "Bob") (VStr "bob@x.com") (VStr "longenough2"))
             "u-bob" "2024-05-01 09:30:00" (fun d => d).

Definition create_t1 : request :=
  PostTasks (Some "Bearer tok:u-alice")
            (mkBody (VStr "t1") VUndefined VUndefined VUndefined VUndefined)
            "task-1" "2024-05-02 08:00:00".

Definition create_t2 : request :=
  PostTasks (Some "Bearer tok:u-alice")
            (mkBody (VStr " write report ") (VStr "quarterly") (VStr "completed")
                    (VStr "high") (VStr "2024-06-30"))
            "task-2" "2024-05-03 08:00:00".

Definition create_t3 : request :=
  PostTasks (Some "Bearer tok:u-bob")
            (mkBody (VStr "groceries") VUndefined VUndefined VUndefined VUndefined)
            "task-3" "2024-05-02 12:00:00".

Definition task1 : task :=
  mkTask "task-1" "u-alice" "t1" None "pending" "medium" None
         "2024-05-02 08:00:00" "2024-05-02 08:00:00".

Definition task2 : task :=
  mkTask "task-2" "u-alice" "write report" (Some "quarterly") "completed" "high"
         (Some "2024-06-30") "2024-05-03 08:00:00" "2024-05-03 08:00:00".

Definition task3 : task :=
  mkTask "task-3" "u-bob" "groceries" None "pending" "medium" None
         "2024-05-02 12:00:00" "2024-05-02 12:00:00".

Definition later : string := "2024-05-09 00:00:00".

Definition only_title (v : value) : task_body :=
  mkBody v VUndefined VUndefined VUndefined VUndefined.

Definition only_status (v : value) : task_body :=
  mkBody VUndefined VUndefined v VUndefined VUndefined.

(** A second signup for Alice's address, and the first one completing while
    the second awaits its hash. *)
Definition signup_alice_again : signup_body :=
  mkSignup (VStr "Alicia") (VStr "alice@x.com") (VStr "another-pass").

Definition rival_signup (d : db) : db := db_of (serve demo_lib signup_alice d).

Definition run (rs : list request) (d : db) : db :=
  fold_left (fun acc r => db_of (serve demo_lib r acc)) rs d.

(** The responses a run of requests gets, first request first. *)
Fixpoint transcript (rs : list request) (d : db) : list response :=
  match rs with
  | [] => []
  | r :: rest =>
      response_of (serve demo_lib r d) :: transcript rest (db_of (serve demo_lib r d))
  end.

(** Two users, three tasks. *)
Definition demo_db : db :=
  Eval vm_compute in
    run [signup_alice; signup_bob; create_t1; create_t2; create_t3] empty_db.

End Demo.

(* ------------------------------------------------------------------ *)
(** ** Predicates for the behaviour of the handlers beyond the claims *)

Module Behaviour.
Import Js Store Http TaskController AuthController Server Props.

(** [v || null] for a field that is a string or falsy: the text stored. *)
Definition supplied_text (v : value) : option string :=
  match v with
  | VStr s => if s =? "" then None else Some s
  | _ => None
  end.

(** [v || dflt] for such a field. *)
Definition supplied_or (v : value) (dflt : string) : string :=
  match supplied_text v with
  | Some s => s
  | None => dflt
  end.

Definition text_or_falsy (v : value) : bool :=
  match v with
  | VStr _ => true
  | _ => negb (truthy v)
  end.

(** A title that is a string and not blank. *)
Definition title_given (v : value) : bool :=
  match v with
  | VStr s => negb (trim s =? "")
  | _ => false
  end.

(** A title with no [trim] method that is not falsy either. *)
Definition title_not_text (v : value) : bool :=
  match v with
  | VStr _ => false
  | _ => truthy v
  end.

(** A POST body every field of which passes the handler and binds. *)
Definition creatable (req : task_body) : bool :=
  title_given (b_title req)
  && text_or_falsy (b_description req)
  && negb (rejected VALID_STATUSES (b_status req))
  && negb (rejected VALID_PRIORITIES (b_priority req))
  && text_or_falsy (b_due_date req).

(** The row such a body becomes. *)
Definition created_row (user : identity) (req : task_body) (taskId now : string)
  : task :=
  mkTask taskId (uid user)
         (match b_title req with VStr s => trim s | _ => "" end)
         (supplied_text (b_description req))
         (supplied_or (b_status req) "pending")
         (supplied_or (b_priority req) "medium")
         (supplied_text (b_due_date req))
         now now.

(** The same row with a later [updated_at]. *)
Definition touch (now : string) (t : task) : task :=
  mkTask (t_id t) (t_user_id t) (t_title t) (t_description t) (t_status t)
         (t_priority t) (t_due_date t) (t_created_at t) now.

(** Status and priority of a row are in their enumerations. *)
Definition enum_ok (t : task) : Prop :=
  In (t_status t) VALID_STATUSES /\ In (t_priority t) VALID_PRIORITIES.

(** A row the data model accepts: a title that is not blank, status and
    priority in their enumerations. *)
Definition valid_row (t : task) : Prop := title_ok t /\ enum_ok t.

(** A PATCH field that is absent or passes as supplied: a title that is a
    non-blank string, a status or priority that is truthy (and so checked). *)
Definition title_kept_or_given (v : value) : bool :=
  negb (defined v) || title_given v.

Definition enum_kept_or_checked (v : value) : bool :=
  negb (defined v) || truthy v.

(** The routes that only read: login and the two GETs. *)
Definition reads_only (r : request) : bool :=
  match r with
  | PostLogin _ | GetTasks _ _ | GetTaskById _ _ => true
  | _ => false
  end.

(** The row a task request addresses: the id of the route and the caller. *)
Definition addressed (user : identity) (id : string) (x : task) : bool :=
  String.eqb (t_id x) id && String.eqb (t_user_id x) (uid user).

(** The statuses the handlers send and the shape of the body that goes with
    each: an error body with 400, 401, 404, 409 or 500, the generic message
    with 500, and anything else with 200 or 201. *)
Definition documented (r : response) : Prop :=
  match body r with
  | ErrorBody kind msg =>
      In (code r) [400; 401; 404; 409; 500]%Z /\ kind <> "" /\
      (code r = 500%Z -> msg = generic_message)
  | _ => In (code r) [200; 201]%Z
  end.

(** A computation whose exceptions carry no [status]. *)
Definition throws_plain {A : Type} (m : M A) : Prop :=
  forall d e d' q, m d = (Throw e, d', q) -> Js.status e = None.

(** A controller body: what it returns is documented and what it throws is
    plain. *)
Definition well_behaved (m : M response) : Prop :=
  forall d,
    match fst (fst (m d)) with
    | Ok r => documented r
    | Throw e => Js.status e = None
    end.

(** The header a request is authenticated with; the two auth routes have
    none. *)
Definition authorization_of (r : request) : option (option string) :=
  match r with
  | PostSignup _ _ _ _ | PostLogin _ => None
  | GetTasks a _ | PostTasks a _ _ _ | GetTaskById a _
  | PatchTaskById a _ _ _ | DeleteTaskById a _ => Some a
  end.

(** [id] and [email] of [users] are unique. *)
Definition users_unique (d : db) : Prop :=
  NoDup (map u_id (users d)) /\ NoDup (map u_email (users d)).

(** What the service relies on from [jsonwebtoken] and [bcryptjs]: the
    token signed for a payload verifies to that payload and has no space in
    it, and a password compares equal to its own hash. *)
Definition token_round_trips (lib : packages) (payload : identity) : Prop :=
  jwt_verify lib (jwt_sign lib payload) = Ok payload /\
  has_space (jwt_sign lib payload) = false.

Definition hash_verifies (lib : packages) : Prop :=
  forall password, bcrypt_compare lib password (bcrypt_hash lib password) = true.

End Behaviour.

(* ------------------------------------------------------------------ *)
(** * Facts *)

Import Js Store Http TaskController AuthController Server Props.

(** ** Lists and rows *)

Lemma db_eta (d : db) : mkDb (users d) (tasks d) = d.
Proof. destruct d; reflexivity. Qed.

Lemma nodup_map_inj {A B : Type} (f : A -> B) (l : list A) (x y : A) :
  NoDup (map f l) -> In x l -> In y l -> f x = f y -> x = y.
Proof.
  induction l as [|a l IH]; simpl; intros Hnd Hx Hy Hf; [contradiction|].
  inversion Hnd as [|? ? Hnotin Hnd']; subst.
  destruct Hx as [->|Hx], Hy as [->|Hy]; trivial.
  - exfalso. apply Hnotin. rewrite Hf. now apply in_map.
  - exfalso. apply Hnotin. rewrite <- Hf. now apply in_map.
  - now apply IH.
Qed.

Lemma find_none_iff {A : Type} (f : A -> bool) (l : list A) :
  find f l = None <-> (forall x, In x l -> f x = false).
Proof.
  split.
  - intros H x Hx. now apply (find_none f l H).
  - induction l as [|a l IH]; simpl; intros H; [reflexivity|].
    rewrite (H a (or_introl eq_refl)). apply IH. intros x Hx. apply H. now right.
Qed.

Lemma filter_all_false {A : Type} (f : A -> bool) (l : list A) :
  (forall x, In x l -> f x = false) -> filter f l = [].
Proof.
  induction l as [|a l IH]; simpl; intros H; [reflexivity|].
  rewrite (H a (or_introl eq_refl)). apply IH. intros x Hx. apply H. now right.
Qed.

Lemma filter_all_true {A : Type} (f : A -> bool) (l : list A) :
  (forall x, In x l -> f x = true) -> filter f l = l.
Proof.
  induction l as [|a l IH]; simpl; intros H; [reflexivity|].
  rewrite (H a (or_introl eq_refl)). f_equal. apply IH. intros x Hx. apply H. now right.
Qed.

(** Under the primary key, a task id names one row: nobody else's row
    answers to it. *)
Lemma foreign_row_invisible (d : db) (t : task) (who : string) :
  pk_ok d -> In t (tasks d) -> who <> t_user_id t ->
  forall x, In x (tasks d) ->
    (String.eqb (t_id x) (t_id t) && String.eqb (t_user_id x) who) = false.
Proof.
  intros Hpk Ht Hne x Hx.
  destruct (String.eqb_spec (t_id x) (t_id t)) as [Hid|]; [|reflexivity].
  assert (x = t) by (eapply nodup_map_inj; eauto). subst x.
  simpl. apply String.eqb_neq. congruence.
Qed.

Lemma own_row_found (d : db) (t : task) :
  pk_ok d -> In t (tasks d) ->
  find (fun x => String.eqb (t_id x) (t_id t) && String.eqb (t_user_id x) (t_user_id t))
       (tasks d) = Some t.
Proof.
  intros Hpk Ht.
  destruct (find _ (tasks d)) as [x|] eqn:E.
  - apply find_some in E. destruct E as [Hx Hb].
    apply andb_prop in Hb. destruct Hb as [Hid _].
    apply String.eqb_eq in Hid. f_equal. eapply nodup_map_inj; eauto.
  - exfalso. pose proof (find_none _ _ E t Ht) as H. simpl in H.
    now rewrite !String.eqb_refl in H.
Qed.

Lemma stored_found (d : db) (t : task) :
  pk_ok d -> In t (tasks d) -> stored d (t_id t) = Some t.
Proof.
  intros Hpk Ht. unfold stored.
  destruct (find _ (tasks d)) as [x|] eqn:E.
  - apply find_some in E. destruct E as [Hx Hid].
    apply String.eqb_eq in Hid. f_equal. eapply nodup_map_inj; eauto.
  - exfalso. pose proof (find_none _ _ E t Ht) as H. simpl in H.
    now rewrite String.eqb_refl in H.
Qed.

(** ** Parameter binding *)

Lemma bind_array_throw (free : nat) (l : list value) (e : exn) :
  bind_array free l = Throw e -> Js.status e = None.
Proof.
  revert free. induction l as [|v l IH]; intros free; simpl; [discriminate|].
  destruct (bind_value v); [|intros H; inversion H; reflexivity].
  destruct free as [|free]; [intros H; inversion H; reflexivity|].
  destruct (bind_array free l) as [[ps u]|e0] eqn:E; [discriminate|].
  intros H. inversion H. subst. now apply (IH free).
Qed.

Lemma bind_each_throw (free : nat) (seen : bool) (args : list value) (e : exn) :
  bind_each free seen args = Throw e -> Js.status e = None.
Proof.
  revert free seen. induction args as [|v args IH]; intros free seen;
    [discriminate|].
  destruct v as [| |b0|n|s|elements|]; cbn [bind_each bind_value];
    try (intros H; inversion H; reflexivity);
    try (destruct free as [|free]; [intros H; inversion H; reflexivity|];
         destruct (bind_each free seen args) as [[ps u]|e0] eqn:E; [discriminate|];
         intros H; inversion H; subst; now apply (IH free seen)).
  - destruct (bind_array free elements) as [[ps u]|e0] eqn:Ea.
    + destruct (bind_each u seen args) as [[qs u']|e1] eqn:E; [discriminate|].
      intros H. inversion H. subst. now apply (IH u seen).
    + intros H. inversion H. subst. now apply (bind_array_throw free elements).
  - destruct seen; [intros H; inversion H; reflexivity|apply IH].
Qed.

Lemma bind_args_throw (params : nat) (args : list value) (e : exn) :
  bind_args params args = Throw e -> Js.status e = None.
Proof.
  unfold bind_args.
  destruct (bind_each params false args) as [[ps [|u]]|e0] eqn:E;
    intros H; inversion H; subst; [reflexivity|].
  now apply (bind_each_throw params false args).
Qed.

Lemma bind_array_count (free : nat) (l : list value) (ps : list sqlval) (u : nat) :
  bind_array free l = Ok (ps, u) -> free = List.length ps + u.
Proof.
  revert free ps. induction l as [|v l IH]; intros free ps; simpl.
  - intros H. inversion H. reflexivity.
  - destruct (bind_value v); [|discriminate].
    destruct free as [|free]; [discriminate|].
    destruct (bind_array free l) as [[qs u']|] eqn:E; [|discriminate].
    intros H. inversion H. subst. simpl. f_equal. now apply IH.
Qed.

Lemma bind_each_count (free : nat) (seen : bool) (args : list value)
    (ps : list sqlval) (u : nat) :
  bind_each free seen args = Ok (ps, u) -> free = List.length ps + u.
Proof.
  revert free seen ps. induction args as [|v args IH]; intros free seen ps.
  - simpl. intros H. inversion H. reflexivity.
  - destruct v as [| |b0|n|s|elements|]; cbn [bind_each bind_value]; try discriminate;
      try (destruct free as [|free]; [discriminate|];
           destruct (bind_each free seen args) as [[qs u']|] eqn:E; [|discriminate];
           intros H; inversion H; subst; simpl; f_equal; now apply (IH free seen)).
    + destruct (bind_array free elements) as [[qs u0]|] eqn:Ea; [|discriminate].
      destruct (bind_each u0 seen args) as [[rs u1]|] eqn:E; [|discriminate].
      intros H. inversion H. subst. rewrite length_app.
      rewrite (bind_array_count _ _ _ _ Ea), (IH _ _ _ E). lia.
    + destruct seen; [discriminate|apply IH].
Qed.

Lemma bind_args_each (params : nat) (args : list value) (ps : list sqlval) :
  bind_args params args = Ok ps <-> bind_each params false args = Ok (ps, 0).
Proof.
  unfold bind_args.
  destruct (bind_each params false args) as [[qs [|u]]|e]; split; intros H;
    inversion H; reflexivity.
Qed.

Lemma bind_args_length (params : nat) (args : list value) (ps : list sqlval) :
  bind_args params args = Ok ps -> List.length ps = params.
Proof.
  intros H. apply bind_args_each in H. apply bind_each_count in H. lia.
Qed.

(** Two strings at the end of the arguments take the last two parameters. *)
Lemma bind_each_last_two (free : nat) (seen : bool) (args : list value)
    (a b : string) (ps : list sqlval) (u : nat) :
  bind_each free seen (args ++ [VStr a; VStr b]) = Ok (ps, u) ->
  exists qs, ps = qs ++ [SqlText a; SqlText b] /\
             bind_each free seen args = Ok (qs, S (S u)).
Proof.
  revert free seen ps. induction args as [|v args IH]; intros free seen ps.
  - cbn. destruct free as [|[|free]]; try discriminate.
    intros H. inversion H. subst. exists []. split; reflexivity.
  - rewrite <- app_comm_cons.
    destruct v as [| |b0|n|s|elements|]; cbn [bind_each bind_value]; try discriminate;
      try (destruct free as [|free]; [discriminate|];
           destruct (bind_each free seen (args ++ _)) as [[qs u']|] eqn:E;
             [|discriminate];
           intros H; inversion H; subst;
           destruct (IH _ _ _ E) as (rs & -> & ->);
           match goal with
           | |- exists _, ?p :: _ = _ /\ _ => exists (p :: rs)
           end; split; reflexivity).
    + destruct (bind_array free elements) as [[qs u0]|] eqn:Ea; [|discriminate].
      destruct (bind_each u0 seen (args ++ _)) as [[rs u1]|] eqn:E; [|discriminate].
      intros H. inversion H. subst.
      destruct (IH _ _ _ E) as (ts & -> & ->).
      exists (qs ++ ts). split; [now rewrite app_assoc|reflexivity].
    + destruct seen; [discriminate|apply IH].
Qed.

(** Without an array among the arguments, no value is spread: when as many
    values are bound as there are arguments, each argument is bound at its
    own position. *)
Lemma bind_each_in_place (free : nat) (seen : bool) (args : list value)
    (ps : list sqlval) (u : nat) :
  Forall (fun v => is_array v = false) args ->
  bind_each free seen args = Ok (ps, u) ->
  List.length ps <= List.length args /\
  (List.length ps = List.length args ->
   Forall2 (fun v p => bind_value v = Some p) args ps).
Proof.
  intros Hflat. revert free seen ps.
  induction Hflat as [|v args Hv Hflat IH]; intros free seen ps.
  - simpl. intros H. inversion H. subst. split; [simpl; lia|constructor].
  - destruct v as [| |b0|n|s|elements|]; cbn [bind_each bind_value]; try discriminate;
      try (simpl in Hv; discriminate Hv);
      try (destruct free as [|free]; [discriminate|];
           destruct (bind_each free seen args) as [[qs u']|] eqn:E; [|discriminate];
           intros H; inversion H; subst;
           destruct (IH _ _ _ E) as [Hle Hall]; simpl;
           split; [lia|intros Hlen; constructor; [reflexivity|apply Hall; lia]]).
    destruct seen; [discriminate|]. intros H.
    destruct (IH _ _ _ H) as [Hle _]. simpl. split; [lia|intros; lia].
Qed.

(** Conversely, arguments that are bound one by one bind in place. *)
Lemma bind_each_of_values (args : list value) (ps : list sqlval) (u : nat)
    (seen : bool) :
  Forall2 (fun v p => bind_value v = Some p) args ps ->
  bind_each (List.length ps + u) seen args = Ok (ps, u).
Proof.
  induction 1 as [|v p args ps Hv Hall IH]; [reflexivity|].
  destruct v; simpl in Hv; try discriminate; inversion Hv; subst;
    cbn [bind_each bind_value List.length Nat.add]; now rewrite IH.
Qed.

Lemma bind_each_string (free : nat) (seen : bool) (s : string) (rest : list value) :
  bind_each (S free) seen (VStr s :: rest)
  = match bind_each free seen rest with
    | Ok (ps, u) => Ok (SqlText s :: ps, u)
    | Throw e => Throw e
    end.
Proof. reflexivity. Qed.

Lemma four_cells (qs : list sqlval) :
  List.length qs = 4 -> exists a b c e, qs = [a; b; c; e].
Proof.
  destruct qs as [|a [|b [|c [|e [|f qs]]]]]; try discriminate. eauto.
Qed.

(** The INSERT of POST /api/tasks: id, owner and title take the first three
    parameters. *)
Lemma post_args_bound (id uid title : string) (req : task_body) (ps : list sqlval) :
  bind_args 7 (post_args id uid title req) = Ok ps ->
  exists de st pr du,
    ps = [SqlText id; SqlText uid; SqlText title; de; st; pr; du].
Proof.
  intros H. apply bind_args_each in H. unfold post_args in H.
  rewrite !bind_each_string in H.
  destruct (bind_each 4 false _) as [[qs u]|] eqn:E; [|discriminate].
  inversion H. subst. apply bind_each_count in E.
  destruct (four_cells qs ltac:(lia)) as (de & st & pr & du & ->). eauto.
Qed.

(** The UPDATE of PATCH /api/tasks/:id: the title takes the first parameter,
    the id and the owner of the WHERE clause the last two. *)
Lemma patch_args_bound (title : string) (req : task_body) (t : task)
    (id uid : string) (ps : list sqlval) :
  bind_args 7 (patch_args title req t id uid) = Ok ps ->
  exists de st pr du,
    ps = [SqlText title; de; st; pr; du; SqlText id; SqlText uid].
Proof.
  intros H. apply bind_args_each in H. unfold patch_args in H.
  rewrite bind_each_string in H.
  match type of H with
  | context [bind_each 6 false [?a; ?b; ?c; ?e; VStr id; VStr uid]] =>
      change [a; b; c; e; VStr id; VStr uid]
        with ([a; b; c; e] ++ [VStr id; VStr uid]) in H
  end.
  destruct (bind_each 6 false _) as [[qs u]|] eqn:E; [|discriminate].
  inversion H. subst.
  destruct (bind_each_last_two _ _ _ _ _ _ _ E) as (rs & -> & Hrs).
  apply bind_each_count in Hrs.
  destruct (four_cells rs ltac:(lia)) as (de & st & pr & du & ->).
  exists de, st, pr, du. reflexivity.
Qed.

Lemma accepted_not_array (l : list string) (v : value) :
  truthy v && negb (includes l v) = false -> is_array v = false.
Proof. destruct v; simpl; try reflexivity. discriminate. Qed.

Lemma of_cell_not_array (c : option string) : is_array (of_cell c) = false.
Proof. now destruct c. Qed.

Lemma or_else_not_array (v dflt : value) :
  is_array v = false -> is_array dflt = false -> is_array (or_else v dflt) = false.
Proof. unfold or_else. now destruct (truthy v). Qed.

Lemma merged_not_array (v stored : value) :
  is_array v = false -> is_array stored = false -> is_array (merged v stored) = false.
Proof. unfold merged. now destruct (defined v). Qed.

(** With no array in the body every field of a POST is bound to its own
    column. *)
Lemma post_args_in_place (id uid title : string) (req : task_body)
    (de st pr du : sqlval) :
  no_array req ->
  truthy (b_status req) && negb (includes VALID_STATUSES (b_status req)) = false ->
  truthy (b_priority req) && negb (includes VALID_PRIORITIES (b_priority req)) = false ->
  bind_args 7 (post_args id uid title req)
  = Ok [SqlText id; SqlText uid; SqlText title; de; st; pr; du] ->
  bind_value (or_else (b_description req) VNull) = Some de /\
  bind_value (or_else (b_status req) (VStr "pending")) = Some st /\
  bind_value (or_else (b_priority req) (VStr "medium")) = Some pr /\
  bind_value (or_else (b_due_date req) VNull) = Some du.
Proof.
  intros [Hde Hdu] Hrs Hrp H. apply bind_args_each in H.
  apply bind_each_in_place in H.
  - destruct H as [_ H]. specialize (H eq_refl). unfold post_args in H.
    repeat match goal with
           | H : Forall2 _ (_ :: _) (_ :: _) |- _ =>
               inversion H; clear H; subst
           end.
    repeat split; assumption.
  - unfold post_args.
    repeat constructor;
      try (apply or_else_not_array;
           first [ assumption | reflexivity
                 | eapply accepted_not_array; eassumption ]).
Qed.

(** Likewise for the fields of a PATCH. *)
Lemma patch_args_in_place (title : string) (req : task_body) (t : task)
    (id uid : string) (de st pr du : sqlval) :
  no_array req ->
  truthy (b_status req) && negb (includes VALID_STATUSES (b_status req)) = false ->
  truthy (b_priority req) && negb (includes VALID_PRIORITIES (b_priority req)) = false ->
  bind_args 7 (patch_args title req t id uid)
  = Ok [SqlText title; de; st; pr; du; SqlText id; SqlText uid] ->
  bind_value (merged (b_description req) (of_cell (t_description t))) = Some de /\
  bind_value (merged (b_status req) (VStr (t_status t))) = Some st /\
  bind_value (merged (b_priority req) (VStr (t_priority t))) = Some pr /\
  bind_value (merged (b_due_date req) (of_cell (t_due_date t))) = Some du.
Proof.
  intros [Hde Hdu] Hrs Hrp H. apply bind_args_each in H.
  apply bind_each_in_place in H.
  - destruct H as [_ H]. specialize (H eq_refl). unfold patch_args in H.
    repeat match goal with
           | H : Forall2 _ (_ :: _) (_ :: _) |- _ =>
               inversion H; clear H; subst
           end.
    repeat split; assumption.
  - unfold patch_args.
    repeat constructor;
      try (apply merged_not_array;
           first [ assumption | apply of_cell_not_array | reflexivity
                 | eapply accepted_not_array; eassumption ]).
Qed.

(** Fields that are bound one by one bind as the arguments of a PATCH. *)
Lemma patch_args_of_values (title : string) (req : task_body) (t : task)
    (id uid : string) (de st pr du : sqlval) :
  bind_value (merged (b_description req) (of_cell (t_description t))) = Some de ->
  bind_value (merged (b_status req) (VStr (t_status t))) = Some st ->
  bind_value (merged (b_priority req) (VStr (t_priority t))) = Some pr ->
  bind_value (merged (b_due_date req) (of_cell (t_due_date t))) = Some du ->
  bind_args 7 (patch_args title req t id uid)
  = Ok [SqlText title; de; st; pr; du; SqlText id; SqlText uid].
Proof.
  intros Hde Hst Hpr Hdu. apply bind_args_each.
  apply (bind_each_of_values (patch_args title req t id uid)
           [SqlText title; de; st; pr; du; SqlText id; SqlText uid] 0 false).
  unfold patch_args. repeat constructor; assumption.
Qed.

Lemma post_args_of_values (id uid title : string) (req : task_body)
    (de st pr du : sqlval) :
  bind_value (or_else (b_description req) VNull) = Some de ->
  bind_value (or_else (b_status req) (VStr "pending")) = Some st ->
  bind_value (or_else (b_priority req) (VStr "medium")) = Some pr ->
  bind_value (or_else (b_due_date req) VNull) = Some du ->
  bind_args 7 (post_args id uid title req)
  = Ok [SqlText id; SqlText uid; SqlText title; de; st; pr; du].
Proof.
  intros Hde Hst Hpr Hdu. apply bind_args_each.
  apply (bind_each_of_values (post_args id uid title req)
           [SqlText id; SqlText uid; SqlText title; de; st; pr; du] 0 false).
  unfold post_args. repeat constructor; assumption.
Qed.

(** A value that takes the one parameter of a lookup: a number, a string or
    [null], or an array of one of these. *)
Lemma looked_up_as_cases (v : value) (e : sqlval) :
  looked_up_as v e ->
  bind_value v = Some e \/ exists x, v = VArr [x] /\ bind_value x = Some e.
Proof.
  unfold looked_up_as, bind_args.
  destruct v as [| |b|n|s|l|]; cbn; try discriminate;
    try (intros H; inversion H; now left).
  destruct l as [|x [|y l]]; cbn; try discriminate.
  - destruct (bind_value x) as [p|] eqn:E; [|discriminate].
    intros H. inversion H. subst. right. eauto.
  - destruct (bind_value x); [|discriminate]. destruct (bind_value y); discriminate.
Qed.

(** The INSERT of signup, for an email and a name that each take one
    parameter. *)
Lemma signup_args_bound (id hash : string) (email name : value) (e na : sqlval) :
  looked_up_as email e -> looked_up_as name na ->
  bind_args 4 [VStr id; email; VStr hash; name]
  = Ok [SqlText id; e; SqlText hash; na].
Proof.
  intros He Hna.
  destruct (looked_up_as_cases _ _ He) as [He' | (x & -> & He')];
    destruct (looked_up_as_cases _ _ Hna) as [Hna' | (y & -> & Hna')];
    unfold bind_args.
  - destruct email; simpl in He'; try discriminate; inversion He'; subst;
      destruct name; simpl in Hna'; try discriminate; inversion Hna'; subst;
      reflexivity.
  - destruct email; simpl in He'; try discriminate; inversion He'; subst;
      cbn; rewrite Hna'; reflexivity.
  - destruct name; simpl in Hna'; try discriminate; inversion Hna'; subst;
      cbn; rewrite He'; reflexivity.
  - cbn. rewrite He'. cbn. rewrite Hna'. reflexivity.
Qed.

Lemma string_looked_up (s : string) : looked_up_as (VStr s) (SqlText s).
Proof. reflexivity. Qed.

Example bind_a_number : bind_args 1 [VNum 5] = Ok [SqlText "5.0"].
Proof. reflexivity. Qed.

Example bind_a_large_number :
  bind_args 1 [VNum 9007199254740992] = Ok [SqlText "9.00719925474099e+15"].
Proof. reflexivity. Qed.

Example bind_a_number_that_rounds_up :
  bind_args 1 [VNum 9999999999999995] = Ok [SqlText "1.0e+16"].
Proof. reflexivity. Qed.

Example bind_a_negative_number :
  bind_args 1 [VNum (-1234567890123456789)] = Ok [SqlText "-1.23456789012346e+18"].
Proof. reflexivity. Qed.

Example bind_spreads_an_array :
  bind_args 3 [VStr "a"; VArr [VNull; VNum (-2)]] = Ok [SqlText "a"; SqlNull; SqlText "-2.0"].
Proof. reflexivity. Qed.

Example bind_an_empty_array : bind_args 1 [VArr []] = Throw too_few_values.
Proof. reflexivity. Qed.

Example bind_an_object : bind_args 1 [VObj] = Throw too_few_values.
Proof. reflexivity. Qed.

Example bind_an_object_and_an_array :
  bind_args 2 [VObj; VArr [VStr "a"; VStr "b"]] = Ok [SqlText "a"; SqlText "b"].
Proof. reflexivity. Qed.

Example bind_two_objects : bind_args 2 [VObj; VObj] = Throw two_objects.
Proof. reflexivity. Qed.

Example bind_an_array_in_an_array :
  bind_args 1 [VArr [VArr [VStr "a"]]] = Throw cannot_bind.
Proof. reflexivity. Qed.

Example bind_a_boolean : bind_args 1 [VBool true] = Throw cannot_bind.
Proof. reflexivity. Qed.

Example bind_one_value_too_many :
  bind_args 1 [VStr "a"; VStr "b"] = Throw too_many_values.
Proof. reflexivity. Qed.

(** ** Ownership isolation *)

(** C1. A task of user A, asked for by an identity whose id is not A's: GET,
    PATCH and DELETE on its id each answer 404 NotFound after one statement,
    the response carries no row, and the database is what it was. *)
Theorem ownership_isolation (d : db) (t : task) (b : identity)
    (req : task_body) (now : string) :
  pk_ok d -> In t (tasks d) -> uid b <> t_user_id t ->
  getTask b (t_id t) d = (not_found, d, [SelectTaskByIdAndUser]) /\
  updateTask b (t_id t) req now d = (not_found, d, [SelectTaskByIdAndUser]) /\
  deleteTask b (t_id t) d = (not_found, d, [DeleteTask]).
Proof.
  intros Hpk Ht Hne.
  pose proof (foreign_row_invisible d t (uid b) Hpk Ht Hne) as Hinv.
  assert (Hfind : find (fun x => String.eqb (t_id x) (t_id t)
                                 && String.eqb (t_user_id x) (uid b)) (tasks d) = None)
    by now apply find_none_iff.
  repeat split.
  - unfold getTask, try_next, bind, get_task_by_id_and_user. now rewrite Hfind.
  - unfold updateTask, try_next, bind, get_task_by_id_and_user. now rewrite Hfind.
  - unfold deleteTask, try_next, bind, delete_task.
    rewrite (filter_all_false _ _ Hinv).
    rewrite (filter_all_true (fun x => negb _) (tasks d)).
    + simpl. now rewrite db_eta.
    + intros x Hx. now rewrite (Hinv x Hx).
Qed.

Lemma demo_pk_ok : pk_ok Demo.demo_db.
Proof. unfold pk_ok. simpl. repeat constructor; simpl; intuition discriminate. Qed.

(** Bob against Alice's [task-1] in the demo database. *)
Lemma ownership_isolation_witness :
  getTask Demo.bob "task-1" Demo.demo_db
    = (not_found, Demo.demo_db, [SelectTaskByIdAndUser]) /\
  updateTask Demo.bob "task-1"
      (mkBody (VStr "mine now") VUndefined VUndefined VUndefined VUndefined)
      "2024-05-09 00:00:00" Demo.demo_db
    = (not_found, Demo.demo_db, [SelectTaskByIdAndUser]) /\
  deleteTask Demo.bob "task-1" Demo.demo_db = (not_found, Demo.demo_db, [DeleteTask]).
Proof.
  apply (ownership_isolation Demo.demo_db Demo.task1 Demo.bob).
  - exact demo_pk_ok.
  - simpl. now left.
  - simpl. discriminate.
Defined.

(** ** Listing *)

Lemma string_leb_trans (a b c : string) :
  String.leb a b = true -> String.leb b c = true -> String.leb a c = true.
Proof.
  unfold String.leb. revert b c.
  induction a as [|x a IH]; intros [|y b] [|z c]; simpl; try easy.
  unfold Ascii.compare.
  destruct (N.compare_spec (N_of_ascii x) (N_of_ascii y));
    destruct (N.compare_spec (N_of_ascii y) (N_of_ascii z));
    destruct (N.compare_spec (N_of_ascii x) (N_of_ascii z));
    try lia; try easy.
  apply IH.
Qed.

Lemma insert_desc_perm (t : task) (l : list task) :
  Permutation (insert_desc t l) (t :: l).
Proof.
  induction l as [|x r IH]; simpl; [reflexivity|].
  destruct (String.leb (t_created_at x) (t_created_at t)); [reflexivity|].
  rewrite IH. apply perm_swap.
Qed.

Lemma order_by_perm (l : list task) :
  Permutation (order_by_created_at_desc l) l.
Proof.
  induction l as [|x r IH]; simpl; [reflexivity|].
  rewrite insert_desc_perm. now constructor.
Qed.

Lemma insert_desc_sorted (t : task) (l : list task) :
  StronglySorted newer_or_same l -> StronglySorted newer_or_same (insert_desc t l).
Proof.
  induction l as [|x r IH]; simpl; intros Hs.
  - repeat constructor.
  - inversion Hs as [|? ? Hr Hall]; subst.
    destruct (String.leb (t_created_at x) (t_created_at t)) eqn:E.
    + constructor; [assumption|]. constructor; [exact E|].
      eapply Forall_impl; [|exact Hall]. intros y Hy. unfold newer_or_same in *.
      eapply string_leb_trans; eauto.
    + constructor; [now apply IH|].
      eapply Permutation_Forall; [symmetry; apply insert_desc_perm|].
      constructor; [|assumption]. unfold newer_or_same.
      destruct (String.leb_total (t_created_at x) (t_created_at t)); congruence.
Qed.

Lemma order_by_sorted (l : list task) :
  StronglySorted newer_or_same (order_by_created_at_desc l).
Proof.
  induction l as [|x r IH]; simpl; [constructor|]. now apply insert_desc_sorted.
Qed.

Lemma includes_member (l : list string) (s : string) :
  In s l -> includes l (VStr s) = true.
Proof.
  intros H. simpl. apply existsb_exists. exists s. split; [assumption|].
  apply String.eqb_refl.
Qed.

Lemma valid_status_truthy (s : string) :
  In s VALID_STATUSES -> truthy (VStr s) = true.
Proof. simpl. intuition (subst; reflexivity). Qed.

Lemma valid_priority_truthy (s : string) :
  In s VALID_PRIORITIES -> truthy (VStr s) = true.
Proof. simpl. intuition (subst; reflexivity). Qed.

Lemma accepted_filter (l : list string) (v : value) :
  rejected l v = false ->
  truthy v = false \/ exists s, v = VStr s /\ truthy v = true /\ includes l v = true.
Proof.
  unfold rejected. destruct (truthy v) eqn:T; [|now left].
  destruct v; simpl; try discriminate.
  intros H. right. exists s. apply negb_false_iff in H. auto.
Qed.

Lemma matches_unsupplied (v : value) (c : string) :
  truthy v = false -> matches_filter v c = true.
Proof. unfold matches_filter. now intros ->. Qed.

Lemma matches_supplied (s c : string) :
  truthy (VStr s) = true -> matches_filter (VStr s) c = String.eqb c s.
Proof.
  unfold matches_filter. intros ->. simpl.
  now rewrite orb_false_r, String.eqb_sym.
Qed.

(** C9, amended. For every caller: a query whose status and priority pass
    the checks is answered 200 with exactly the caller's tasks that match the
    supplied filters (a permutation of that selection), every task newer
    than or as new as all that follow it, and [count] their number.  In
    particular, with a valid status and no priority it is the caller's tasks
    of that status, and with no filter, or with a status that is the empty
    string, all of the caller's tasks.  A status that is not empty and not in
    the enumeration is a 400 ValidationError with no statement run. *)
Theorem list_filter_and_order (user : identity) (d : db) :
  (forall q,
     rejected VALID_STATUSES (q_status q) = false ->
     rejected VALID_PRIORITIES (q_priority q) = false ->
     exists l,
       listTasks user q d
         = (mkResponse 200 (TaskList (List.length l) l), d, [SelectTasksOfUser]) /\
       Permutation l (filter (fun t => String.eqb (t_user_id t) (uid user)
                                       && matches_filter (q_status q) (t_status t)
                                       && matches_filter (q_priority q) (t_priority t))
                             (tasks d)) /\
       StronglySorted newer_or_same l) /\
  (forall s p, In s VALID_STATUSES -> truthy p = false ->
     exists l,
       listTasks user (mkQuery (VStr s) p) d
         = (mkResponse 200 (TaskList (List.length l) l), d, [SelectTasksOfUser]) /\
       Permutation l (filter (fun t => String.eqb (t_user_id t) (uid user)
                                       && String.eqb (t_status t) s) (tasks d)) /\
       StronglySorted newer_or_same l) /\
  (forall st p, truthy st = false -> truthy p = false ->
     exists l,
       listTasks user (mkQuery st p) d
         = (mkResponse 200 (TaskList (List.length l) l), d, [SelectTasksOfUser]) /\
       Permutation l (filter (fun t => String.eqb (t_user_id t) (uid user)) (tasks d)) /\
       StronglySorted newer_or_same l) /\
  (forall st p, truthy st = true -> includes VALID_STATUSES st = false ->
     listTasks user (mkQuery st p) d = (invalid_status, d, [])).
Proof.
  repeat match goal with |- _ /\ _ => split end.
  - intros [st pr] Hs Hp. cbn [q_status q_priority] in *.
    destruct (accepted_filter _ _ Hs) as [Ts | (s & -> & Ts & Is)];
      destruct (accepted_filter _ _ Hp) as [Tp | (p & -> & Tp & Ip)];
      (eexists; split; [|split; [|apply order_by_sorted]];
       [ unfold listTasks, try_next; cbn [q_status q_priority];
         rewrite ?Ts, ?Tp, ?Is, ?Ip; cbn; reflexivity
       | rewrite order_by_perm;
         (erewrite filter_ext; [reflexivity|]); intros t; cbn beta;
         rewrite ?(matches_unsupplied _ _ Ts), ?(matches_unsupplied _ _ Tp),
                 ?(matches_supplied _ _ Ts), ?(matches_supplied _ _ Tp);
         cbn [where_all col_eq];
         rewrite ?andb_true_r, ?andb_assoc; reflexivity ]).
  - intros s p Hs Hp.
    eexists. split; [|split].
    + unfold listTasks, try_next. cbn [q_status q_priority].
      rewrite (valid_status_truthy s Hs), (includes_member _ s Hs), Hp.
      cbn. reflexivity.
    + rewrite order_by_perm.
      erewrite filter_ext; [reflexivity|]. intros t. cbn.
      now rewrite andb_true_r.
    + apply order_by_sorted.
  - intros st p Hst Hp.
    eexists. split; [|split].
    + unfold listTasks, try_next. cbn [q_status q_priority].
      rewrite Hst, Hp. cbn. reflexivity.
    + rewrite order_by_perm.
      erewrite filter_ext; [reflexivity|]. intros t. cbn.
      now rewrite !andb_true_r.
    + apply order_by_sorted.
  - intros st p Hst Hinc.
    unfold listTasks, try_next. cbn [q_status q_priority].
    now rewrite Hst, Hinc.
Qed.

Example list_pending_of_alice :
  listTasks Demo.alice (mkQuery (VStr "pending") VUndefined) Demo.demo_db
  = (mkResponse 200 (TaskList 1 [Demo.task1]), Demo.demo_db, [SelectTasksOfUser]).
Proof. reflexivity. Qed.

Example list_all_of_alice :
  listTasks Demo.alice (mkQuery VUndefined VUndefined) Demo.demo_db
  = (mkResponse 200 (TaskList 2 [Demo.task2; Demo.task1]), Demo.demo_db,
     [SelectTasksOfUser]).
Proof. reflexivity. Qed.

Example list_unknown_status :
  listTasks Demo.alice (mkQuery (VStr "done") VUndefined) Demo.demo_db
  = (invalid_status, Demo.demo_db, []).
Proof. reflexivity. Qed.

Example list_empty_status :
  listTasks Demo.alice (mkQuery (VStr "") VUndefined) Demo.demo_db
  = (mkResponse 200 (TaskList 2 [Demo.task2; Demo.task1]), Demo.demo_db,
     [SelectTasksOfUser]).
Proof. reflexivity. Qed.

(** C9, as worded, fails: [?status=] carries a status, the empty string,
    that is in no enumeration, and the answer is 200 with all of the
    caller's tasks after the SELECT has run. *)
Lemma empty_status_is_not_rejected :
  ~ AsWorded.invalid_status_is_rejected
      Demo.alice (mkQuery (VStr "") VUndefined) Demo.demo_db.
Proof.
  intros H. destruct (H eq_refl eq_refl) as [[Hcode _] _]. discriminate Hcode.
Qed.

(** ** Partial update *)

Lemma call_trim_throw (v : value) (e : exn) :
  call_trim v = Throw e -> Js.status e = None.
Proof. destruct v; simpl; intros H; inversion H; reflexivity. Qed.

Lemma errorHandler_code (e : exn) :
  Js.status e = None -> code (errorHandler e) = 500%Z.
Proof. unfold errorHandler. now intros ->. Qed.

Lemma own_row_exists (d : db) (t : task) :
  In t (tasks d) ->
  existsb (fun x => String.eqb (t_id x) (t_id t) && String.eqb (t_user_id x) (t_user_id t))
          (tasks d) = true.
Proof.
  intros Ht. apply existsb_exists. exists t. split; [assumption|].
  now rewrite !String.eqb_refl.
Qed.

Lemma find_map {A : Type} (f : A -> bool) (h : A -> A) (l : list A) :
  find f (map h l) = option_map h (find (fun x => f (h x)) l).
Proof.
  induction l as [|a l IH]; simpl; [reflexivity|].
  destruct (f (h a)); [reflexivity|exact IH].
Qed.

Lemma find_pointwise {A : Type} (f g : A -> bool) (l : list A) :
  (forall x, f x = g x) -> find f l = find g l.
Proof.
  intros H. induction l as [|a l IH]; simpl; [reflexivity|].
  rewrite H, IH. reflexivity.
Qed.

Lemma stored_after_update (d : db) (t : task) (g : task -> task) :
  pk_ok d -> In t (tasks d) -> (forall x, t_id (g x) = t_id x) ->
  find (fun x => String.eqb (t_id x) (t_id t))
       (map (fun x => if String.eqb (t_id x) (t_id t)
                         && String.eqb (t_user_id x) (t_user_id t)
                      then g x else x) (tasks d))
  = Some (g t).
Proof.
  intros Hpk Ht Hg. rewrite find_map.
  rewrite (find_pointwise _ (fun x => String.eqb (t_id x) (t_id t))).
  - fold (stored d (t_id t)). rewrite (stored_found d t Hpk Ht). simpl.
    now rewrite !String.eqb_refl.
  - intros x. destruct (_ && _); [now rewrite Hg|reflexivity].
Qed.

(** The values bound decide the run of a PATCH on an owned row. *)
Lemma updateTask_success_run (d : db) (t : task) (user : identity)
    (req : task_body) (now ti st pr : string) (de du : sqlval) :
  pk_ok d -> In t (tasks d) -> t_user_id t = uid user ->
  rejected VALID_STATUSES (b_status req) = false ->
  rejected VALID_PRIORITIES (b_priority req) = false ->
  merged_title (b_title req) t = Ok (VStr ti) ->
  bind_args 7 (patch_args ti req t (t_id t) (uid user))
  = Ok [SqlText ti; de; SqlText st; SqlText pr; du;
        SqlText (t_id t); SqlText (uid user)] ->
  updateTask user (t_id t) req now d
  = (mkResponse 200
       (TaskMessage "Task updated."
          (Some (mkTask (t_id t) (t_user_id t) ti (cell de) st pr (cell du)
                        (t_created_at t) now))),
     mkDb (users d)
          (map (fun x => if String.eqb (t_id x) (t_id t)
                            && String.eqb (t_user_id x) (uid user)
                         then set_columns (SqlText ti) de (SqlText st)
                                          (SqlText pr) du now x
                         else x) (tasks d)),
     [SelectTaskByIdAndUser; UpdateTask; SelectTaskById]).
Proof.
  intros Hpk Ht Hown Hrs Hrp Hti Hb.
  pose proof (own_row_found d t Hpk Ht) as Hfind.
  pose proof (own_row_exists d t Ht) as Hex.
  pose proof (stored_after_update d t
                (set_columns (SqlText ti) de (SqlText st) (SqlText pr) du now)
                Hpk Ht (fun x => eq_refl)) as Hsto.
  rewrite Hown in Hfind, Hex, Hsto.
  unfold rejected in Hrs, Hrp. unfold patch_args in Hb.
  unfold updateTask, try_next, bind, get_task_by_id_and_user.
  rewrite Hfind. cbv beta iota zeta.
  rewrite Hrs, Hrp.
  unfold lift. rewrite Hti. cbv beta iota.
  unfold update_task, bind, lift.
  rewrite Hb. cbv beta iota zeta. cbn [param nth col_eq is_null].
  rewrite Hex. cbn [andb].
  unfold get_task_by_id, ret. cbn [tasks users app].
  rewrite Hsto. reflexivity.
Qed.

Lemma updateTask_success (d : db) (t : task) (user : identity) (req : task_body)
    (now ti st pr : string) (de du : sqlval) :
  pk_ok d -> In t (tasks d) -> t_user_id t = uid user ->
  rejected VALID_STATUSES (b_status req) = false ->
  rejected VALID_PRIORITIES (b_priority req) = false ->
  merged_title (b_title req) t = Ok (VStr ti) ->
  bind_args 7 (patch_args ti req t (t_id t) (uid user))
  = Ok [SqlText ti; de; SqlText st; SqlText pr; du;
        SqlText (t_id t); SqlText (uid user)] ->
  let t' := mkTask (t_id t) (t_user_id t) ti (cell de) st pr (cell du)
                   (t_created_at t) now in
  response_of (updateTask user (t_id t) req now d)
    = mkResponse 200 (TaskMessage "Task updated." (Some t')) /\
  stored (db_of (updateTask user (t_id t) req now d)) (t_id t) = Some t' /\
  users (db_of (updateTask user (t_id t) req now d)) = users d /\
  ran (updateTask user (t_id t) req now d)
    = [SelectTaskByIdAndUser; UpdateTask; SelectTaskById].
Proof.
  intros Hpk Ht Hown Hrs Hrp Hti Hb t'.
  rewrite (updateTask_success_run d t user req now ti st pr de du
             Hpk Ht Hown Hrs Hrp Hti Hb).
  pose proof (stored_after_update d t
                (set_columns (SqlText ti) de (SqlText st) (SqlText pr) du now)
                Hpk Ht (fun x => eq_refl)) as Hsto.
  rewrite Hown in Hsto.
  unfold stored, response_of, db_of, ran. cbn [fst snd tasks users].
  rewrite Hsto. repeat split.
Qed.

Lemma merged_title_ok (v r : value) (t : task) :
  merged_title v t = Ok r -> exists ti, r = VStr ti.
Proof.
  unfold merged_title. destruct (defined v).
  - destruct (call_trim v); intros H; inversion H; eauto.
  - intros H; inversion H; eauto.
Qed.

Lemma merged_title_throw (v : value) (t : task) (e : exn) :
  merged_title v t = Throw e -> Js.status e = None.
Proof.
  unfold merged_title. destruct (defined v); [|discriminate].
  destruct (call_trim v) eqn:E; intros H; inversion H; subst.
  eapply call_trim_throw; eauto.
Qed.

(** Runs [updateTask] on an owned row as far as the equations in the context
    determine it. *)
Ltac run_update Hfind Hex :=
  unfold updateTask, try_next, bind, get_task_by_id_and_user;
  rewrite Hfind; cbv beta iota zeta;
  repeat match goal with
         | H : rejected _ _ = _ |- _ => unfold rejected in H; rewrite H; clear H
         end;
  unfold lift;
  repeat match goal with
         | H : merged_title _ _ = _ |- _ => rewrite H; clear H
         end;
  cbv beta iota;
  try (unfold update_task, bind, lift;
       repeat match goal with
              | H : bind_args 7 (patch_args _ _ _ _ _) = _ |- _ =>
                  unfold patch_args in H; rewrite H; clear H
              end;
       cbv beta iota zeta; cbn [param nth col_eq is_null];
       try rewrite Hex; cbn [andb]);
  unfold response_of, db_of, ran; cbn [fst snd].

Lemma updateTask_owned_cases (d : db) (t : task) (user : identity)
    (req : task_body) (now : string) :
  pk_ok d -> In t (tasks d) -> t_user_id t = uid user ->
  (db_of (updateTask user (t_id t) req now d) = d /\
   code (response_of (updateTask user (t_id t) req now d)) <> 200%Z) \/
  (exists ti de st pr du,
     rejected VALID_STATUSES (b_status req) = false /\
     rejected VALID_PRIORITIES (b_priority req) = false /\
     merged_title (b_title req) t = Ok (VStr ti) /\
     bind_args 7 (patch_args ti req t (t_id t) (uid user))
     = Ok [SqlText ti; de; SqlText st; SqlText pr; du;
           SqlText (t_id t); SqlText (uid user)]).
Proof.
  intros Hpk Ht Hown.
  pose proof (own_row_found d t Hpk Ht) as Hfind.
  pose proof (own_row_exists d t Ht) as Hex.
  rewrite Hown in Hfind, Hex.
  destruct (rejected VALID_STATUSES (b_status req)) eqn:Hrs.
  { left. run_update Hfind Hex. split; [reflexivity|discriminate]. }
  destruct (rejected VALID_PRIORITIES (b_priority req)) eqn:Hrp.
  { left. run_update Hfind Hex. split; [reflexivity|discriminate]. }
  destruct (merged_title (b_title req) t) as [v|e] eqn:Hti.
  2:{ left. pose proof (merged_title_throw _ _ _ Hti) as He.
      run_update Hfind Hex. split; [reflexivity|].
      rewrite (errorHandler_code e He). discriminate. }
  destruct (merged_title_ok _ _ _ Hti) as [ti ->].
  destruct (bind_args 7 (patch_args ti req t (t_id t) (uid user)))
    as [ps|e] eqn:Hb.
  2:{ left. pose proof (bind_args_throw _ _ _ Hb) as He.
      run_update Hfind Hex. split; [reflexivity|].
      rewrite (errorHandler_code e He). discriminate. }
  destruct (patch_args_bound _ _ _ _ _ _ Hb) as (de & sv & pv & du & ->).
  destruct sv as [|st].
  { left. run_update Hfind Hex. split; [reflexivity|discriminate]. }
  destruct pv as [|pr].
  { left. run_update Hfind Hex. split; [reflexivity|discriminate]. }
  right. exists ti, de, st, pr, du. repeat split; assumption.
Qed.

Lemma cell_to_sql (c : option string) : cell (to_sql c) = c.
Proof. now destruct c. Qed.

Lemma to_sql_cell (p : sqlval) : to_sql (cell p) = p.
Proof. now destruct p. Qed.

Lemma bind_of_cell (c : option string) : bind_value (of_cell c) = Some (to_sql c).
Proof. now destruct c. Qed.

Lemma member_not_rejected (l : list string) (v : value) :
  member_or_absent l v = true -> rejected l v = false.
Proof.
  unfold rejected. destruct v; simpl; try discriminate; try reflexivity.
  intros ->. now rewrite andb_false_r.
Qed.

(** A body of plain fields passes every check of the handler and of the
    schema. *)
Lemma plain_patch_accepted (req : task_body) (t : task) (id uid : string) :
  plain_patch req = true ->
  exists ti de st pr du,
    rejected VALID_STATUSES (b_status req) = false /\
    rejected VALID_PRIORITIES (b_priority req) = false /\
    merged_title (b_title req) t = Ok (VStr ti) /\
    bind_args 7 (patch_args ti req t id uid)
    = Ok [SqlText ti; de; SqlText st; SqlText pr; du; SqlText id; SqlText uid].
Proof.
  unfold plain_patch. intros H.
  repeat (apply andb_prop in H; destruct H as [H ?]).
  destruct req as [v1 v2 v3 v4 v5].
  cbn [b_title b_description b_status b_priority b_due_date] in *.
  assert (exists ti, merged_title v1 t = Ok (VStr ti)) as [ti Hti]
    by (unfold merged_title, merged; destruct v1; simpl in *; try congruence; eauto).
  assert (exists de, bind_value (merged v2 (of_cell (t_description t))) = Some de)
    as [de Hde]
    by (unfold merged; destruct v2; simpl in *; try congruence; eauto;
        rewrite bind_of_cell; eauto).
  assert (exists st, bind_value (merged v3 (VStr (t_status t))) = Some (SqlText st))
    as [st Hst]
    by (unfold merged; destruct v3; simpl in *; try congruence; eauto).
  assert (exists pr, bind_value (merged v4 (VStr (t_priority t))) = Some (SqlText pr))
    as [pr Hpr]
    by (unfold merged; destruct v4; simpl in *; try congruence; eauto).
  assert (exists du, bind_value (merged v5 (of_cell (t_due_date t))) = Some du)
    as [du Hdu]
    by (unfold merged; destruct v5; simpl in *; try congruence; eauto;
        rewrite bind_of_cell; eauto).
  exists ti, de, st, pr, du.
  repeat split; auto using member_not_rejected.
  now apply patch_args_of_values.
Qed.

Lemma merged_defined (v x : value) : defined v = true -> merged v x = v.
Proof. unfold merged. now intros ->. Qed.

(** C2, amended. On a task the caller owns, for a body whose description
    and due date are not arrays: a field absent from the body keeps its
    stored value whatever the outcome, and id, owner and createdAt never
    change; when the update succeeds (200) every field present in the body
    is what the column then holds (the title after trimming, a string as it
    is, null as NULL in description and dueDate, a number as the text the
    store makes of it) and updatedAt is the time of the update; a null
    status or priority overwrites nothing: the request fails and the
    database is unchanged; a body of plain fields (strings, enum members,
    null only for description and dueDate) succeeds. *)
Theorem partial_update_merge (d : db) (t : task) (user : identity)
    (req : task_body) (now : string) :
  pk_ok d -> In t (tasks d) -> t_user_id t = uid user -> no_array req ->
  let out := updateTask user (t_id t) req now d in
  exists t',
    stored (db_of out) (t_id t) = Some t' /\
    same_identity t t' /\
    absent_fields_kept req t t' /\
    (code (response_of out) = 200%Z ->
     present_fields_overwrite req t' /\ t_updated_at t' = now) /\
    (b_status req = VNull \/ b_priority req = VNull ->
     code (response_of out) <> 200%Z /\ db_of out = d) /\
    (plain_patch req = true -> code (response_of out) = 200%Z).
Proof.
  intros Hpk Ht Hown Hflat out.
  assert (Hplain : plain_patch req = true -> code (response_of out) = 200%Z).
  { intros Hp.
    destruct (plain_patch_accepted req t (t_id t) (uid user) Hp)
      as (ti & de & st & pr & du & Hrs & Hrp & Hti & Hb).
    destruct (updateTask_success d t user req now ti st pr de du
                Hpk Ht Hown Hrs Hrp Hti Hb) as (Hr & _).
    subst out. now rewrite Hr. }
  destruct (updateTask_owned_cases d t user req now Hpk Ht Hown)
    as [[Hd Hc] | (ti & de & st & pr & du & Hrs & Hrp & Hti & Hb)].
  - exists t. subst out. rewrite Hd.
    split; [now apply stored_found|].
    split; [repeat split|].
    split; [repeat split; intros _; reflexivity|].
    split; [intros H; contradiction|].
    split; [intros _; split; [assumption|reflexivity]|assumption].
  - destruct (updateTask_success d t user req now ti st pr de du
                Hpk Ht Hown Hrs Hrp Hti Hb) as (Hr & Hs & _).
    destruct (patch_args_in_place _ _ _ _ _ _ _ _ _ Hflat Hrs Hrp Hb)
      as (Hde & Hst & Hpr & Hdu).
    eexists. split; [exact Hs|].
    split; [repeat split|].
    split; [|split; [|split]].
    + unfold absent_fields_kept, kept. cbn [t_title t_description t_status
        t_priority t_due_date].
      repeat split; intros E; rewrite E in *; cbn in *.
      * congruence.
      * rewrite bind_of_cell in Hde. inversion Hde. apply cell_to_sql.
      * congruence.
      * congruence.
      * rewrite bind_of_cell in Hdu. inversion Hdu. apply cell_to_sql.
    + intros _. split; [|reflexivity].
      unfold present_fields_overwrite, overwrites, title_overwrites.
      cbn [t_title t_description t_status t_priority t_due_date].
      rewrite !to_sql_cell.
      repeat split; intros E.
      * unfold merged_title in Hti. rewrite E in Hti.
        destruct (call_trim (b_title req)); congruence.
      * now rewrite (merged_defined _ _ E) in Hde.
      * now rewrite (merged_defined _ _ E) in Hst.
      * now rewrite (merged_defined _ _ E) in Hpr.
      * now rewrite (merged_defined _ _ E) in Hdu.
    + intros [E|E]; exfalso.
      * rewrite E in Hst. discriminate.
      * rewrite E in Hpr. discriminate.
    + exact Hplain.
Qed.

(** Alice edits [task-2]: a new description, the same status, no due date. *)
Lemma partial_update_merge_witness :
  let req := mkBody VUndefined (VStr "first draft") (VStr "completed") VUndefined VNull in
  let out := updateTask Demo.alice "task-2" req Demo.later Demo.demo_db in
  exists t',
    stored (db_of out) "task-2" = Some t' /\
    same_identity Demo.task2 t' /\
    absent_fields_kept req Demo.task2 t' /\
    (code (response_of out) = 200%Z ->
     present_fields_overwrite req t' /\ t_updated_at t' = Demo.later) /\
    (b_status req = VNull \/ b_priority req = VNull ->
     code (response_of out) <> 200%Z /\ db_of out = Demo.demo_db) /\
    (plain_patch req = true -> code (response_of out) = 200%Z).
Proof.
  apply (partial_update_merge Demo.demo_db Demo.task2 Demo.alice
           (mkBody VUndefined (VStr "first draft") (VStr "completed") VUndefined VNull)
           Demo.later).
  - exact demo_pk_ok.
  - simpl. tauto.
  - reflexivity.
  - split; reflexivity.
Defined.

Example patch_status_only :
  updateTask Demo.alice "task-1" (Demo.only_status (VStr "completed")) Demo.later
             Demo.demo_db
  = (mkResponse 200
       (TaskMessage "Task updated."
          (Some (mkTask "task-1" "u-alice" "t1" None "completed" "medium" None
                        "2024-05-02 08:00:00" Demo.later))),
     mkDb (users Demo.demo_db)
          [mkTask "task-1" "u-alice" "t1" None "completed" "medium" None
                  "2024-05-02 08:00:00" Demo.later;
           Demo.task2; Demo.task3],
     [SelectTaskByIdAndUser; UpdateTask; SelectTaskById]).
Proof. reflexivity. Qed.

Example patch_null_status :
  updateTask Demo.alice "task-1" (Demo.only_status VNull) Demo.later Demo.demo_db
  = (mkResponse 500 (ErrorBody "SqliteError" generic_message),
     Demo.demo_db, [SelectTaskByIdAndUser; UpdateTask]).
Proof. reflexivity. Qed.

(** A number is stored as the text of a REAL. *)
Example patch_numeric_description :
  response_of (updateTask Demo.alice "task-1"
                 (mkBody VUndefined (VNum 5) VUndefined VUndefined VUndefined)
                 Demo.later Demo.demo_db)
  = mkResponse 200
      (TaskMessage "Task updated."
         (Some (mkTask "task-1" "u-alice" "t1" (Some "5.0") "pending" "medium" None
                       "2024-05-02 08:00:00" Demo.later))).
Proof. reflexivity. Qed.

(** An array is spread over the parameters of the UPDATE: with an empty
    description and a due date of two elements the seven parameters are all
    bound, each column from the second on takes its neighbour's value, and
    the status and priority the body does not mention are rewritten. *)
Example patch_with_arrays_shifts_the_columns :
  response_of (updateTask Demo.alice "task-2"
                 (mkBody VUndefined (VArr []) VUndefined VUndefined
                         (VArr [VStr "a"; VStr "b"]))
                 Demo.later Demo.demo_db)
  = mkResponse 200
      (TaskMessage "Task updated."
         (Some (mkTask "task-2" "u-alice" "write report" (Some "completed") "high"
                       "a" (Some "b") "2024-05-03 08:00:00" Demo.later))).
Proof. reflexivity. Qed.

(** C2, as worded, fails: [status: null] is present in the body and the
    stored status stays [pending]. *)
Lemma null_status_does_not_overwrite :
  ~ AsWorded.every_present_field_overwrites
      Demo.alice "task-1" (Demo.only_status VNull) Demo.later Demo.demo_db.
Proof.
  intros H. destruct (H Demo.task1 eq_refl) as (t' & _ & _ & Hov & _).
  destruct Hov as (_ & _ & Hst & _).
  specialize (Hst eq_refl). discriminate Hst.
Qed.

(** ** A null title *)




(** ** Titles *)

Lemma trim_start_head (s : string) (c : ascii) (r : string) :
  trim_start s = String c r -> is_ws c = false.
Proof.
  induction s as [|a s IH]; simpl; [discriminate|].
  destruct (is_ws a) eqn:E; [exact IH|].
  intros H. inversion H. now subst.
Qed.

Lemma trim_end_head (c : ascii) (r : string) :
  is_ws c = false -> exists r', trim_end (String c r) = String c r'.
Proof.
  intros H. simpl. destruct (trim_end r); rewrite ?H; eauto.
Qed.

Lemma trim_end_idem (s : string) : trim_end (trim_end s) = trim_end s.
Proof.
  induction s as [|c r IH]; simpl; [reflexivity|].
  destruct (trim_end r) as [|c' r'] eqn:E.
  - destruct (is_ws c) eqn:W; simpl; [reflexivity|now rewrite W].
  - change (trim_end (String c (String c' r'))) with
      (match trim_end (String c' r') with
       | EmptyString => if is_ws c then EmptyString else String c EmptyString
       | r0 => String c r0
       end).
    now rewrite IH.
Qed.

Lemma trim_idem (s : string) : trim (trim s) = trim s.
Proof.
  unfold trim. destruct (trim_start s) as [|c r] eqn:E; [reflexivity|].
  pose proof (trim_start_head _ _ _ E) as W.
  destruct (trim_end_head c r W) as [r' Hr]. rewrite Hr.
  simpl trim_start. rewrite W. rewrite <- Hr. apply trim_end_idem.
Qed.

Lemma title_present (v : value) :
  title_missing v = Ok false ->
  exists s, v = VStr s /\ call_trim v = Ok (trim s) /\ trim (trim s) <> "".
Proof.
  unfold title_missing.
  destruct (truthy v); simpl; [|discriminate].
  destruct v; simpl; try discriminate.
  intros H. inversion H as [E]. exists s. repeat split.
  rewrite trim_idem. now apply String.eqb_neq.
Qed.

Lemma title_missing_throw (v : value) (e : exn) :
  title_missing v = Throw e -> Js.status e = None.
Proof.
  unfold title_missing. destruct (truthy v); simpl; [|discriminate].
  destruct (call_trim v) eqn:E; intros H; inversion H; subst.
  eapply call_trim_throw; eauto.
Qed.

(** Runs [createTask] as far as the equations in the context determine it. *)
Ltac run_create :=
  unfold createTask, try_next, bind, lift;
  repeat match goal with
         | H : title_missing _ = _ |- _ => rewrite H; clear H
         end;
  cbv beta iota zeta;
  repeat match goal with
         | H : rejected _ _ = _ |- _ => unfold rejected in H; rewrite H; clear H
         end;
  repeat match goal with
         | H : call_trim _ = _ |- _ => rewrite H; clear H
         end;
  cbv beta iota;
  try (unfold insert_task, bind, lift;
       repeat match goal with
              | H : bind_args 7 (post_args _ _ _ _) = _ |- _ =>
                  unfold post_args in H; rewrite H; clear H
              end;
       cbv beta iota; cbn [param nth col_eq is_null];
       repeat match goal with
              | H : existsb _ _ = _ |- _ => rewrite H; clear H
              end;
       cbn [negb]);
  unfold response_of, db_of, ran; cbn [fst snd].

Lemma find_after_append {A : Type} (f : A -> bool) (l : list A) (a : A) :
  existsb f l = false -> f a = true -> find f (l ++ [a]) = Some a.
Proof.
  induction l as [|x l IH]; simpl; intros Hl Ha; [now rewrite Ha|].
  destruct (f x); [discriminate|]. now apply IH.
Qed.

(** What POST /api/tasks does, by the values bound: it fails without
    writing, or it appends the row of the seven values and answers 201 with
    that row. *)
Lemma createTask_bound (user : identity) (req : task_body) (taskId now : string)
    (d : db) :
  (db_of (createTask user req taskId now d) = d /\
   code (response_of (createTask user req taskId now d)) <> 201%Z) \/
  (exists ti de st pr du,
     bind_args 7 (post_args taskId (uid user) ti req)
     = Ok [SqlText taskId; SqlText (uid user); SqlText ti; de;
           SqlText st; SqlText pr; du] /\
     rejected VALID_STATUSES (b_status req) = false /\
     rejected VALID_PRIORITIES (b_priority req) = false /\
     trim ti <> "" /\
     existsb (fun t => String.eqb (t_id t) taskId) (tasks d) = false /\
     existsb (fun u => String.eqb (u_id u) (uid user)) (users d) = true /\
     createTask user req taskId now d
     = (mkResponse 201
          (TaskMessage "Task created."
             (Some (mkTask taskId (uid user) ti (cell de) st pr (cell du) now now))),
        mkDb (users d)
             (tasks d ++ [mkTask taskId (uid user) ti (cell de) st pr (cell du)
                                 now now]),
        [InsertTask; SelectTaskById])).
Proof.
  destruct (title_missing (b_title req)) as [[|]|e] eqn:Htm.
  { left. run_create. split; [reflexivity|discriminate]. }
  2:{ left. pose proof (title_missing_throw _ _ Htm) as He. run_create.
      split; [reflexivity|]. rewrite (errorHandler_code e He). discriminate. }
  destruct (title_present _ Htm) as (s & _ & Htrim & Hok).
  destruct (rejected VALID_STATUSES (b_status req)) eqn:Hrs.
  { left. run_create. split; [reflexivity|discriminate]. }
  destruct (rejected VALID_PRIORITIES (b_priority req)) eqn:Hrp.
  { left. run_create. split; [reflexivity|discriminate]. }
  destruct (bind_args 7 (post_args taskId (uid user) (trim s) req))
    as [ps|e] eqn:Hb.
  2:{ left. pose proof (bind_args_throw _ _ _ Hb) as He. run_create.
      split; [reflexivity|]. rewrite (errorHandler_code e He). discriminate. }
  destruct (post_args_bound _ _ _ _ _ Hb) as (de & sv & pv & du & ->).
  destruct sv as [|st].
  { left. run_create. split; [reflexivity|discriminate]. }
  destruct pv as [|pr].
  { left. run_create. split; [reflexivity|discriminate]. }
  destruct (existsb (fun t => String.eqb (t_id t) taskId) (tasks d)) eqn:Hid.
  { left. run_create. split; [reflexivity|discriminate]. }
  destruct (existsb (fun u => String.eqb (u_id u) (uid user)) (users d)) eqn:Hu.
  2:{ left. run_create. split; [reflexivity|discriminate]. }
  right. exists (trim s), de, st, pr, du.
  pose proof (conj Hid I) as Hfresh. pose proof (conj Hb I) as Hbound.
  pose proof (conj Hrs I) as Hrs'. pose proof (conj Hrp I) as Hrp'.
  repeat match goal with |- _ /\ _ => split end;
    try assumption; try reflexivity;
    try exact (proj1 Hbound); try exact (proj1 Hrs'); try exact (proj1 Hrp').
  run_create. unfold get_task_by_id, ret. cbn [tasks users app text_or].
  rewrite find_after_append;
    [reflexivity|exact (proj1 Hfresh)|apply String.eqb_refl].
Qed.

Lemma default_or_member (l : list string) (v : value) (dflt st : string) :
  rejected l v = false -> In dflt l ->
  bind_value (or_else v (VStr dflt)) = Some (SqlText st) -> In st l.
Proof.
  intros Hr Hd. unfold or_else.
  destruct (accepted_filter l v Hr) as [T | (s & -> & T & I)]; rewrite T.
  - simpl. intros H. inversion H. now subst.
  - simpl. intros H. inversion H. subst. simpl in I.
    apply existsb_exists in I. destruct I as (x & Hx & E).
    apply String.eqb_eq in E. now subst.
Qed.

(** The same in terms of the row: it is under the id drawn for it, owned by
    the caller, stamped with the time of the insert, and its title is not
    blank; with no array in the body its status and priority are members of
    their enumerations. *)
Lemma createTask_outcome (user : identity) (req : task_body) (taskId now : string)
    (d : db) :
  (db_of (createTask user req taskId now d) = d /\
   code (response_of (createTask user req taskId now d)) <> 201%Z) \/
  (exists row,
     createTask user req taskId now d
     = (mkResponse 201 (TaskMessage "Task created." (Some row)),
        mkDb (users d) (tasks d ++ [row]), [InsertTask; SelectTaskById]) /\
     t_id row = taskId /\ t_user_id row = uid user /\
     t_created_at row = now /\ t_updated_at row = now /\
     title_ok row /\
     (is_array (b_description req) = false -> is_array (b_due_date req) = false ->
      In (t_status row) VALID_STATUSES /\ In (t_priority row) VALID_PRIORITIES) /\
     existsb (fun t => String.eqb (t_id t) taskId) (tasks d) = false /\
     existsb (fun u => String.eqb (u_id u) (uid user)) (users d) = true).
Proof.
  destruct (createTask_bound user req taskId now d)
    as [H | (ti & de & st & pr & du & Hb & Hrs & Hrp & Hti & Hid & Hu & E)];
    [now left|right].
  exists (mkTask taskId (uid user) ti (cell de) st pr (cell du) now now).
  repeat match goal with |- _ /\ _ => split end;
    try assumption; try reflexivity.
  intros Hde Hdu.
  destruct (post_args_in_place _ _ _ _ _ _ _ _ (conj Hde Hdu) Hrs Hrp Hb)
      as (_ & Hst & Hpr & _).
  split; cbn [t_status t_priority];
    eapply default_or_member; eauto; simpl; tauto.
Qed.

(** What POST /api/tasks can do to the table: nothing, or append one row
    under a new id, owned by an existing user, with a title that is not
    blank. *)
Lemma createTask_rows (user : identity) (req : task_body) (taskId now : string)
    (d : db) :
  (db_of (createTask user req taskId now d) = d /\
   code (response_of (createTask user req taskId now d)) <> 201%Z) \/
  (exists row,
     db_of (createTask user req taskId now d) = mkDb (users d) (tasks d ++ [row]) /\
     t_id row = taskId /\ t_user_id row = uid user /\ title_ok row /\
     existsb (fun t => String.eqb (t_id t) taskId) (tasks d) = false /\
     existsb (fun u => String.eqb (u_id u) (uid user)) (users d) = true).
Proof.
  destruct (createTask_outcome user req taskId now d)
    as [H | (row & E & Hid & Hown & _ & _ & Hti & _ & Hfresh & Hu)];
    [now left|right].
  exists row. rewrite E. repeat split; assumption.
Qed.

(** Create establishes the title invariant: a 201 appended exactly one row,
    and its title is not blank. *)
Lemma createTask_title_ok (user : identity) (req : task_body)
    (taskId now : string) (d : db) :
  (forall t, In t (tasks d) -> title_ok t) ->
  forall t, In t (tasks (db_of (createTask user req taskId now d))) -> title_ok t.
Proof.
  intros Hall t.
  destruct (createTask_rows user req taskId now d)
    as [[-> _] | (row & -> & _ & _ & Hrow & _)]; [apply Hall|].
  cbn [tasks]. rewrite in_app_iff. simpl.
  intros [H | [<- | []]]; [now apply Hall | exact Hrow].
Qed.

(** Update does not re-check the title: a title of white space only is
    trimmed to the empty string and stored. *)
Lemma updateTask_accepts_blank_title (d : db) (t : task) (user : identity)
    (s now : string) :
  pk_ok d -> In t (tasks d) -> t_user_id t = uid user -> trim s = "" ->
  let out := updateTask user (t_id t) (Demo.only_title (VStr s)) now d in
  code (response_of out) = 200%Z /\
  exists t', stored (db_of out) (t_id t) = Some t' /\ t_title t' = "".
Proof.
  intros Hpk Ht Hown Hs out.
  destruct (updateTask_success d t user (Demo.only_title (VStr s)) now ""
              (t_status t) (t_priority t) (to_sql (t_description t))
              (to_sql (t_due_date t)) Hpk Ht Hown) as (Hr & Hsto & _);
    try reflexivity.
  - unfold merged_title. simpl. now rewrite Hs.
  - apply patch_args_of_values; try reflexivity; apply bind_of_cell.
  - subst out. rewrite Hr. split; [reflexivity|]. eexists. split; [exact Hsto|reflexivity].
Qed.

(** C8, at the failing input: Alice's [task-1] has the title ["t1"]; her
    PATCH with a title of three spaces is answered 200 and leaves the row
    with an empty title, which the title invariant excludes. *)
Theorem blank_title_update_is_stored :
  let out := updateTask Demo.alice "task-1" (Demo.only_title (VStr "   "))
                        Demo.later Demo.demo_db in
  title_ok Demo.task1 /\
  code (response_of out) = 200%Z /\
  exists t', stored (db_of out) "task-1" = Some t' /\
             t_title t' = "" /\ ~ title_ok t'.
Proof.
  split; [discriminate|]. split; [reflexivity|].
  eexists. split; [reflexivity|]. split; [reflexivity|].
  intros H. now apply H.
Qed.

Example create_rejects_blank_title :
  createTask Demo.alice (Demo.only_title (VStr "   ")) "task-4" Demo.later Demo.demo_db
  = (title_required, Demo.demo_db, []).
Proof. reflexivity. Qed.

(** ** Enumerations *)

(** C4, amended. A status or priority that is supplied as a truthy value
    and is not in its enumeration stops the request before any write: List
    answers 400 ValidationError with no statement run; so does Create when
    its title check does not throw; Update answers 400 ValidationError for a
    task the caller owns and 404 NotFound otherwise, after its one SELECT.
    List and Create take a falsy status or priority (empty string, null) as
    not supplied. *)
Theorem enum_validation (user : identity) (d : db) :
  (forall q,
     rejected VALID_STATUSES (q_status q) = true \/
     rejected VALID_PRIORITIES (q_priority q) = true ->
     let out := listTasks user q d in
     validation_error (response_of out) /\ db_of out = d /\ ran out = []) /\
  (forall req taskId now missing,
     title_missing (b_title req) = Ok missing ->
     rejected VALID_STATUSES (b_status req) = true \/
     rejected VALID_PRIORITIES (b_priority req) = true ->
     let out := createTask user req taskId now d in
     validation_error (response_of out) /\ db_of out = d /\ ran out = []) /\
  (forall id req now,
     rejected VALID_STATUSES (b_status req) = true \/
     rejected VALID_PRIORITIES (b_priority req) = true ->
     let out := updateTask user id req now d in
     match find (fun x => String.eqb (t_id x) id && String.eqb (t_user_id x) (uid user))
                (tasks d) with
     | Some _ => validation_error (response_of out)
     | None => response_of out = not_found
     end /\ db_of out = d /\ ran out = [SelectTaskByIdAndUser]) /\
  (forall v p, truthy v = false ->
     listTasks user (mkQuery v p) d = listTasks user (mkQuery VUndefined p) d) /\
  (forall s v, truthy v = false ->
     listTasks user (mkQuery s v) d = listTasks user (mkQuery s VUndefined) d) /\
  (forall ti de v pr du taskId now, truthy v = false ->
     createTask user (mkBody ti de v pr du) taskId now d
     = createTask user (mkBody ti de VUndefined pr du) taskId now d) /\
  (forall ti de st v du taskId now, truthy v = false ->
     createTask user (mkBody ti de st v du) taskId now d
     = createTask user (mkBody ti de st VUndefined du) taskId now d).
Proof.
  assert (Hstatus : validation_error invalid_status)
    by (split; [reflexivity|eexists; reflexivity]).
  assert (Hpriority : validation_error invalid_priority)
    by (split; [reflexivity|eexists; reflexivity]).
  assert (Htitle : validation_error title_required)
    by (split; [reflexivity|eexists; reflexivity]).
  repeat match goal with |- _ /\ _ => split end.
  - intros q H out. subst out. unfold listTasks, try_next, rejected in *.
    cbv zeta.
    destruct (truthy (q_status q)) eqn:Ts.
    + destruct (includes VALID_STATUSES (q_status q)) eqn:Is; cbn [negb];
        [|cbn; auto].
      destruct H as [H|H]; [discriminate|].
      apply andb_prop in H. destruct H as [-> ->]. cbn. auto.
    + destruct H as [H|H]; [discriminate|].
      apply andb_prop in H. destruct H as [-> ->]. cbn. auto.
  - intros req taskId now missing Htm H out. subst out.
    unfold createTask, try_next, bind, lift. rewrite Htm. cbv beta iota zeta.
    destruct missing; [cbn; auto|].
    unfold rejected in H.
    destruct (truthy (b_status req) && _); [cbn; auto|].
    destruct H as [H|H]; [discriminate|]. rewrite H. cbn. auto.
  - intros id req now H out. subst out.
    unfold updateTask, try_next, bind, get_task_by_id_and_user.
    destruct (find _ (tasks d)); cbv beta iota zeta; [|cbn; auto].
    unfold rejected in H.
    destruct (truthy (b_status req) && _); [cbn; auto|].
    destruct H as [H|H]; [discriminate|]. rewrite H. cbn. auto.
  - intros v p Hv. unfold listTasks. cbn [q_status q_priority]. now rewrite Hv.
  - intros s v Hv. unfold listTasks. cbn [q_status q_priority]. now rewrite Hv.
  - intros ti de v pr du taskId now Hv. unfold createTask, or_else.
    cbn [b_title b_description b_status b_priority b_due_date]. now rewrite Hv.
  - intros ti de st v du taskId now Hv. unfold createTask, or_else.
    cbn [b_title b_description b_status b_priority b_due_date]. now rewrite Hv.
Qed.

Example list_empty_status_lists_all :
  response_of (listTasks Demo.alice (mkQuery (VStr "") VUndefined) Demo.demo_db)
  = mkResponse 200 (TaskList 2 [Demo.task2; Demo.task1]).
Proof. reflexivity. Qed.

Example create_null_status_defaults :
  response_of (createTask Demo.alice
                 (mkBody (VStr "t4") VUndefined VNull (VStr "") VUndefined)
                 "task-4" Demo.later Demo.demo_db)
  = mkResponse 201
      (TaskMessage "Task created."
         (Some (mkTask "task-4" "u-alice" "t4" None "pending" "medium" None
                       Demo.later Demo.later))).
Proof. reflexivity. Qed.

(** The PATCH merge tests [!== undefined] where the check tests truthiness:
    an empty status passes the check and is stored. *)
Example patch_empty_status_is_stored :
  response_of (updateTask Demo.alice "task-1" (Demo.only_status (VStr ""))
                          Demo.later Demo.demo_db)
  = mkResponse 200
      (TaskMessage "Task updated."
         (Some (mkTask "task-1" "u-alice" "t1" None "" "medium" None
                       "2024-05-02 08:00:00" Demo.later))).
Proof. reflexivity. Qed.

(** C4, as worded, fails: Create with [status: ""] is answered 201 and
    writes a row, though the empty string is in no enumeration. *)
Lemma empty_status_is_not_checked :
  ~ AsWorded.present_enum_checked VALID_STATUSES (VStr "")
      (createTask Demo.alice
         (mkBody (VStr "t4") VUndefined (VStr "") VUndefined VUndefined)
         "task-4" Demo.later Demo.demo_db)
      Demo.demo_db.
Proof.
  intros H. destruct (H eq_refl) as [Hin | [[Hcode _] _]].
  - discriminate Hin.
  - discriminate Hcode.
Qed.

(** ** The token verifier *)

Lemma split_space_nonempty (s : string) : split_space s <> [].
Proof.
  destruct s as [|c r]; simpl; [discriminate|].
  destruct (Ascii.eqb c " "); [discriminate|].
  destruct (split_space r); discriminate.
Qed.

Lemma split_space_no_space (s : string) :
  has_space s = false -> split_space s = [s].
Proof.
  induction s as [|c r IH]; simpl; [reflexivity|].
  destruct (Ascii.eqb c " "); simpl; [discriminate|].
  intros H. now rewrite (IH H).
Qed.

Lemma split_space_single (s b : string) :
  split_space s = [b] -> s = b /\ has_space b = false.
Proof.
  revert b. induction s as [|c r IH]; simpl; intros b H.
  - inversion H. now split.
  - destruct (Ascii.eqb c " ") eqn:E.
    + inversion H as [[Hb Hr]]. now apply split_space_nonempty in Hr.
    + destruct (split_space r) as [|p ps] eqn:Er; [now apply split_space_nonempty in Er|].
      inversion H; subst. destruct (IH p eq_refl) as [-> Hp].
      split; [reflexivity|]. simpl. now rewrite E.
Qed.

Lemma split_space_pair (s a b : string) :
  split_space s = [a; b] ->
  s = (a ++ String " " b)%string /\ has_space b = false.
Proof.
  revert a. induction s as [|c r IH]; simpl; intros a H; [discriminate|].
  destruct (Ascii.eqb_spec c " ") as [->|Hc].
  - inversion H as [[Ha Hr]]. destruct (split_space_single _ _ Hr) as [-> Hb].
    now split.
  - destruct (split_space r) as [|p ps] eqn:Er; [discriminate|].
    inversion H; subst. destruct (IH p eq_refl) as [-> Hb].
    now split.
Qed.

Lemma split_space_bearer (token : string) :
  has_space token = false -> split_space ("Bearer " ++ token) = ["Bearer"; token].
Proof. intros H. cbn. now rewrite (split_space_no_space token H). Qed.

Lemma bearer_not_empty (token : string) : ("Bearer " ++ token =? "")%string = false.
Proof. reflexivity. Qed.

Lemma list_of_length_2 {A : Type} (l : list A) :
  List.length l = 2 -> exists a b, l = [a; b].
Proof. destruct l as [|a [|b [|c l]]]; try discriminate. eauto. Qed.

(** C7. For every Authorization header value: no header (or an empty one)
    is 401 Unauthorized; a header whose split on spaces is not two parts, or
    whose first part is not ["Bearer"], is 401 Unauthorized, and that is every
    header other than ["Bearer"], one space, and a token without a space; for a header of that form, a
    token the verifier decodes puts the decoded payload, id and email, in
    [req.user] and passes the request on; a token it rejects with
    [TokenExpiredError] is 401 TokenExpired, and one it rejects with any other
    error is 401 InvalidToken. *)
Theorem authenticate_taxonomy (jwt_verify : string -> result identity) :
  let authenticate := AuthMiddleware.authenticate jwt_verify in
  rejected_as (authenticate None) "Unauthorized" /\
  rejected_as (authenticate (Some "")) "Unauthorized" /\
  (forall h,
     List.length (split_space h) <> 2 \/ nth 0 (split_space h) "" <> "Bearer" ->
     rejected_as (authenticate (Some h)) "Unauthorized") /\
  (forall h,
     (forall token, has_space token = false -> h <> ("Bearer " ++ token)%string) ->
     rejected_as (authenticate (Some h)) "Unauthorized") /\
  (forall token decoded,
     has_space token = false -> jwt_verify token = Ok decoded ->
     authenticate (Some ("Bearer " ++ token)%string) = AuthMiddleware.Next decoded) /\
  (forall token err,
     has_space token = false -> jwt_verify token = Throw err ->
     Js.name err = "TokenExpiredError" ->
     rejected_as (authenticate (Some ("Bearer " ++ token)%string)) "TokenExpired") /\
  (forall token err,
     has_space token = false -> jwt_verify token = Throw err ->
     Js.name err <> "TokenExpiredError" ->
     rejected_as (authenticate (Some ("Bearer " ++ token)%string)) "InvalidToken").
Proof.
  intros authenticate. subst authenticate.
  repeat match goal with |- _ /\ _ => split end.
  - eexists. reflexivity.
  - eexists. reflexivity.
  - intros h Hparts. unfold AuthMiddleware.authenticate.
    destruct (String.eqb h ""); [eexists; reflexivity|].
    destruct (Nat.eqb_spec (List.length (split_space h)) 2) as [Hlen|Hlen];
      cbn [negb orb]; [|eexists; reflexivity].
    destruct (String.eqb_spec (nth 0 (split_space h) "") "Bearer") as [Hb|Hb];
      cbn [negb]; [tauto|eexists; reflexivity].
  - intros h Hform. unfold AuthMiddleware.authenticate.
    destruct (String.eqb h ""); [eexists; reflexivity|].
    destruct (Nat.eqb_spec (List.length (split_space h)) 2) as [Hlen|Hlen];
      cbn [negb orb]; [|eexists; reflexivity].
    destruct (list_of_length_2 _ Hlen) as (a & b & Hparts).
    rewrite Hparts. cbn [nth].
    destruct (String.eqb_spec a "Bearer") as [->|Ha]; cbn [negb];
      [|eexists; reflexivity].
    destruct (split_space_pair _ _ _ Hparts) as [Hh Hb].
    exfalso. exact (Hform b Hb Hh).
  - intros token decoded Hs Hv. unfold AuthMiddleware.authenticate.
    rewrite bearer_not_empty, (split_space_bearer token Hs). cbn. now rewrite Hv.
  - intros token err Hs Hv Hn. unfold AuthMiddleware.authenticate.
    rewrite bearer_not_empty, (split_space_bearer token Hs). cbn.
    rewrite Hv, Hn. eexists. reflexivity.
  - intros token err Hs Hv Hn. unfold AuthMiddleware.authenticate.
    rewrite bearer_not_empty, (split_space_bearer token Hs). cbn.
    rewrite Hv. apply String.eqb_neq in Hn. rewrite Hn. eexists. reflexivity.
Qed.

Example authenticate_good_token :
  AuthMiddleware.authenticate Demo.demo_verify (Some "Bearer tok:u-alice")
  = AuthMiddleware.Next Demo.alice.
Proof. reflexivity. Qed.

Example authenticate_two_spaces :
  AuthMiddleware.authenticate Demo.demo_verify (Some "Bearer  tok:u-alice")
  = AuthMiddleware.Responded AuthMiddleware.bad_format.
Proof. reflexivity. Qed.

Example authenticate_lower_case_scheme :
  AuthMiddleware.authenticate Demo.demo_verify (Some "bearer tok:u-alice")
  = AuthMiddleware.Responded AuthMiddleware.bad_format.
Proof. reflexivity. Qed.

Example authenticate_stale_token :
  AuthMiddleware.authenticate Demo.demo_verify (Some "Bearer stale:u-alice")
  = AuthMiddleware.Responded AuthMiddleware.token_expired.
Proof. reflexivity. Qed.

Example authenticate_empty_token :
  AuthMiddleware.authenticate Demo.demo_verify (Some "Bearer ")
  = AuthMiddleware.Responded AuthMiddleware.invalid_token.
Proof. reflexivity. Qed.

(** ** Login *)

(** C6, at its failing inputs. Of two login requests with both fields
    present, the one whose email matches no user is answered 401
    InvalidCredentials.  The one whose email matches a user and whose
    password fails verification against the stored hash gets the same
    response when the password is a string; when it is not a string (a
    number, [true], an array, an object) [bcrypt.compare] rejects, the error
    goes to the centralized handler, and the answer is 500 with the error
    kind [Error]: the two failures then differ.  Each ran the one lookup and
    changed nothing. *)
Theorem login_failure_outcomes (compare : string -> string -> bool)
    (sign : identity -> string) (r1 r2 : login_body) (d1 d2 : db) (u : user) :
  both_fields_present r1 -> both_fields_present r2 ->
  unknown_email r1 d1 -> known_email r2 d2 u ->
  verification_fails compare (l_password r2) (u_password u) ->
  login compare sign r1 d1 = (invalid_credentials, d1, [SelectUserByEmail]) /\
  login compare sign r2 d2
  = (match l_password r2 with
     | VStr _ => invalid_credentials
     | _ => mkResponse 500 (ErrorBody "Error" generic_message)
     end, d2, [SelectUserByEmail]).
Proof.
  intros [He1 Hp1] [He2 Hp2] (e1 & Hb1 & Hf1) (e2 & Hb2 & Hf2) Hfail.
  unfold looked_up_as in Hb1, Hb2. split.
  - unfold login, try_next. rewrite He1, Hp1. cbn [negb orb].
    unfold bind, get_user_by_email, bind, lift. rewrite Hb1. cbv beta iota.
    cbn [param nth]. rewrite Hf1. reflexivity.
  - unfold login, try_next. rewrite He2, Hp2. cbn [negb orb].
    unfold bind, get_user_by_email, bind, lift. rewrite Hb2. cbv beta iota.
    cbn [param nth]. rewrite Hf2. cbv beta iota.
    unfold verification_fails in Hfail.
    destruct (l_password r2) as [| |b|n|p|l|]; try reflexivity.
    unfold await_compare in *.
    destruct (compare p (u_password u)); [now contradiction Hfail|reflexivity].
Qed.

(** An unknown address and Alice's address against the demo database, each
    with the number 12345678 as the password. *)
Lemma login_failure_outcomes_witness :
  login Demo.demo_compare Demo.demo_sign
        (mkLogin (VStr "nobody@x.com") (VNum 12345678)) Demo.demo_db
    = (invalid_credentials, Demo.demo_db, [SelectUserByEmail]) /\
  login Demo.demo_compare Demo.demo_sign
        (mkLogin (VStr "alice@x.com") (VNum 12345678)) Demo.demo_db
    = (mkResponse 500 (ErrorBody "Error" generic_message), Demo.demo_db,
       [SelectUserByEmail]).
Proof.
  apply (login_failure_outcomes Demo.demo_compare Demo.demo_sign
           (mkLogin (VStr "nobody@x.com") (VNum 12345678))
           (mkLogin (VStr "alice@x.com") (VNum 12345678))
           Demo.demo_db Demo.demo_db
           (mkUser "u-alice" "alice@x.com" "$2a$10$longenough1" "Alice"
                   "2024-05-01 09:00:00")).
  - split; reflexivity.
  - split; reflexivity.
  - exists (SqlText "nobody@x.com"). split; reflexivity.
  - exists (SqlText "alice@x.com"). split; reflexivity.
  - discriminate.
Defined.

(** With string passwords the two failures are the same response. *)
Example login_wrong_password :
  login Demo.demo_compare Demo.demo_sign
        (mkLogin (VStr "alice@x.com") (VStr "not-her-password")) Demo.demo_db
  = login Demo.demo_compare Demo.demo_sign
          (mkLogin (VStr "nobody@x.com") (VStr "longenough1")) Demo.demo_db.
Proof. reflexivity. Qed.

(** The sentence of the specification fails at the numeric password: the
    registered address is answered 500, the unknown one 401. *)
Lemma numeric_password_tells_registered_emails :
  ~ AsWorded.login_failures_are_identical Demo.demo_compare Demo.demo_sign
      (mkLogin (VStr "nobody@x.com") (VNum 12345678))
      (mkLogin (VStr "alice@x.com") (VNum 12345678)) Demo.demo_db.
Proof.
  intros H. destruct H as [_ H].
  - split; reflexivity.
  - split; reflexivity.
  - exists (SqlText "nobody@x.com"). split; reflexivity.
  - exists (mkUser "u-alice" "alice@x.com" "$2a$10$longenough1" "Alice"
                   "2024-05-01 09:00:00").
    split; [exists (SqlText "alice@x.com"); split; reflexivity|discriminate].
  - discriminate H.
Qed.

Example login_succeeds :
  response_of (login Demo.demo_compare Demo.demo_sign
                 (mkLogin (VStr "alice@x.com") (VStr "longenough1")) Demo.demo_db)
  = mkResponse 200
      (Session "Login successful." "tok:u-alice"
         (mkUserView "u-alice" (VStr "Alice") (VStr "alice@x.com"))).
Proof. reflexivity. Qed.

(** ** Signup with a registered email *)

Lemma existsb_find_some {A : Type} (f : A -> bool) (l : list A) :
  existsb f l = true -> exists a, find f l = Some a.
Proof.
  induction l as [|a l IH]; simpl; [discriminate|].
  destruct (f a); [eauto|exact IH].
Qed.

Lemma existsb_find_none {A : Type} (f : A -> bool) (l : list A) :
  existsb f l = false -> find f l = None.
Proof.
  induction l as [|a l IH]; simpl; [reflexivity|].
  destruct (f a); [discriminate|exact IH].
Qed.

(** C3, at its failing input and around it. For a signup that passes the
    input checks: when the email is in [users] at the time of the lookup the
    answer is 409 Conflict after that one statement, nothing written.  When
    the lookup misses and the email is there by the time of the insert (the
    handler awaits the password hash in between), the unique constraint
    fails the insert, the error goes to the centralized handler, and the
    answer is status 500 with the generic message and [SqliteError] in the
    [error] field, not the 409 of the lookup; no user row is added in either
    case. *)
Theorem signup_duplicate_email (hash : string -> string)
    (sign : identity -> string) (req : signup_body) (userId now : string)
    (during_await : db -> db) (d : db) (e : sqlval) :
  passes_input_checks req -> looked_up_as (s_email req) e ->
  (existsb (fun u => col_eq (u_email u) e) (users d) = true ->
   signup hash sign req userId now during_await d
   = (email_taken, d, [SelectUserByEmail])) /\
  (existsb (fun u => col_eq (u_email u) e) (users d) = false ->
   existsb (fun u => col_eq (u_email u) e) (users (during_await d)) = true ->
   forall p na, s_password req = VStr p -> looked_up_as (s_name req) na ->
   signup hash sign req userId now during_await d
   = (mkResponse 500 (ErrorBody "SqliteError" generic_message),
      during_await d, [SelectUserByEmail; InsertUser])).
Proof.
  intros (Hn & Hem & Hpw & Hshort) Hb. split.
  - intros Hex. destruct (existsb_find_some _ _ Hex) as [u Hu].
    unfold looked_up_as in Hb.
    unfold signup, try_next. rewrite Hn, Hem, Hpw. cbn [negb orb].
    unfold bind at 1. unfold lift at 1. rewrite Hshort. cbv beta iota.
    unfold bind, get_user_by_email, bind, lift. rewrite Hb. cbv beta iota.
    cbn [param nth]. rewrite Hu. reflexivity.
  - intros Hmiss Hex p na Hp Hna.
    pose proof (existsb_find_none _ _ Hmiss) as Hnone.
    pose proof (signup_args_bound userId (hash p) _ _ _ _ Hb Hna) as Hins.
    unfold looked_up_as in Hb.
    unfold signup, try_next. rewrite Hn, Hem, Hpw. cbn [negb orb].
    unfold bind at 1. unfold lift at 1. rewrite Hshort. cbv beta iota.
    unfold bind, get_user_by_email, bind, lift. rewrite Hb. cbv beta iota.
    cbn [param nth]. rewrite Hnone. cbv beta iota. rewrite Hp. unfold await_hash.
    cbv beta iota. unfold meanwhile, insert_user, bind, lift.
    rewrite Hins. cbv beta iota. cbn [param nth is_null]. rewrite Hex.
    destruct (is_null e); [reflexivity|].
    destruct (is_null na); [reflexivity|].
    destruct (existsb (fun u => col_eq (u_id u) (SqlText userId))
                      (users (during_await d))); reflexivity.
Qed.

(** The second signup for Alice's address: against the demo database, and
    on an empty database with the first signup landing during the await. *)
Lemma signup_duplicate_email_witness :
  signup Demo.demo_hash Demo.demo_sign Demo.signup_alice_again "u-alicia"
         Demo.later (fun d => d) Demo.demo_db
  = (email_taken, Demo.demo_db, [SelectUserByEmail]) /\
  signup Demo.demo_hash Demo.demo_sign Demo.signup_alice_again "u-alicia"
         Demo.later Demo.rival_signup empty_db
  = (mkResponse 500 (ErrorBody "SqliteError" generic_message),
     Demo.rival_signup empty_db, [SelectUserByEmail; InsertUser]).
Proof.
  split.
  - apply (signup_duplicate_email Demo.demo_hash Demo.demo_sign
             Demo.signup_alice_again "u-alicia" Demo.later (fun d => d)
             Demo.demo_db (SqlText "alice@x.com")).
    + repeat split; reflexivity.
    + reflexivity.
    + reflexivity.
  - apply (signup_duplicate_email Demo.demo_hash Demo.demo_sign
             Demo.signup_alice_again "u-alicia" Demo.later Demo.rival_signup
             empty_db (SqlText "alice@x.com")) with (p := "another-pass")
                                                    (na := SqlText "Alicia").
    + repeat split; reflexivity.
    + reflexivity.
    + reflexivity.
    + reflexivity.
    + reflexivity.
    + reflexivity.
Defined.

(** A numeric email is looked up and stored as the text of a REAL: the
    string ["5"] is another address. *)
Example signup_numeric_email :
  let d := db_of (signup Demo.demo_hash Demo.demo_sign
                    (mkSignup (VStr "Five") (VNum 5) (VStr "longenough5"))
                    "u-five" Demo.later (fun d => d) empty_db) in
  users d = [mkUser "u-five" "5.0" "$2a$10$longenough5" "Five" Demo.later] /\
  response_of (signup Demo.demo_hash Demo.demo_sign
                 (mkSignup (VStr "Cinq") (VNum 5) (VStr "longenough6"))
                 "u-cinq" Demo.later (fun d => d) d) = email_taken /\
  code (response_of (signup Demo.demo_hash Demo.demo_sign
                       (mkSignup (VStr "Funf") (VStr "5") (VStr "longenough7"))
                       "u-funf" Demo.later (fun d => d) d)) = 201%Z.
Proof. repeat split. Qed.

Example signup_registered_email :
  signup Demo.demo_hash Demo.demo_sign Demo.signup_alice_again "u-alicia"
         Demo.later (fun d => d) Demo.demo_db
  = (email_taken, Demo.demo_db, [SelectUserByEmail]).
Proof. reflexivity. Qed.

(** C3, as worded, fails: the lookup misses, the address is registered
    during the await, and the answer is not 409. *)
Lemma signup_race_is_not_conflict :
  ~ AsWorded.duplicate_email_is_conflict Demo.demo_hash Demo.demo_sign
      Demo.signup_alice_again "u-alicia" Demo.later Demo.rival_signup empty_db.
Proof.
  intros H. destruct H as [Hcode _].
  - repeat split; reflexivity.
  - right. exists (SqlText "alice@x.com"). split; reflexivity.
  - discriminate Hcode.
Qed.

(** ** The constraints of the schema hold in every reachable database *)

(** Removing rows keeps the primary key. *)
Lemma task_ids_unique_after_filter (keep : task -> bool) (rows : list task) :
  NoDup (map t_id rows) -> NoDup (map t_id (filter keep rows)).
Proof.
  induction rows as [|r rows IH]; simpl; intros H; [constructor|].
  inversion H as [|? ? Hfresh Hrest]; subst.
  destruct (keep r); simpl; [|now apply IH].
  constructor; [|now apply IH].
  intros Hin. apply Hfresh. apply in_map_iff in Hin.
  destruct Hin as (x & Hx & Hin). apply filter_In in Hin.
  rewrite <- Hx. apply in_map. tauto.
Qed.

(** The SELECT of GET /api/tasks: its arguments do not bind, or it reads
    rows of the table that the user owns. *)
Lemma select_tasks_of_user_outcome (u : string) (s p : option value) (d : db) :
  (exists e, select_tasks_of_user u s p d = (Throw e, d, []) /\ Js.status e = None) \/
  (exists l, select_tasks_of_user u s p d = (Ok l, d, [SelectTasksOfUser]) /\
             forall x, In x l -> In x (tasks d) /\ t_user_id x = u).
Proof.
  unfold select_tasks_of_user, bind, lift. cbv zeta.
  destruct (bind_args _ _) as [ps|e] eqn:Hb.
  - right. eexists. split; [reflexivity|]. intros x Hin.
    apply (Permutation_in _ (order_by_perm _)) in Hin.
    apply filter_In in Hin. destruct Hin as [Hin Hw]. split; [assumption|].
    cbn [List.length] in Hb.
    apply bind_args_each in Hb. rewrite bind_each_string in Hb.
    destruct (bind_each _ false _) as [[rs n]|]; [|discriminate].
    inversion Hb. subst. cbn [where_all col_eq] in Hw.
    apply andb_prop in Hw. destruct Hw as [Hw _]. now apply String.eqb_eq.
  - left. exists e. split; [reflexivity|]. now apply (bind_args_throw _ _ _ Hb).
Qed.

(** What GET /api/tasks does, in full: it answers without a statement and
    without a list, or it answers 200 with rows of the table that the caller
    owns, after its one SELECT; the database stays as it is. *)
Lemma listTasks_outcome (user : identity) (q : list_query) (d : db) :
  (exists r, listTasks user q d = (r, d, []) /\ code r <> 200%Z /\ listed r = []) \/
  (exists l,
     listTasks user q d
     = (mkResponse 200 (TaskList (List.length l) l), d, [SelectTasksOfUser]) /\
     forall x, In x l -> In x (tasks d) /\ t_user_id x = uid user).
Proof.
  unfold listTasks, try_next. cbv zeta.
  destruct (truthy (q_status q));
    [destruct (negb (includes VALID_STATUSES (q_status q)));
     [left; eexists; split; [reflexivity|split; [discriminate|reflexivity]]|]|];
    (destruct (truthy (q_priority q));
     [destruct (negb (includes VALID_PRIORITIES (q_priority q)));
      [left; eexists; split; [reflexivity|split; [discriminate|reflexivity]]|]|]);
    unfold bind, ret;
    match goal with
    | |- context [select_tasks_of_user ?u ?s ?p d] =>
        destruct (select_tasks_of_user_outcome u s p d)
          as [(e & -> & He) | (l & -> & Hl)]
    end;
    [ left; eexists; split; [reflexivity|];
      split; [rewrite (errorHandler_code e He); discriminate|];
      unfold errorHandler; reflexivity
    | right; exists l; split; [reflexivity|exact Hl]
    | left; eexists; split; [reflexivity|];
      split; [rewrite (errorHandler_code e He); discriminate|];
      unfold errorHandler; reflexivity
    | right; exists l; split; [reflexivity|exact Hl]
    | left; eexists; split; [reflexivity|];
      split; [rewrite (errorHandler_code e He); discriminate|];
      unfold errorHandler; reflexivity
    | right; exists l; split; [reflexivity|exact Hl]
    | left; eexists; split; [reflexivity|];
      split; [rewrite (errorHandler_code e He); discriminate|];
      unfold errorHandler; reflexivity
    | right; exists l; split; [reflexivity|exact Hl] ].
Qed.

Lemma listTasks_db (user : identity) (q : list_query) (d : db) :
  db_of (listTasks user q d) = d.
Proof.
  destruct (listTasks_outcome user q d) as [(r & -> & _) | (l & -> & _)];
    reflexivity.
Qed.

Lemma getTask_db (user : identity) (id : string) (d : db) :
  db_of (getTask user id d) = d.
Proof.
  unfold getTask, try_next, bind, get_task_by_id_and_user.
  destruct (find _ (tasks d)); reflexivity.
Qed.

Lemma login_db (compare : string -> string -> bool) (sign : identity -> string)
    (req : login_body) (d : db) :
  db_of (login compare sign req d) = d.
Proof.
  unfold login, try_next, bind, get_user_by_email, bind, lift.
  destruct (negb _ || negb _); [reflexivity|].
  destruct (bind_args 1 [l_email req]); [|reflexivity]. cbv beta iota.
  destruct (find _ (users d)); [|reflexivity]. cbv beta iota.
  destruct (await_compare _ _ _) as [[|]|]; reflexivity.
Qed.

Lemma deleteTask_db (user : identity) (id : string) (d : db) :
  exists keep,
    db_of (deleteTask user id d) = mkDb (users d) (filter keep (tasks d)).
Proof.
  eexists. unfold deleteTask, try_next, bind, delete_task.
  destruct (Nat.eqb _ 0); reflexivity.
Qed.

Lemma updateTask_db (user : identity) (id : string) (req : task_body)
    (now : string) (d : db) :
  pk_ok d ->
  db_of (updateTask user id req now d) = d \/
  exists g,
    (forall x, t_id (g x) = t_id x /\ t_user_id (g x) = t_user_id x) /\
    db_of (updateTask user id req now d) = mkDb (users d) (map g (tasks d)).
Proof.
  intros Hpk.
  destruct (find (fun x => String.eqb (t_id x) id && String.eqb (t_user_id x) (uid user))
                 (tasks d)) as [t|] eqn:Hfind.
  - apply find_some in Hfind. destruct Hfind as [Ht Hhit].
    apply andb_prop in Hhit. destruct Hhit as [Hid Hown].
    apply String.eqb_eq in Hid, Hown. subst id.
    destruct (updateTask_owned_cases d t user req now Hpk Ht Hown)
      as [[Hd _] | (ti & de & st & pr & du & Hrs & Hrp & Hti & Hb)];
      [now left|right].
    rewrite (updateTask_success_run d t user req now ti st pr de du
               Hpk Ht Hown Hrs Hrp Hti Hb).
    eexists. split; [|reflexivity].
    intros x. cbv beta. destruct (_ && _); split; reflexivity.
  - left. unfold updateTask, try_next, bind, get_task_by_id_and_user.
    now rewrite Hfind.
Qed.

(** What POST /api/auth/signup can do to [users]: nothing of its own, or
    append one row whose id and email no row had. *)
Lemma signup_rows (hash : string -> string) (sign : identity -> string)
    (req : signup_body) (userId now : string) (during_await : db -> db) (d : db) :
  let d' := db_of (signup hash sign req userId now during_await d) in
  d' = d \/ d' = during_await d \/
  exists u,
    d' = mkDb (users (during_await d) ++ [u]) (tasks (during_await d)) /\
    existsb (fun x => String.eqb (u_id x) (u_id u)) (users (during_await d)) = false /\
    existsb (fun x => String.eqb (u_email x) (u_email u)) (users (during_await d))
    = false.
Proof.
  unfold signup, try_next, get_user_by_email, meanwhile, insert_user, bind, lift.
  cbv zeta.
  destruct (negb _ || negb _ || negb _); [now left|].
  destruct (shorter_than_8 (s_password req)) as [[|]|]; cbv beta iota;
    [now left| |now left].
  destruct (bind_args 1 [s_email req]) as [ps|]; [|now left]. cbv beta iota.
  destruct (find _ (users d)); [now left|]. cbv beta iota.
  destruct (await_hash hash (s_password req)) as [h|]; [|now left]. cbv beta iota.
  destruct (bind_args 4 [VStr userId; s_email req; VStr h; s_name req])
    as [qs|] eqn:Hq; [|right; now left]. cbv beta iota.
  apply bind_args_each in Hq. rewrite bind_each_string in Hq.
  destruct (bind_each 3 false _) as [[rs u]|]; [|discriminate].
  inversion Hq. subst. cbn [param nth].
  destruct (nth 0 rs SqlNull) as [|em]; cbn [is_null]; [right; now left|].
  destruct (is_null (nth 1 rs SqlNull)); [right; now left|].
  destruct (is_null (nth 2 rs SqlNull)); [right; now left|].
  destruct (existsb (fun x => col_eq (u_id x) (SqlText userId))
                    (users (during_await d))) eqn:Hid; [right; now left|].
  destruct (existsb (fun x => col_eq (u_email x) (SqlText em))
                    (users (during_await d))) eqn:Hem; [right; now left|].
  right. right. eexists. split; [reflexivity|]. split; [exact Hid|exact Hem].
Qed.

Lemma signup_db (hash : string -> string) (sign : identity -> string)
    (req : signup_body) (userId now : string) (during_await : db -> db) (d : db) :
  let d' := db_of (signup hash sign req userId now during_await d) in
  d' = d \/ d' = during_await d \/
  exists u, d' = mkDb (users (during_await d) ++ [u]) (tasks (during_await d)).
Proof.
  destruct (signup_rows hash sign req userId now during_await d)
    as [H | [H | (u & H & _)]]; eauto.
Qed.

Lemma protected_db (verify : string -> result identity) (h : option string)
    (controller : identity -> handler) (d : db) (P : db -> Prop) :
  P d -> (forall user, P (db_of (controller user d))) ->
  P (db_of (AuthMiddleware.protected verify h controller d)).
Proof.
  intros Hd Hc. unfold AuthMiddleware.protected.
  destruct (AuthMiddleware.authenticate verify h); [exact Hd|apply Hc].
Qed.

Lemma existsb_false_not_in (l : list task) (id : string) :
  existsb (fun t => String.eqb (t_id t) id) l = false -> ~ In id (map t_id l).
Proof.
  intros H Hin. apply in_map_iff in Hin. destruct Hin as (x & Hx & Hin).
  assert (existsb (fun t => String.eqb (t_id t) id) l = true); [|congruence].
  apply existsb_exists. exists x. split; [assumption|]. now apply String.eqb_eq.
Qed.


Lemma schema_ok_map (d : db) (g : task -> task) :
  (forall x, t_id (g x) = t_id x /\ t_user_id (g x) = t_user_id x) ->
  schema_ok d -> schema_ok (mkDb (users d) (map g (tasks d))).
Proof.
  intros Hg [Hpk Hfk]. split.
  - unfold pk_ok in *. cbn [tasks]. rewrite map_map.
    erewrite map_ext; [exact Hpk|]. intros x. apply Hg.
  - intros t Ht. cbn [tasks users] in *. apply in_map_iff in Ht.
    destruct Ht as (x & <- & Hx). destruct (Hfk x Hx) as (u & Hu & Hid).
    exists u. split; [assumption|]. destruct (Hg x) as [_ ->]. exact Hid.
Qed.

Lemma schema_ok_filter (d : db) (keep : task -> bool) :
  schema_ok d -> schema_ok (mkDb (users d) (filter keep (tasks d))).
Proof.
  intros [Hpk Hfk]. split.
  - unfold pk_ok in *. cbn [tasks]. now apply task_ids_unique_after_filter.
  - intros t Ht. cbn [tasks users] in *. apply filter_In in Ht. now apply Hfk.
Qed.

Lemma schema_ok_new_user (d : db) (u : user) :
  schema_ok d -> schema_ok (mkDb (users d ++ [u]) (tasks d)).
Proof.
  intros [Hpk Hfk]. split; [exact Hpk|].
  intros t Ht. cbn [tasks users] in *. destruct (Hfk t Ht) as (x & Hx & Hid).
  exists x. split; [|assumption]. apply in_or_app. now left.
Qed.

Lemma schema_ok_new_task (d : db) (row : task) :
  existsb (fun t => String.eqb (t_id t) (t_id row)) (tasks d) = false ->
  existsb (fun u => String.eqb (u_id u) (t_user_id row)) (users d) = true ->
  schema_ok d -> schema_ok (mkDb (users d) (tasks d ++ [row])).
Proof.
  intros Hid Hu [Hpk Hfk]. split.
  - unfold pk_ok in *. cbn [tasks]. rewrite map_app. simpl.
    apply NoDup_app; [assumption|repeat constructor; intros []|].
    intros a Ha [<-|[]]. now apply (existsb_false_not_in _ _ Hid).
  - intros t Ht. cbn [tasks users] in *. apply in_app_or in Ht.
    destruct Ht as [Ht | [<- | []]]; [now apply Hfk|].
    apply existsb_exists in Hu. destruct Hu as (u & Hin & Heq).
    exists u. split; [assumption|]. now apply String.eqb_eq.
Qed.

Lemma serve_schema_ok (lib : packages) (r : request) (d : db) :
  schema_ok d -> schema_ok (after_await r d) -> schema_ok (db_of (serve lib r d)).
Proof.
  intros Hd Hafter. destruct r; cbn [serve after_await] in *.
  - destruct (signup_db (bcrypt_hash lib) (jwt_sign lib) req userId now during_await d)
      as [-> | [-> | (u & ->)]]; auto using schema_ok_new_user.
  - now rewrite login_db.
  - apply protected_db; [assumption|]. intros user. now rewrite listTasks_db.
  - apply protected_db; [assumption|]. intros user.
    destruct (createTask_rows user req taskId now d)
      as [[-> _] | (row & -> & Hid & Hown & _ & Hfresh & Huser)]; [assumption|].
    apply schema_ok_new_task; [now rewrite Hid|now rewrite Hown|assumption].
  - apply protected_db; [assumption|]. intros user. now rewrite getTask_db.
  - apply protected_db; [assumption|]. intros user.
    destruct (updateTask_db user id req now d (proj1 Hd)) as [-> | (g & Hg & ->)];
      [assumption|now apply schema_ok_map].
  - apply protected_db; [assumption|]. intros user.
    destruct (deleteTask_db user id d) as (keep & ->). now apply schema_ok_filter.
Qed.

Lemma delete_user_schema_ok (uid0 : string) (d : db) :
  schema_ok d -> schema_ok (delete_user uid0 d).
Proof.
  intros [Hpk Hfk]. split.
  - unfold pk_ok, delete_user in *. cbn [tasks]. now apply task_ids_unique_after_filter.
  - intros t Ht. unfold delete_user in *. cbn [tasks users] in *.
    apply filter_In in Ht. destruct Ht as [Ht Hne].
    destruct (Hfk t Ht) as (u & Hu & Hid). exists u. split; [|assumption].
    apply filter_In. split; [assumption|]. now rewrite Hid.
Qed.

(** Every database the service reaches satisfies the primary key and the
    foreign key of [tasks]. *)
Lemma reachable_schema_ok (lib : packages) (d : db) :
  reachable lib d -> schema_ok d.
Proof.
  induction 1 as [|d r _ IHd _ IHafter|d uid0 _ IH].
  - split; [constructor|intros t []].
  - now apply serve_schema_ok.
  - now apply delete_user_schema_ok.
Qed.

Lemma listTasks_listed_in (user : identity) (q : list_query) (d : db) (x : task) :
  In x (listed (response_of (listTasks user q d))) -> In x (tasks d).
Proof.
  destruct (listTasks_outcome user q d) as [(r & -> & _ & Hr) | (l & -> & Hl)];
    unfold response_of; cbn [fst].
  - rewrite Hr. intros [].
  - unfold listed. cbn [body]. intros Hin. now apply Hl.
Qed.

(** ** Deleting a user *)

(** C5. In every database the service reaches, every task's owner is a row
    of [users].  Deleting a user from such a database leaves a reachable
    database in which that still holds and none of that user's tasks
    remains: for each of them and every caller, Get by its id answers 404
    NotFound and no List response carries a task with its id. *)
Theorem cascade_on_owner_deletion (lib : packages) (d : db) (owner : string) :
  reachable lib d ->
  fk_ok d /\
  let d' := delete_user owner d in
  reachable lib d' /\ fk_ok d' /\
  (forall t, In t (tasks d') -> t_user_id t <> owner) /\
  (forall t, In t (tasks d) -> t_user_id t = owner ->
     ~ In t (tasks d') /\
     stored d' (t_id t) = None /\
     (forall who, getTask who (t_id t) d' = (not_found, d', [SelectTaskByIdAndUser])) /\
     (forall who q x, In x (listed (response_of (listTasks who q d'))) ->
                      t_id x <> t_id t)).
Proof.
  intros Hreach.
  destruct (reachable_schema_ok lib d Hreach) as [Hpk Hfk].
  split; [exact Hfk|]. cbv zeta.
  assert (Hreach' : reachable lib (delete_user owner d)) by now constructor.
  destruct (reachable_schema_ok lib _ Hreach') as [_ Hfk'].
  assert (Hgone : forall t, In t (tasks (delete_user owner d)) -> t_user_id t <> owner).
  { intros t Ht. unfold delete_user in Ht. cbn [tasks] in Ht.
    apply filter_In in Ht. destruct Ht as [_ Hne].
    apply negb_true_iff in Hne. now apply String.eqb_neq. }
  assert (Hsub : forall x, In x (tasks (delete_user owner d)) -> In x (tasks d)).
  { intros x Hx. unfold delete_user in Hx. cbn [tasks] in Hx.
    now apply filter_In in Hx. }
  repeat match goal with |- _ /\ _ => split end; try assumption.
  all: intros t Ht Hown.
  assert (Hid : forall x, In x (tasks (delete_user owner d)) -> t_id x <> t_id t).
  { intros x Hx Heq. apply (Hgone x Hx).
    assert (x = t) by (eapply nodup_map_inj; eauto). now subst x. }
  repeat match goal with |- _ /\ _ => split end.
  - intros Hin. now apply (Hgone t Hin).
  - unfold stored. apply find_none_iff. intros x Hx.
    apply String.eqb_neq. now apply Hid.
  - intros who. unfold getTask, try_next, bind, get_task_by_id_and_user.
    rewrite (proj2 (find_none_iff _ _)); [reflexivity|].
    intros x Hx. apply andb_false_iff. left. apply String.eqb_neq. now apply Hid.
  - intros who q x Hx. apply Hid. eapply listTasks_listed_in; eauto.
Qed.

Lemma demo_reachable : reachable Demo.demo_lib Demo.demo_db.
Proof.
  change Demo.demo_db with
    (Demo.run [Demo.signup_alice; Demo.signup_bob; Demo.create_t1;
               Demo.create_t2; Demo.create_t3] empty_db).
  unfold Demo.run. cbn [fold_left].
  repeat (apply reach_serve; cbn [after_await Demo.signup_alice Demo.signup_bob
                                   Demo.create_t1 Demo.create_t2 Demo.create_t3]);
    apply reach_empty.
Qed.

(** Alice is deleted from the demo database. *)
Lemma cascade_on_owner_deletion_witness :
  fk_ok Demo.demo_db /\
  let d' := delete_user "u-alice" Demo.demo_db in
  reachable Demo.demo_lib d' /\ fk_ok d' /\
  (forall t, In t (tasks d') -> t_user_id t <> "u-alice") /\
  (forall t, In t (tasks Demo.demo_db) -> t_user_id t = "u-alice" ->
     ~ In t (tasks d') /\
     stored d' (t_id t) = None /\
     (forall who, getTask who (t_id t) d' = (not_found, d', [SelectTaskByIdAndUser])) /\
     (forall who q x, In x (listed (response_of (listTasks who q d'))) ->
                      t_id x <> t_id t)).
Proof.
  apply (cascade_on_owner_deletion Demo.demo_lib Demo.demo_db "u-alice").
  exact demo_reachable.
Defined.

Example delete_alice_leaves_bobs_task :
  delete_user "u-alice" Demo.demo_db
  = mkDb [mkUser "u-bob" "bob@x.com" "$2a$10$longenough2" "Bob" "2024-05-01 09:30:00"]
         [Demo.task3].
Proof. reflexivity. Qed.

(** ** The service end to end *)

Example signup_login_create_patch_delete_get :
  Demo.transcript
    [Demo.signup_alice;
     PostLogin (mkLogin (VStr "alice@x.com") (VStr "longenough1"));
     Demo.create_t1;
     PatchTaskById (Some "Bearer tok:u-alice") "task-1"
                   (Demo.only_status (VStr "completed")) Demo.later;
     DeleteTaskById (Some "Bearer tok:u-alice") "task-1";
     GetTaskById (Some "Bearer tok:u-alice") "task-1"]
    empty_db
  = [mkResponse 201
       (Session "Account created successfully." "tok:u-alice"
          (mkUserView "u-alice" (VStr "Alice") (VStr "alice@x.com")));
     mkResponse 200
       (Session "Login successful." "tok:u-alice"
          (mkUserView "u-alice" (VStr "Alice") (VStr "alice@x.com")));
     mkResponse 201
       (TaskMessage "Task created."
          (Some (mkTask "task-1" "u-alice" "t1" None "pending" "medium" None
                        "2024-05-02 08:00:00" "2024-05-02 08:00:00")));
     mkResponse 200
       (TaskMessage "Task updated."
          (Some (mkTask "task-1" "u-alice" "t1" None "completed" "medium" None
                        "2024-05-02 08:00:00" Demo.later)));
     mkResponse 200 (MessageOnly "Task deleted.");
     not_found].
Proof. reflexivity. Qed.

(* ------------------------------------------------------------------ *)
(** * Further behaviour of the handlers *)

Import Behaviour.

(** ** Creating a task *)

Lemma addressed_none_of_fresh (user : identity) (id : string) (l : list task) :
  existsb (fun t => String.eqb (t_id t) id) l = false ->
  existsb (addressed user id) l = false.
Proof.
  induction l as [|x l IH]; simpl; [reflexivity|].
  unfold addressed at 1. destruct (String.eqb (t_id x) id); [discriminate|].
  exact IH.
Qed.

Lemma optional_text_bound (v : value) :
  text_or_falsy v = true ->
  bind_value (or_else v VNull) = Some (to_sql (supplied_text v)).
Proof.
  unfold or_else. destruct v; simpl; try reflexivity.
  - intros H. apply negb_true_iff in H. now rewrite H.
  - intros H. apply negb_true_iff in H. now rewrite H.
  - intros _. now destruct (s =? "").
  - discriminate.
  - discriminate.
Qed.

Lemma enum_text_bound (l : list string) (v : value) (dflt : string) :
  rejected l v = false ->
  bind_value (or_else v (VStr dflt)) = Some (SqlText (supplied_or v dflt)).
Proof.
  intros Hr. unfold or_else, supplied_or.
  destruct (accepted_filter l v Hr) as [T | (s & -> & T & _)]; rewrite T.
  - destruct v; simpl in *; try reflexivity.
    apply negb_false_iff in T. now rewrite T.
  - simpl in *. apply negb_true_iff in T. now rewrite T.
Qed.

Lemma title_given_present (v : value) :
  title_given v = true ->
  exists s, v = VStr s /\ title_missing v = Ok false /\ call_trim v = Ok (trim s).
Proof.
  destruct v; simpl; try discriminate. intros H. exists s.
  apply negb_true_iff in H. unfold title_missing. simpl.
  assert (s <> "") as Hs by (intros ->; discriminate H).
  apply String.eqb_neq in Hs. now rewrite Hs, H.
Qed.

(** X2. A body with a non-blank string title, description and due
    date that are strings or falsy, and status and priority that are falsy
    or members, under an unused id and for a caller who has a user row, is
    answered 201: the row appended has the trimmed title, [pending] and
    [medium] where status and priority are not supplied, NULL where
    description and due date are not, and both timestamps set to the time
    of the insert; the response carries that row. *)
Theorem createTask_stores_defaults (user : identity) (req : task_body)
    (taskId now : string) (d : db) :
  creatable req = true ->
  existsb (fun t => String.eqb (t_id t) taskId) (tasks d) = false ->
  existsb (fun u => String.eqb (u_id u) (uid user)) (users d) = true ->
  createTask user req taskId now d
  = (mkResponse 201
       (TaskMessage "Task created." (Some (created_row user req taskId now))),
     mkDb (users d) (tasks d ++ [created_row user req taskId now]),
     [InsertTask; SelectTaskById]).
Proof.
  unfold creatable. intros Hc Hid Hu.
  repeat (apply andb_prop in Hc; destruct Hc as [Hc ?]).
  destruct (title_given_present _ Hc) as (s & Hs & Htm & Htrim).
  assert (Hrs : rejected VALID_STATUSES (b_status req) = false)
    by now apply negb_true_iff.
  assert (Hrp : rejected VALID_PRIORITIES (b_priority req) = false)
    by now apply negb_true_iff.
  pose proof (optional_text_bound (b_description req) ltac:(assumption)) as Hde.
  pose proof (optional_text_bound (b_due_date req) ltac:(assumption)) as Hdu.
  pose proof (enum_text_bound _ _ "pending" Hrs) as Hst.
  pose proof (enum_text_bound _ _ "medium" Hrp) as Hpr.
  pose proof (post_args_of_values taskId (uid user) (trim s) req _ _ _ _
                Hde Hst Hpr Hdu) as Hb.
  pose proof (conj Hid I) as Hfresh.
  unfold created_row. rewrite Hs.
  run_create. unfold get_task_by_id, ret.
  cbn [tasks users app text_or]. rewrite !cell_to_sql.
  rewrite find_after_append;
    [reflexivity|exact (proj1 Hfresh)|apply String.eqb_refl].
Qed.

Lemma createTask_stores_defaults_witness :
  createTask Demo.alice
    (mkBody (VStr "  call the bank ") VUndefined (VStr "") VNull (VStr "2024-07-01"))
    "task-4" Demo.later Demo.demo_db
  = (mkResponse 201
       (TaskMessage "Task created."
          (Some (mkTask "task-4" "u-alice" "call the bank" None "pending" "medium"
                        (Some "2024-07-01") Demo.later Demo.later))),
     mkDb (users Demo.demo_db)
          (tasks Demo.demo_db
           ++ [mkTask "task-4" "u-alice" "call the bank" None "pending" "medium"
                      (Some "2024-07-01") Demo.later Demo.later]),
     [InsertTask; SelectTaskById]).
Proof.
  apply (createTask_stores_defaults Demo.alice
           (mkBody (VStr "  call the bank ") VUndefined (VStr "") VNull
                   (VStr "2024-07-01"))
           "task-4" Demo.later Demo.demo_db); reflexivity.
Defined.

(** X3. POST /api/tasks with a title that is missing, falsy or blank
    after trimming is answered 400 [title is required.] before any statement,
    whatever the other fields hold; with a truthy title that is not a string
    (a number, [true], an array, an object) [title.trim] is not a function:
    the handler throws and the answer is 500 with [TypeError] in the error
    field, again with no statement run. *)
Theorem createTask_title_edges (user : identity) (taskId now : string) (d : db) :
  (forall req,
     truthy (b_title req) = false \/
     (exists s, b_title req = VStr s /\ trim s = "") ->
     createTask user req taskId now d = (title_required, d, [])) /\
  (forall req,
     title_not_text (b_title req) = true ->
     createTask user req taskId now d
     = (mkResponse 500 (ErrorBody "TypeError" generic_message), d, [])).
Proof.
  split.
  - intros req H.
    assert (Htm : title_missing (b_title req) = Ok true).
    { unfold title_missing. destruct H as [-> | (s & -> & Hs)]; [reflexivity|].
      destruct (truthy (VStr s)); [|reflexivity]. simpl. now rewrite Hs. }
    unfold createTask, try_next, bind, lift. now rewrite Htm.
  - intros req H. unfold createTask, try_next, bind, lift, title_missing.
    destruct (b_title req); simpl in H; try discriminate; cbn [truthy];
      rewrite ?H; reflexivity.
Qed.

Example create_with_numeric_title :
  createTask Demo.alice (Demo.only_title (VNum 42)) "task-4" Demo.later Demo.demo_db
  = (mkResponse 500 (ErrorBody "TypeError" generic_message), Demo.demo_db, []).
Proof. reflexivity. Qed.

(** X4. Whatever the body, POST /api/tasks leaves [users] alone and
    every row it leaves in [tasks] was there before or is the one new row:
    under the id drawn for it, which no row had, owned by the caller, with a
    title that is not blank and createdAt equal to updatedAt; and when
    neither the description nor the due date of the body is an array, with
    status and priority in their enumerations.  (An array is spread over
    the parameters of the INSERT and can move another field's value into
    the status or priority column.) *)
Theorem createTask_adds_at_most_one_row (user : identity) (req : task_body)
    (taskId now : string) (d : db) :
  users (db_of (createTask user req taskId now d)) = users d /\
  forall t, In t (tasks (db_of (createTask user req taskId now d))) ->
    In t (tasks d) \/
    (t_id t = taskId /\ t_user_id t = uid user /\ title_ok t /\
     t_created_at t = t_updated_at t /\ ~ In taskId (map t_id (tasks d)) /\
     (is_array (b_description req) = false ->
      is_array (b_due_date req) = false -> enum_ok t)).
Proof.
  destruct (createTask_outcome user req taskId now d)
    as [[-> _] | (row & -> & Hid & Hown & Hc & Hup & Htitle & Henum & Hfresh & _)].
  - split; [reflexivity|]. intros t Ht. now left.
  - unfold db_of. cbn [fst snd users tasks]. split; [reflexivity|].
    intros t Ht. apply in_app_or in Ht. destruct Ht as [Ht | [<- | []]]; [now left|].
    right. repeat split; try assumption.
    + congruence.
    + now apply existsb_false_not_in.
    + now apply Henum.
    + now apply Henum.
Qed.

Example create_with_object_description :
  createTask Demo.alice
    (mkBody (VStr "t") VObj VUndefined VUndefined VUndefined)
    "task-4" Demo.later Demo.demo_db
  = (mkResponse 500 (ErrorBody "RangeError" generic_message), Demo.demo_db, []).
Proof. reflexivity. Qed.

Example create_with_arrays_shifts_the_columns :
  response_of (createTask Demo.alice
                 (mkBody (VStr "t") (VArr [VStr "x"; VStr "y"]) VUndefined VUndefined
                         (VArr []))
                 "task-4" Demo.later Demo.demo_db)
  = mkResponse 201
      (TaskMessage "Task created."
         (Some (mkTask "task-4" "u-alice" "t" (Some "x") "y" "pending"
                       (Some "medium") Demo.later Demo.later))).
Proof. reflexivity. Qed.

(** X5. When POST /api/tasks answers 201, the row in its response
    is what the caller then reads back: GET on the new id answers 200 with
    that row, and an unfiltered list by the caller carries it. *)
Theorem create_then_read_back (user : identity) (req : task_body)
    (taskId now : string) (d : db) :
  code (response_of (createTask user req taskId now d)) = 201%Z ->
  exists row,
    response_of (createTask user req taskId now d)
      = mkResponse 201 (TaskMessage "Task created." (Some row)) /\
    getTask user taskId (db_of (createTask user req taskId now d))
      = (mkResponse 200 (TaskOnly (Some row)),
         db_of (createTask user req taskId now d), [SelectTaskByIdAndUser]) /\
    In row (listed (response_of
                      (listTasks user (mkQuery VUndefined VUndefined)
                                 (db_of (createTask user req taskId now d))))).
Proof.
  intros Hcode.
  destruct (createTask_outcome user req taskId now d)
    as [[_ Hne] | (row & E & Hid & Hown & _ & _ & _ & _ & Hfresh & _)];
    [contradiction|].
  exists row. rewrite E. unfold response_of, db_of. cbn [fst snd].
  split; [reflexivity|]. split.
  - unfold getTask, try_next, bind, get_task_by_id_and_user. cbn [tasks].
    fold (addressed user taskId).
    rewrite find_after_append; [reflexivity| |].
    + now apply addressed_none_of_fresh.
    + unfold addressed. rewrite Hid, Hown. now rewrite !String.eqb_refl.
  - unfold listTasks, try_next, select_tasks_of_user, bind, lift.
    cbn. apply (Permutation_in _ (Permutation_sym (order_by_perm _))).
    apply filter_In. split; [apply in_or_app; right; now left|].
    rewrite Hown, String.eqb_refl. reflexivity.
Qed.

Lemma create_then_read_back_witness :
  exists row,
    response_of (createTask Demo.alice (Demo.only_title (VStr "t4")) "task-4"
                            Demo.later Demo.demo_db)
      = mkResponse 201 (TaskMessage "Task created." (Some row)) /\
    getTask Demo.alice "task-4"
            (db_of (createTask Demo.alice (Demo.only_title (VStr "t4")) "task-4"
                               Demo.later Demo.demo_db))
      = (mkResponse 200 (TaskOnly (Some row)),
         db_of (createTask Demo.alice (Demo.only_title (VStr "t4")) "task-4"
                           Demo.later Demo.demo_db), [SelectTaskByIdAndUser]) /\
    In row (listed (response_of
                      (listTasks Demo.alice (mkQuery VUndefined VUndefined)
                         (db_of (createTask Demo.alice (Demo.only_title (VStr "t4"))
                                            "task-4" Demo.later Demo.demo_db))))).
Proof.
  apply (create_then_read_back Demo.alice (Demo.only_title (VStr "t4")) "task-4"
           Demo.later Demo.demo_db).
  reflexivity.
Defined.

(** ** Reading, deleting and updating one task *)

Lemma addressed_iff_same (d : db) (t : task) (user : identity) :
  pk_ok d -> In t (tasks d) -> t_user_id t = uid user ->
  forall x, In x (tasks d) -> (addressed user (t_id t) x = true <-> x = t).
Proof.
  intros Hpk Ht Hown x Hx. unfold addressed. split.
  - intros H. apply andb_prop in H. destruct H as [Hid _].
    apply String.eqb_eq in Hid. eapply nodup_map_inj; eauto.
  - intros ->. now rewrite Hown, !String.eqb_refl.
Qed.

Lemma stored_is_row (d : db) (id : string) (t : task) :
  stored d id = Some t -> In t (tasks d) /\ t_id t = id.
Proof.
  unfold stored. intros H. apply find_some in H. destruct H as [Hin Hid].
  split; [assumption|now apply String.eqb_eq].
Qed.

(** X1. Under the primary key, GET /api/tasks/:id is a lookup by id
    followed by an owner test: 200 with the stored row when a row has that
    id and the caller owns it, 404 NotFound when no row has the id or the row
    is someone else's; one SELECT either way, nothing written. *)
Theorem getTask_by_primary_key (user : identity) (id : string) (d : db) :
  pk_ok d ->
  getTask user id d
  = (match stored d id with
     | Some t => if String.eqb (t_user_id t) (uid user)
                 then mkResponse 200 (TaskOnly (Some t)) else not_found
     | None => not_found
     end, d, [SelectTaskByIdAndUser]).
Proof.
  intros Hpk. unfold getTask, try_next, bind, get_task_by_id_and_user.
  destruct (stored d id) as [t|] eqn:Hs.
  - destruct (stored_is_row _ _ _ Hs) as [Ht <-].
    destruct (String.eqb_spec (t_user_id t) (uid user)) as [Hown|Hne].
    + pose proof (own_row_found d t Hpk Ht) as Hf. rewrite Hown in Hf.
      now rewrite Hf.
    + rewrite (proj2 (find_none_iff _ _)); [reflexivity|].
      apply foreign_row_invisible; auto.
  - rewrite (proj2 (find_none_iff _ _)); [reflexivity|].
    intros x Hx. unfold stored in Hs.
    now rewrite (find_none _ _ Hs x Hx).
Qed.

Lemma getTask_by_primary_key_witness :
  getTask Demo.alice "task-2" Demo.demo_db
  = (mkResponse 200 (TaskOnly (Some Demo.task2)), Demo.demo_db,
     [SelectTaskByIdAndUser]).
Proof.
  apply (getTask_by_primary_key Demo.alice "task-2" Demo.demo_db).
  exact demo_pk_ok.
Defined.

Example get_unknown_id :
  getTask Demo.alice "task-9" Demo.demo_db
  = (not_found, Demo.demo_db, [SelectTaskByIdAndUser]).
Proof. reflexivity. Qed.

Lemma filter_twice {A : Type} (f : A -> bool) (l : list A) :
  filter f (filter f l) = filter f l.
Proof.
  apply filter_all_true. intros x Hx. apply filter_In in Hx. tauto.
Qed.

Lemma filter_then_complement {A : Type} (f : A -> bool) (l : list A) :
  filter f (filter (fun x => negb (f x)) l) = [].
Proof.
  apply filter_all_false. intros x Hx. apply filter_In in Hx.
  destruct Hx as [_ H]. now apply negb_true_iff in H.
Qed.

(** X6. DELETE /api/tasks/:id by the owner of the row answers 200 and
    removes exactly that row: every other row and every user stay.  After
    it the id is gone: GET answers 404, and a second DELETE answers 404 and
    changes nothing. *)
Theorem deleteTask_removes_own_row (d : db) (t : task) (user : identity) :
  pk_ok d -> In t (tasks d) -> t_user_id t = uid user ->
  let out := deleteTask user (t_id t) d in
  response_of out = mkResponse 200 (MessageOnly "Task deleted.") /\
  ran out = [DeleteTask] /\
  users (db_of out) = users d /\
  (forall x, In x (tasks (db_of out)) <-> In x (tasks d) /\ x <> t) /\
  getTask user (t_id t) (db_of out)
    = (not_found, db_of out, [SelectTaskByIdAndUser]) /\
  deleteTask user (t_id t) (db_of out) = (not_found, db_of out, [DeleteTask]).
Proof.
  intros Hpk Ht Hown out.
  pose proof (addressed_iff_same d t user Hpk Ht Hown) as Hsame.
  assert (Hlen : Nat.eqb (List.length (filter (addressed user (t_id t)) (tasks d))) 0
                 = false).
  { apply Nat.eqb_neq.
    assert (In t (filter (addressed user (t_id t)) (tasks d))) as Hin
      by (apply filter_In; split; [assumption|now apply Hsame]).
    destruct (filter _ (tasks d)); [contradiction|discriminate]. }
  assert (E : out = (mkResponse 200 (MessageOnly "Task deleted."),
                     mkDb (users d)
                          (filter (fun x => negb (addressed user (t_id t) x)) (tasks d)),
                     [DeleteTask])).
  { subst out. unfold deleteTask, try_next, bind, delete_task.
    fold (addressed user (t_id t)). now rewrite Hlen. }
  rewrite E. unfold response_of, db_of, ran. cbn [fst snd users tasks].
  repeat match goal with |- _ /\ _ => split end; try reflexivity.
  - intros x. rewrite filter_In, negb_true_iff. split.
    + intros [Hx Hn]. split; [assumption|]. intros ->.
      rewrite (proj2 (Hsame t Ht) eq_refl) in Hn. discriminate.
    + intros [Hx Hne]. split; [assumption|].
      destruct (addressed user (t_id t) x) eqn:A; [|reflexivity].
      exfalso. apply Hne. now apply Hsame.
  - unfold getTask, try_next, bind, get_task_by_id_and_user. cbn [tasks].
    fold (addressed user (t_id t)).
    rewrite (proj2 (find_none_iff _ _)); [reflexivity|].
    intros x Hx. apply filter_In in Hx. destruct Hx as [_ H].
    now apply negb_true_iff in H.
  - unfold deleteTask, try_next, bind, delete_task. cbn [tasks users].
    fold (addressed user (t_id t)).
    rewrite filter_then_complement.
    rewrite (filter_twice (fun x => negb (addressed user (t_id t) x))).
    reflexivity.
Qed.

Lemma deleteTask_removes_own_row_witness :
  let out := deleteTask Demo.alice "task-1" Demo.demo_db in
  response_of out = mkResponse 200 (MessageOnly "Task deleted.") /\
  ran out = [DeleteTask] /\
  users (db_of out) = users Demo.demo_db /\
  (forall x, In x (tasks (db_of out)) <-> In x (tasks Demo.demo_db) /\ x <> Demo.task1) /\
  getTask Demo.alice "task-1" (db_of out)
    = (not_found, db_of out, [SelectTaskByIdAndUser]) /\
  deleteTask Demo.alice "task-1" (db_of out) = (not_found, db_of out, [DeleteTask]).
Proof.
  apply (deleteTask_removes_own_row Demo.demo_db Demo.task1 Demo.alice).
  - exact demo_pk_ok.
  - simpl. tauto.
  - reflexivity.
Defined.

(** What PATCH /api/tasks/:id does, in full: it fails without writing, or
    it rewrites the addressed row and answers 200 with the new row. *)
Lemma updateTask_outcome (user : identity) (id : string) (req : task_body)
    (now : string) (d : db) :
  pk_ok d ->
  (db_of (updateTask user id req now d) = d /\
   code (response_of (updateTask user id req now d)) <> 200%Z) \/
  (exists t ti de st pr du,
     In t (tasks d) /\ t_id t = id /\ t_user_id t = uid user /\
     rejected VALID_STATUSES (b_status req) = false /\
     rejected VALID_PRIORITIES (b_priority req) = false /\
     merged_title (b_title req) t = Ok (VStr ti) /\
     bind_args 7 (patch_args ti req t id (uid user))
     = Ok [SqlText ti; de; SqlText st; SqlText pr; du;
           SqlText id; SqlText (uid user)] /\
     updateTask user id req now d
     = (mkResponse 200
          (TaskMessage "Task updated."
             (Some (mkTask (t_id t) (t_user_id t) ti (cell de) st pr (cell du)
                           (t_created_at t) now))),
        mkDb (users d)
             (map (fun x => if addressed user id x
                            then set_columns (SqlText ti) de (SqlText st)
                                             (SqlText pr) du now x
                            else x) (tasks d)),
        [SelectTaskByIdAndUser; UpdateTask; SelectTaskById])).
Proof.
  intros Hpk.
  destruct (find (addressed user id) (tasks d)) as [t|] eqn:Hfind.
  - apply find_some in Hfind. destruct Hfind as [Ht Hhit].
    unfold addressed in Hhit. apply andb_prop in Hhit. destruct Hhit as [Hid Hown].
    apply String.eqb_eq in Hid, Hown. subst id.
    destruct (updateTask_owned_cases d t user req now Hpk Ht Hown)
      as [H | (ti & de & st & pr & du & Hrs & Hrp & Hti & Hb)];
      [now left|right].
    exists t, ti, de, st, pr, du.
    repeat match goal with |- _ /\ _ => split end; try assumption; try reflexivity.
    now apply updateTask_success_run.
  - left. unfold updateTask, try_next, bind, get_task_by_id_and_user.
    unfold addressed in Hfind. rewrite Hfind. split; [reflexivity|discriminate].
Qed.

Lemma addressed_set_columns (user : identity) (id : string)
    (ti de st pr du : sqlval) (now : string) (x : task) :
  addressed user id (set_columns ti de st pr du now x) = addressed user id x.
Proof. reflexivity. Qed.

Lemma in_rewritten_rows (user : identity) (id : string) (g : task -> task)
    (l : list task) (y : task) :
  In y (map (fun x => if addressed user id x then g x else x) l) ->
  In y l \/ exists x, In x l /\ addressed user id x = true /\ y = g x.
Proof.
  intros H. apply in_map_iff in H. destruct H as (x & Hy & Hx).
  destruct (addressed user id x) eqn:A; [right|left]; subst; eauto.
Qed.

(** X7. Under the primary key, a PATCH never adds or removes a row and
    never touches [users]; ids, owners and creation times of all rows are
    what they were; every row other than the one addressed (by id and
    caller) is unchanged, and so is that row when the answer is not 200. *)
Theorem updateTask_changes_one_row (user : identity) (id : string)
    (req : task_body) (now : string) (d : db) :
  pk_ok d ->
  let d' := db_of (updateTask user id req now d) in
  users d' = users d /\
  map t_id (tasks d') = map t_id (tasks d) /\
  map t_user_id (tasks d') = map t_user_id (tasks d) /\
  map t_created_at (tasks d') = map t_created_at (tasks d) /\
  (forall x, In x (tasks d) -> addressed user id x = false -> In x (tasks d')) /\
  (code (response_of (updateTask user id req now d)) <> 200%Z -> d' = d).
Proof.
  intros Hpk d'. subst d'.
  destruct (updateTask_outcome user id req now d Hpk)
    as [[Hd Hc] | (t & ti & de & st & pr & du & _ & _ & _ & _ & _ & _ & _ & E)].
  - rewrite Hd. repeat split; auto.
  - rewrite E. unfold db_of, response_of. cbn [fst snd users tasks code].
    repeat match goal with |- _ /\ _ => split end; try reflexivity.
    + rewrite map_map. apply map_ext. intros x. now destruct (addressed user id x).
    + rewrite map_map. apply map_ext. intros x. now destruct (addressed user id x).
    + rewrite map_map. apply map_ext. intros x. now destruct (addressed user id x).
    + intros x Hx A. apply in_map_iff. exists x. now rewrite A.
    + intros H. now contradiction H.
Qed.

Lemma updateTask_changes_one_row_witness :
  let d' := db_of (updateTask Demo.alice "task-1" (Demo.only_status (VStr "completed"))
                              Demo.later Demo.demo_db) in
  users d' = users Demo.demo_db /\
  map t_id (tasks d') = map t_id (tasks Demo.demo_db) /\
  map t_user_id (tasks d') = map t_user_id (tasks Demo.demo_db) /\
  map t_created_at (tasks d') = map t_created_at (tasks Demo.demo_db) /\
  (forall x, In x (tasks Demo.demo_db) -> addressed Demo.alice "task-1" x = false ->
             In x (tasks d')) /\
  (code (response_of (updateTask Demo.alice "task-1"
                                 (Demo.only_status (VStr "completed"))
                                 Demo.later Demo.demo_db)) <> 200%Z ->
   d' = Demo.demo_db).
Proof.
  apply (updateTask_changes_one_row Demo.alice "task-1"
           (Demo.only_status (VStr "completed")) Demo.later Demo.demo_db).
  exact demo_pk_ok.
Defined.

Lemma addressed_after_update (d : db) (t : task) (user : identity)
    (g : task -> task) :
  pk_ok d -> In t (tasks d) -> t_user_id t = uid user ->
  (forall x, addressed user (t_id t) (g x) = addressed user (t_id t) x) ->
  find (addressed user (t_id t))
       (map (fun x => if addressed user (t_id t) x then g x else x) (tasks d))
  = Some (g t).
Proof.
  intros Hpk Ht Hown Hg. rewrite find_map.
  rewrite (find_pointwise _ (addressed user (t_id t))).
  - pose proof (own_row_found d t Hpk Ht) as Hf. rewrite Hown in Hf.
    change (find (addressed user (t_id t)) (tasks d) = Some t) in Hf.
    rewrite Hf. simpl.
    now rewrite (proj2 (addressed_iff_same d t user Hpk Ht Hown t Ht) eq_refl).
  - intros x. destruct (addressed user (t_id t) x) eqn:A; [now rewrite Hg|exact A].
Qed.

(** X8. Under the primary key, when PATCH answers 200 the row in
    its response is the row the table then holds under that id, and the
    caller's GET on the id answers 200 with it. *)
Theorem update_then_read_back (user : identity) (id : string) (req : task_body)
    (now : string) (d : db) :
  pk_ok d ->
  code (response_of (updateTask user id req now d)) = 200%Z ->
  exists row,
    response_of (updateTask user id req now d)
      = mkResponse 200 (TaskMessage "Task updated." (Some row)) /\
    stored (db_of (updateTask user id req now d)) id = Some row /\
    getTask user id (db_of (updateTask user id req now d))
      = (mkResponse 200 (TaskOnly (Some row)),
         db_of (updateTask user id req now d), [SelectTaskByIdAndUser]).
Proof.
  intros Hpk Hcode.
  destruct (updateTask_outcome user id req now d Hpk)
    as [[_ Hc] | (t & ti & de & st & pr & du & Ht & Hid & Hown & _ & _ & _ & _ & E)];
    [contradiction|].
  subst id. rewrite E. unfold response_of, db_of. cbn [fst snd].
  eexists. split; [reflexivity|]. split.
  - unfold stored. cbn [tasks].
    pose proof (stored_after_update d t
                  (set_columns (SqlText ti) de (SqlText st) (SqlText pr) du now)
                  Hpk Ht (fun x => eq_refl)) as Hs.
    rewrite Hown in Hs. exact Hs.
  - unfold getTask, try_next, bind, get_task_by_id_and_user. cbn [tasks].
    fold (addressed user (t_id t)).
    rewrite (addressed_after_update d t user _ Hpk Ht Hown); [reflexivity|].
    intros x. reflexivity.
Qed.

Lemma update_then_read_back_witness :
  exists row,
    response_of (updateTask Demo.alice "task-2" (Demo.only_title (VStr " ship it "))
                            Demo.later Demo.demo_db)
      = mkResponse 200 (TaskMessage "Task updated." (Some row)) /\
    stored (db_of (updateTask Demo.alice "task-2" (Demo.only_title (VStr " ship it "))
                              Demo.later Demo.demo_db)) "task-2" = Some row /\
    getTask Demo.alice "task-2"
            (db_of (updateTask Demo.alice "task-2" (Demo.only_title (VStr " ship it "))
                               Demo.later Demo.demo_db))
      = (mkResponse 200 (TaskOnly (Some row)),
         db_of (updateTask Demo.alice "task-2" (Demo.only_title (VStr " ship it "))
                           Demo.later Demo.demo_db), [SelectTaskByIdAndUser]).
Proof.
  apply (update_then_read_back Demo.alice "task-2" (Demo.only_title (VStr " ship it "))
           Demo.later Demo.demo_db).
  - exact demo_pk_ok.
  - reflexivity.
Defined.

Lemma merged_title_again (v : value) (t t' : task) (ti : string) :
  merged_title v t = Ok (VStr ti) -> t_title t' = ti ->
  merged_title v t' = Ok (VStr ti).
Proof.
  unfold merged_title. destruct (defined v); [auto|]. now intros _ ->.
Qed.

Lemma merged_text_again (v : value) (s st : string) :
  bind_value (merged v (VStr s)) = Some (SqlText st) ->
  bind_value (merged v (VStr st)) = Some (SqlText st).
Proof. unfold merged. now destruct (defined v). Qed.

Lemma merged_cell_again (v : value) (c : option string) (p : sqlval) :
  bind_value (merged v (of_cell c)) = Some p ->
  bind_value (merged v (of_cell (cell p))) = Some p.
Proof.
  unfold merged. destruct (defined v); [auto|]. intros _.
  now rewrite bind_of_cell, to_sql_cell.
Qed.

(** X9. Under the primary key, a PATCH whose description and due date are
    not arrays and that was answered 200 can be sent again: the second
    answer is 200 with the same row, only updatedAt moved to the time of the
    second request, and that is the row then stored.  (With an array in the
    body the second request can bind other values than the first: what an
    absent field falls back to is the row the first request left.) *)
Theorem repeated_patch (user : identity) (id : string) (req : task_body)
    (now now2 : string) (d : db) :
  pk_ok d -> no_array req ->
  code (response_of (updateTask user id req now d)) = 200%Z ->
  let d' := db_of (updateTask user id req now d) in
  exists row,
    response_of (updateTask user id req now d)
      = mkResponse 200 (TaskMessage "Task updated." (Some row)) /\
    response_of (updateTask user id req now2 d')
      = mkResponse 200 (TaskMessage "Task updated." (Some (touch now2 row))) /\
    stored (db_of (updateTask user id req now2 d')) id = Some (touch now2 row).
Proof.
  intros Hpk Hflat Hcode d'. subst d'.
  destruct (updateTask_outcome user id req now d Hpk)
    as [[_ Hc] | (t & ti & de & st & pr & du & Ht & Hid & Hown
                  & Hrs & Hrp & Hti & Hb & E)];
    [contradiction|].
  subst id. rewrite E. unfold response_of at 1, db_of. cbn [fst snd].
  destruct (patch_args_in_place _ _ _ _ _ _ _ _ _ Hflat Hrs Hrp Hb)
    as (Hde & Hst & Hpr & Hdu).
  eexists. split; [reflexivity|].
  set (g := fun x => if addressed user (t_id t) x
                     then set_columns (SqlText ti) de (SqlText st) (SqlText pr) du now x
                     else x).
  set (t' := mkTask (t_id t) (t_user_id t) ti (cell de) st pr (cell du)
                    (t_created_at t) now).
  assert (Hpk' : pk_ok (mkDb (users d) (map g (tasks d)))).
  { unfold pk_ok in *. cbn [tasks]. rewrite map_map.
    erewrite map_ext; [exact Hpk|]. intros x. unfold g.
    now destruct (addressed user (t_id t) x). }
  assert (Ht' : In t' (tasks (mkDb (users d) (map g (tasks d))))).
  { cbn [tasks]. apply in_map_iff. exists t. split; [|assumption]. unfold g.
    now rewrite (proj2 (addressed_iff_same d t user Hpk Ht Hown t Ht) eq_refl). }
  destruct (updateTask_success (mkDb (users d) (map g (tasks d))) t' user req now2
              ti st pr de du Hpk' Ht' Hown Hrs Hrp) as (Hr & Hs & _).
  - eapply merged_title_again; eauto.
  - apply patch_args_of_values; cbn [t_description t_status t_priority t_due_date t'].
    + eapply merged_cell_again; eauto.
    + eapply merged_text_again; eauto.
    + eapply merged_text_again; eauto.
    + eapply merged_cell_again; eauto.
  - split; [exact Hr|exact Hs].
Qed.

(** With an array in the body the second answer can differ from the first:
    the status the body does not mention is taken from the row, which the
    first request has rewritten. *)
Example repeated_patch_with_arrays :
  let req := mkBody VUndefined (VArr []) VUndefined VUndefined
                    (VArr [VStr "a"; VStr "b"]) in
  let first := updateTask Demo.alice "task-2" req Demo.later Demo.demo_db in
  let second := updateTask Demo.alice "task-2" req "2024-05-10 00:00:00"
                           (db_of first) in
  response_of first
  = mkResponse 200
      (TaskMessage "Task updated."
         (Some (mkTask "task-2" "u-alice" "write report" (Some "completed") "high"
                       "a" (Some "b") "2024-05-03 08:00:00" Demo.later))) /\
  response_of second
  = mkResponse 200
      (TaskMessage "Task updated."
         (Some (mkTask "task-2" "u-alice" "write report" (Some "high") "a"
                       "a" (Some "b") "2024-05-03 08:00:00" "2024-05-10 00:00:00"))).
Proof. split; reflexivity. Qed.

Lemma repeated_patch_witness :
  let req := mkBody (VStr " ship it ") VNull VUndefined (VStr "low") VUndefined in
  let d' := db_of (updateTask Demo.alice "task-2" req Demo.later Demo.demo_db) in
  exists row,
    response_of (updateTask Demo.alice "task-2" req Demo.later Demo.demo_db)
      = mkResponse 200 (TaskMessage "Task updated." (Some row)) /\
    response_of (updateTask Demo.alice "task-2" req "2024-05-10 00:00:00" d')
      = mkResponse 200
          (TaskMessage "Task updated." (Some (touch "2024-05-10 00:00:00" row))) /\
    stored (db_of (updateTask Demo.alice "task-2" req "2024-05-10 00:00:00" d'))
           "task-2" = Some (touch "2024-05-10 00:00:00" row).
Proof.
  apply (repeated_patch Demo.alice "task-2"
           (mkBody (VStr " ship it ") VNull VUndefined (VStr "low") VUndefined)
           Demo.later "2024-05-10 00:00:00" Demo.demo_db).
  - exact demo_pk_ok.
  - split; reflexivity.
  - reflexivity.
Defined.

(** ** Rows of other owners *)

(** X11. Under the primary key, no task request changes a row its
    caller does not own: for every row whose owner is not the caller, the
    row is in the table after POST, PATCH or DELETE exactly when it was
    there before, whatever id and body the request carries. *)
Theorem writes_keep_other_owners_rows (user : identity) (d : db) (x : task) :
  pk_ok d -> t_user_id x <> uid user ->
  (forall req taskId now,
     In x (tasks (db_of (createTask user req taskId now d))) <-> In x (tasks d)) /\
  (forall id req now,
     In x (tasks (db_of (updateTask user id req now d))) <-> In x (tasks d)) /\
  (forall id,
     In x (tasks (db_of (deleteTask user id d))) <-> In x (tasks d)).
Proof.
  intros Hpk Hne.
  assert (Hmiss : forall id, addressed user id x = false).
  { intros id. unfold addressed. apply andb_false_iff. right.
    now apply String.eqb_neq. }
  repeat match goal with |- _ /\ _ => split end.
  - intros req taskId now.
    destruct (createTask_outcome user req taskId now d)
      as [[-> _] | (row & -> & _ & Hown & _)]; [reflexivity|].
    unfold db_of. cbn [fst snd tasks]. rewrite in_app_iff. simpl.
    split; [|tauto]. intros [H | [<- | []]]; [assumption|].
    now contradiction Hne.
  - intros id req now.
    destruct (updateTask_outcome user id req now d Hpk)
      as [[-> _] | (t & ti & de & st & pr & du & _ & _ & _ & _ & _ & _ & _ & E)];
      [reflexivity|].
    rewrite E. unfold db_of. cbn [fst snd tasks]. split.
    + intros H. apply in_rewritten_rows in H.
      destruct H as [H | (y & _ & Hy & ->)]; [assumption|].
      exfalso. apply Hne. unfold addressed in Hy. apply andb_prop in Hy.
      destruct Hy as [_ Hy]. apply String.eqb_eq in Hy. exact Hy.
    + intros H. apply in_map_iff. exists x. now rewrite Hmiss.
  - intros id.
    assert (E : tasks (db_of (deleteTask user id d))
                = filter (fun y => negb (addressed user id y)) (tasks d)).
    { unfold deleteTask, try_next, bind, delete_task.
      fold (addressed user id).
      now destruct (Nat.eqb (List.length (filter (addressed user id) (tasks d))) 0). }
    rewrite E, filter_In, Hmiss. simpl. tauto.
Qed.

Lemma writes_keep_other_owners_rows_witness :
  (forall req taskId now,
     In Demo.task3 (tasks (db_of (createTask Demo.alice req taskId now Demo.demo_db)))
     <-> In Demo.task3 (tasks Demo.demo_db)) /\
  (forall id req now,
     In Demo.task3 (tasks (db_of (updateTask Demo.alice id req now Demo.demo_db)))
     <-> In Demo.task3 (tasks Demo.demo_db)) /\
  (forall id,
     In Demo.task3 (tasks (db_of (deleteTask Demo.alice id Demo.demo_db)))
     <-> In Demo.task3 (tasks Demo.demo_db)).
Proof.
  apply (writes_keep_other_owners_rows Demo.alice Demo.demo_db Demo.task3).
  - exact demo_pk_ok.
  - discriminate.
Defined.

(** ** Listing *)

Lemma listTasks_scope (user : identity) (q : list_query) (d : db) :
  (forall x, In x (listed (response_of (listTasks user q d))) ->
             In x (tasks d) /\ t_user_id x = uid user) /\
  (code (response_of (listTasks user q d)) = 200%Z ->
   exists l, body (response_of (listTasks user q d)) = TaskList (List.length l) l).
Proof.
  destruct (listTasks_outcome user q d) as [(r & -> & Hc & Hr) | (l & -> & Hl)];
    unfold response_of; cbn [fst].
  - split; [rewrite Hr; intros x []|intros H; contradiction].
  - split; [exact Hl|intros _; exists l; reflexivity].
Qed.

(** X12. Whatever the query, GET /api/tasks writes nothing and lists
    only rows of the table that the caller owns; when the answer is 200 its
    [count] is the number of tasks it carries. *)
Theorem listTasks_is_scoped_and_read_only (user : identity) (q : list_query)
    (d : db) :
  db_of (listTasks user q d) = d /\
  (forall x, In x (listed (response_of (listTasks user q d))) ->
             In x (tasks d) /\ t_user_id x = uid user) /\
  (code (response_of (listTasks user q d)) = 200%Z ->
   exists l, body (response_of (listTasks user q d)) = TaskList (List.length l) l).
Proof. split; [apply listTasks_db|apply listTasks_scope]. Qed.

(** ** Requests that are not authenticated *)

Lemma authenticate_rejects_with_401 (verify : string -> result identity)
    (h : option string) (resp : response) :
  AuthMiddleware.authenticate verify h = AuthMiddleware.Responded resp ->
  code resp = 401%Z /\
  exists kind msg,
    body resp = ErrorBody kind msg /\
    In kind ["Unauthorized"; "TokenExpired"; "InvalidToken"].
Proof.
  unfold AuthMiddleware.authenticate.
  destruct h as [h|]; [destruct (String.eqb h "")|];
    try destruct (negb _ || negb _);
    try destruct (verify _) as [u|e];
    try destruct (Js.name e =? "TokenExpiredError");
    intros H; inversion H; subst; (split; [reflexivity|]);
    do 2 eexists; (split; [reflexivity|]); simpl; tauto.
Qed.

(** X13. A request to any of the five task routes whose Authorization
    header the middleware rejects gets the middleware's 401 as its answer:
    the controller does not run, no statement is stepped and the database is
    the same. *)
Theorem rejected_requests_touch_nothing (lib : packages) (r : request)
    (h : option string) (resp : response) (d : db) :
  authorization_of r = Some h ->
  AuthMiddleware.authenticate (jwt_verify lib) h = AuthMiddleware.Responded resp ->
  serve lib r d = (resp, d, []) /\ code resp = 401%Z.
Proof.
  intros Hr Ha. split; [|now apply (authenticate_rejects_with_401 _ _ _ Ha)].
  destruct r; simpl in Hr; inversion Hr; subst;
    unfold serve, AuthMiddleware.protected; now rewrite Ha.
Qed.

Lemma rejected_requests_touch_nothing_witness :
  serve Demo.demo_lib
        (DeleteTaskById (Some "Bearer stale:u-alice") "task-1") Demo.demo_db
  = (AuthMiddleware.token_expired, Demo.demo_db, []) /\
  code AuthMiddleware.token_expired = 401%Z.
Proof.
  apply (rejected_requests_touch_nothing Demo.demo_lib
           (DeleteTaskById (Some "Bearer stale:u-alice") "task-1")
           (Some "Bearer stale:u-alice")); reflexivity.
Defined.

(** ** Every answer of the route handlers *)

Lemma plain_ret {A : Type} (a : A) : throws_plain (ret a).
Proof. intros d e d' q H. inversion H. Qed.

Lemma plain_lift {A : Type} (r : result A) :
  (forall e, r = Throw e -> Js.status e = None) -> throws_plain (lift r).
Proof. intros Hr d e d' q H. inversion H. now apply Hr. Qed.

Lemma plain_bind {A B : Type} (m : M A) (f : A -> M B) :
  throws_plain m -> (forall a, throws_plain (f a)) -> throws_plain (bind m f).
Proof.
  intros Hm Hf d e d' q. unfold bind.
  destruct (m d) as [[[a|e0] d1] q1] eqn:Em.
  - destruct (f a d1) as [[r d2] q2] eqn:Ef. intros H. inversion H; subst.
    eapply Hf; eauto.
  - intros H. inversion H; subst. eapply Hm; eauto.
Qed.

Lemma behaved_ret (r : response) : documented r -> well_behaved (ret r).
Proof. intros H d. exact H. Qed.

Lemma behaved_bind {A : Type} (m : M A) (f : A -> M response) :
  throws_plain m -> (forall a, well_behaved (f a)) -> well_behaved (bind m f).
Proof.
  intros Hm Hf d. unfold bind.
  destruct (m d) as [[[a|e0] d1] q1] eqn:Em.
  - specialize (Hf a d1). destruct (f a d1) as [[r d2] q2]. exact Hf.
  - simpl. eapply Hm; eauto.
Qed.

Lemma documented_error (e : exn) : Js.status e = None -> documented (errorHandler e).
Proof.
  intros H. unfold documented, errorHandler. rewrite H. cbn [body code].
  split; [simpl; tauto|]. split; [|reflexivity].
  destruct (String.eqb_spec (Js.name e) ""); [discriminate|assumption].
Qed.

Lemma behaved_try_next (m : M response) (d : db) :
  well_behaved m -> documented (response_of (try_next m d)).
Proof.
  intros H. specialize (H d). unfold try_next, response_of.
  destruct (m d) as [[[r|e] d'] q]; cbn [fst snd] in *;
    [exact H|now apply documented_error].
Qed.

Ltac plain_store :=
  repeat first
    [ apply plain_ret
    | apply plain_bind; [|intros ?]
    | apply plain_lift; intros ? ?;
      first [ eapply bind_args_throw; eassumption
            | eapply call_trim_throw; eassumption
            | eapply merged_title_throw; eassumption
            | eapply title_missing_throw; eassumption ] ].

Lemma plain_select_tasks (u : string) (s p : option value) :
  throws_plain (select_tasks_of_user u s p).
Proof.
  unfold select_tasks_of_user. cbv zeta. plain_store.
  intros d e d' q H. inversion H.
Qed.

Lemma plain_get_task_by_id_and_user (id u : string) :
  throws_plain (get_task_by_id_and_user id u).
Proof. intros d e d' q H. inversion H. Qed.

Lemma plain_get_task_by_id (id : string) : throws_plain (get_task_by_id id).
Proof. intros d e d' q H. inversion H. Qed.

Lemma plain_delete_task (id u : string) : throws_plain (delete_task id u).
Proof. intros d e d' q H. inversion H. Qed.

Lemma plain_meanwhile (other : db -> db) : throws_plain (meanwhile other).
Proof. intros d e d' q H. inversion H. Qed.

Lemma plain_insert_task (id u ti : string) (de st pr du : value) (now : string) :
  throws_plain (insert_task id u ti de st pr du now).
Proof.
  unfold insert_task. plain_store.
  intros d e d' q.
  repeat match goal with
         | |- context [if ?c then _ else _] => destruct c
         end; intros H; inversion H; reflexivity.
Qed.

Lemma plain_update_task (ti de st pr du : value) (id u now : string) :
  throws_plain (update_task ti de st pr du id u now).
Proof.
  unfold update_task. plain_store.
  intros d e d' q. cbv zeta.
  repeat match goal with
         | |- context [if ?c then _ else _] => destruct c
         end; intros H; inversion H; reflexivity.
Qed.

Lemma plain_get_user_by_email (email : value) :
  throws_plain (get_user_by_email email).
Proof.
  unfold get_user_by_email. plain_store.
  intros d e d' q H. inversion H.
Qed.

Lemma plain_insert_user (id : string) (email : value) (password : string)
    (name : value) (now : string) :
  throws_plain (insert_user id email password name now).
Proof.
  unfold insert_user. plain_store.
  intros d e d' q.
  repeat match goal with
         | |- context [if ?c then _ else _] => destruct c
         end; intros H; inversion H; reflexivity.
Qed.

Lemma documented_error_body (c : Z) (kind msg : string) :
  In c [400; 401; 404; 409]%Z -> kind <> "" ->
  documented (mkResponse c (ErrorBody kind msg)).
Proof.
  intros Hc Hk. unfold documented. cbn [body code]. split; [simpl in *; tauto|].
  split; [assumption|]. intros ->. simpl in Hc. intuition discriminate.
Qed.

Ltac documented_now :=
  first [ apply documented_error_body; [simpl; tauto|discriminate]
        | unfold documented; cbn [body code]; simpl; tauto ].

Lemma listTasks_behaved (user : identity) (query : list_query) (d : db) :
  documented (response_of (listTasks user query d)).
Proof.
  unfold listTasks. apply behaved_try_next. cbv zeta.
  destruct (truthy (q_status query));
    [destruct (negb (includes VALID_STATUSES (q_status query)))|];
    try (apply behaved_ret; documented_now);
    (destruct (truthy (q_priority query));
     [destruct (negb (includes VALID_PRIORITIES (q_priority query)))|]);
    try (apply behaved_ret; documented_now);
    (apply behaved_bind; [apply plain_select_tasks|intros l];
     apply behaved_ret; documented_now).
Qed.

Lemma getTask_behaved (user : identity) (id : string) (d : db) :
  documented (response_of (getTask user id d)).
Proof.
  unfold getTask. apply behaved_try_next.
  apply behaved_bind; [apply plain_get_task_by_id_and_user|intros [t|]];
    apply behaved_ret; documented_now.
Qed.

Lemma createTask_behaved (user : identity) (req : task_body) (taskId now : string)
    (d : db) :
  documented (response_of (createTask user req taskId now d)).
Proof.
  unfold createTask. apply behaved_try_next. cbv zeta.
  apply behaved_bind; [plain_store|intros missing].
  destruct missing; [apply behaved_ret; documented_now|].
  destruct (truthy (b_status req) && _); [apply behaved_ret; documented_now|].
  destruct (truthy (b_priority req) && _); [apply behaved_ret; documented_now|].
  apply behaved_bind; [plain_store|intros trimmed].
  apply behaved_bind; [apply plain_insert_task|intros _].
  apply behaved_bind; [apply plain_get_task_by_id|intros t].
  apply behaved_ret; documented_now.
Qed.

Lemma updateTask_behaved (user : identity) (id : string) (req : task_body)
    (now : string) (d : db) :
  documented (response_of (updateTask user id req now d)).
Proof.
  unfold updateTask. apply behaved_try_next. cbv zeta.
  apply behaved_bind; [apply plain_get_task_by_id_and_user|intros [existing|]];
    [|apply behaved_ret; documented_now].
  destruct (truthy (b_status req) && _); [apply behaved_ret; documented_now|].
  destruct (truthy (b_priority req) && _); [apply behaved_ret; documented_now|].
  apply behaved_bind; [plain_store|intros updatedTitle].
  apply behaved_bind; [apply plain_update_task|intros _].
  apply behaved_bind; [apply plain_get_task_by_id|intros t].
  apply behaved_ret; documented_now.
Qed.

Lemma deleteTask_behaved (user : identity) (id : string) (d : db) :
  documented (response_of (deleteTask user id d)).
Proof.
  unfold deleteTask. apply behaved_try_next.
  apply behaved_bind; [apply plain_delete_task|intros changes].
  destruct (Nat.eqb changes 0); apply behaved_ret; documented_now.
Qed.

Lemma shorter_than_8_throw (v : value) (e : exn) :
  shorter_than_8 v = Throw e -> Js.status e = None.
Proof.
  unfold shorter_than_8. destruct v; simpl; intros H; inversion H; reflexivity.
Qed.

Lemma signup_behaved (hash : string -> string) (sign : identity -> string)
    (req : signup_body) (userId now : string) (other : db -> db) (d : db) :
  documented (response_of (signup hash sign req userId now other d)).
Proof.
  unfold signup. apply behaved_try_next. cbv zeta.
  destruct (negb _ || negb _ || negb _); [apply behaved_ret; documented_now|].
  apply behaved_bind;
    [apply plain_lift; intros e He; eapply shorter_than_8_throw; eauto|intros short].
  destruct short; [apply behaved_ret; documented_now|].
  apply behaved_bind; [apply plain_get_user_by_email|intros [u|]];
    [apply behaved_ret; documented_now|].
  apply behaved_bind;
    [apply plain_lift; intros e He; unfold await_hash in He;
     destruct (s_password req); inversion He; reflexivity|intros hashed].
  apply behaved_bind; [apply plain_meanwhile|intros _].
  apply behaved_bind; [apply plain_insert_user|intros _].
  apply behaved_ret; documented_now.
Qed.

Lemma login_behaved (compare : string -> string -> bool) (sign : identity -> string)
    (req : login_body) (d : db) :
  documented (response_of (login compare sign req d)).
Proof.
  unfold login. apply behaved_try_next. cbv zeta.
  destruct (negb _ || negb _); [apply behaved_ret; documented_now|].
  apply behaved_bind; [apply plain_get_user_by_email|intros [u|]];
    [|apply behaved_ret; documented_now].
  apply behaved_bind;
    [apply plain_lift; intros e He; unfold await_compare in He;
     destruct (l_password req); inversion He; reflexivity|intros ok].
  destruct (negb ok); apply behaved_ret; documented_now.
Qed.

Lemma protected_behaved (verify : string -> result identity) (h : option string)
    (controller : identity -> handler) (d : db) :
  (forall user, documented (response_of (controller user d))) ->
  documented (response_of (AuthMiddleware.protected verify h controller d)).
Proof.
  intros Hc. unfold AuthMiddleware.protected.
  destruct (AuthMiddleware.authenticate verify h) as [resp|user] eqn:E; [|apply Hc].
  destruct (authenticate_rejects_with_401 _ _ _ E) as (Hcode & kind & msg & Hb & Hk).
  unfold response_of, documented. cbn [fst]. rewrite Hb, Hcode.
  split; [simpl; tauto|]. split; [|discriminate].
  simpl in Hk. intuition (subst; discriminate).
Qed.

(** X15. Every answer of a route handler (signup, login and, behind the
    middleware, the five task handlers, each on a request whose body
    [express.json()] has parsed) has status 200 or 201 with a success body,
    or status 400, 401, 404, 409 or 500 with an [{error, message}] body whose
    error kind is not empty; and every 500 carries the generic message,
    never the text of the error that was thrown.  (An error raised before
    the routes, such as a body the parser refuses, reaches the error handler
    with a status of its own and is no answer of these handlers.) *)
Theorem handler_answers_are_documented (lib : packages) (r : request) (d : db) :
  documented (response_of (serve lib r d)).
Proof.
  destruct r; cbn [serve].
  - apply signup_behaved.
  - apply login_behaved.
  - apply protected_behaved. intros user. apply listTasks_behaved.
  - apply protected_behaved. intros user. apply createTask_behaved.
  - apply protected_behaved. intros user. apply getTask_behaved.
  - apply protected_behaved. intros user. apply updateTask_behaved.
  - apply protected_behaved. intros user. apply deleteTask_behaved.
Qed.

(** ** Accounts *)

Lemma signup_fresh_run (hash : string -> string)
    (sign : identity -> string) (name email password userId now : string)
    (during_await : db -> db) (d : db) :
  name <> "" -> email <> "" -> 8 <= String.length password ->
  existsb (fun u => String.eqb (u_email u) email) (users d) = false ->
  existsb (fun u => String.eqb (u_email u) email) (users (during_await d)) = false ->
  existsb (fun u => String.eqb (u_id u) userId) (users (during_await d)) = false ->
  signup hash sign (mkSignup (VStr name) (VStr email) (VStr password)) userId now
         during_await d
  = (mkResponse 201
       (Session "Account created successfully."
                (sign (mkIdentity userId (VStr email)))
                (mkUserView userId (VStr name) (VStr email))),
     mkDb (users (during_await d) ++ [mkUser userId email (hash password) name now])
          (tasks (during_await d)),
     [SelectUserByEmail; InsertUser]).
Proof.
  intros Hn He Hlen Hlookup Hinsert Hid.
  apply String.eqb_neq in Hn, He.
  assert (Hp : (password =? "") = false).
  { apply String.eqb_neq. intros ->. simpl in Hlen. lia. }
  assert (Hshort : Nat.ltb (String.length password) 8 = false)
    by (apply Nat.ltb_ge; exact Hlen).
  pose proof (existsb_find_none _ _ Hlookup) as Hnone.
  unfold signup, try_next, shorter_than_8, await_hash, get_user_by_email,
    meanwhile, insert_user, generateToken, bind, lift.
  cbn [s_name s_email s_password truthy get_length bind_args bind_each bind_value
       param nth is_null col_eq text_or].
  rewrite Hn, He, Hp, Hshort. cbn [negb orb].
  rewrite Hnone. cbv beta iota. rewrite Hid, Hinsert. reflexivity.
Qed.

(** X17. A signup whose name and email are non-empty strings and
    whose password is a string of at least 8 characters, for an address
    that no user row holds at the lookup nor at the insert, under an unused
    id, is answered 201 with the token signed for [{id, email}] and the user
    as [{id, name, email}]; the one row it appends to [users] holds the hash
    of the password, and [tasks] is untouched. *)
Theorem signup_creates_account (hash : string -> string)
    (sign : identity -> string) (name email password userId now : string)
    (during_await : db -> db) (d : db) :
  name <> "" -> email <> "" -> 8 <= String.length password ->
  existsb (fun u => String.eqb (u_email u) email) (users d) = false ->
  existsb (fun u => String.eqb (u_email u) email) (users (during_await d)) = false ->
  existsb (fun u => String.eqb (u_id u) userId) (users (during_await d)) = false ->
  signup hash sign (mkSignup (VStr name) (VStr email) (VStr password)) userId now
         during_await d
  = (mkResponse 201
       (Session "Account created successfully."
                (sign (mkIdentity userId (VStr email)))
                (mkUserView userId (VStr name) (VStr email))),
     mkDb (users (during_await d) ++ [mkUser userId email (hash password) name now])
          (tasks (during_await d)),
     [SelectUserByEmail; InsertUser]).
Proof.
  intros Hn He Hlen Hlookup Hinsert Hid. now apply signup_fresh_run.
Qed.

Lemma signup_creates_account_witness :
  signup Demo.demo_hash Demo.demo_sign
         (mkSignup (VStr "Carol") (VStr "carol@x.com") (VStr "12345678"))
         "u-carol" Demo.later (fun d => d) Demo.demo_db
  = (mkResponse 201
       (Session "Account created successfully." "tok:u-carol"
                (mkUserView "u-carol" (VStr "Carol") (VStr "carol@x.com"))),
     mkDb (users Demo.demo_db
           ++ [mkUser "u-carol" "carol@x.com" "$2a$10$12345678" "Carol" Demo.later])
          (tasks Demo.demo_db),
     [SelectUserByEmail; InsertUser]).
Proof.
  apply (signup_creates_account Demo.demo_hash Demo.demo_sign
           "Carol" "carol@x.com" "12345678" "u-carol" Demo.later (fun d => d)
           Demo.demo_db); try reflexivity; try discriminate.
Defined.

(** X18. Signup and login check their input before any statement: a
    signup with a falsy name, email or password, and a login with a falsy
    email or password, are each answered 400 ValidationError; so is a signup
    whose password is a string of fewer than 8 characters, or an array of
    fewer than 8 elements.  None of them reads or writes the database. *)
Theorem auth_input_checks (hash : string -> string)
    (compare : string -> string -> bool) (sign : identity -> string) (d : db) :
  (forall req userId now during_await,
     truthy (s_name req) = false \/ truthy (s_email req) = false \/
     truthy (s_password req) = false ->
     signup hash sign req userId now during_await d
     = (signup_fields_required, d, [])) /\
  (forall req userId now during_await,
     truthy (s_name req) = true -> truthy (s_email req) = true ->
     truthy (s_password req) = true ->
     (exists n, get_length (s_password req) = Ok (Some n) /\ n < 8) ->
     signup hash sign req userId now during_await d
     = (password_too_short, d, [])) /\
  (forall req,
     truthy (l_email req) = false \/ truthy (l_password req) = false ->
     login compare sign req d = (login_fields_required, d, [])).
Proof.
  repeat match goal with |- _ /\ _ => split end.
  - intros req userId now other H. unfold signup, try_next.
    assert (negb (truthy (s_name req)) || negb (truthy (s_email req))
            || negb (truthy (s_password req)) = true) as ->; [|reflexivity].
    destruct H as [-> | [-> | ->]]; simpl; rewrite ?orb_true_r; reflexivity.
  - intros req userId now other Hn He Hp (n & Hlen & Hlt).
    unfold signup, try_next, shorter_than_8, bind, lift.
    rewrite Hn, He, Hp, Hlen. cbn [negb orb].
    apply Nat.ltb_lt in Hlt. now rewrite Hlt.
  - intros req H. unfold login, try_next.
    assert (negb (truthy (l_email req)) || negb (truthy (l_password req)) = true)
      as ->; [|reflexivity].
    destruct H as [-> | ->]; simpl; rewrite ?orb_true_r; reflexivity.
Qed.

Example signup_with_seven_characters :
  signup Demo.demo_hash Demo.demo_sign
         (mkSignup (VStr "Carol") (VStr "carol@x.com") (VStr "1234567"))
         "u-carol" Demo.later (fun d => d) Demo.demo_db
  = (password_too_short, Demo.demo_db, []).
Proof. reflexivity. Qed.

Lemma find_last_user (f : user -> bool) (l : list user) (u : user) :
  existsb f l = false -> f u = true -> find f (l ++ [u]) = Some u.
Proof.
  induction l as [|x l IH]; simpl; intros Hl Hu; [now rewrite Hu|].
  destruct (f x); [discriminate|]. now apply IH.
Qed.

(** X19. Given that a password compares equal to its own hash:
    after a signup as above, a login with the same email and password on the
    resulting database is answered 200 with the same user and the token
    signed for the same [{id, email}], after one lookup and without writing. *)
Theorem signup_then_login (lib : packages)
    (name email password userId now : string) (during_await : db -> db) (d : db) :
  hash_verifies lib ->
  name <> "" -> email <> "" -> 8 <= String.length password ->
  existsb (fun u => String.eqb (u_email u) email) (users d) = false ->
  existsb (fun u => String.eqb (u_email u) email) (users (during_await d)) = false ->
  existsb (fun u => String.eqb (u_id u) userId) (users (during_await d)) = false ->
  let d' := db_of (serve lib (PostSignup (mkSignup (VStr name) (VStr email)
                                                   (VStr password))
                                         userId now during_await) d) in
  serve lib (PostLogin (mkLogin (VStr email) (VStr password))) d'
  = (mkResponse 200
       (Session "Login successful."
                (jwt_sign lib (mkIdentity userId (VStr email)))
                (mkUserView userId (VStr name) (VStr email))),
     d', [SelectUserByEmail]).
Proof.
  intros Hhash Hn He Hlen Hlookup Hinsert Hid d'. subst d'.
  cbn [serve].
  rewrite (signup_fresh_run (bcrypt_hash lib) (jwt_sign lib) name email
             password userId now during_await d Hn He Hlen Hlookup Hinsert Hid).
  unfold db_of. cbn [fst snd].
  assert (Hp : (password =? "") = false).
  { apply String.eqb_neq. intros ->. simpl in Hlen. lia. }
  apply String.eqb_neq in He.
  unfold login, try_next, await_compare, get_user_by_email, generateToken, bind, lift.
  cbn [l_email l_password truthy bind_args bind_each bind_value param nth col_eq users].
  rewrite He, Hp. cbn [negb orb].
  cbn [users].
  rewrite (find_last_user _ _ (mkUser userId email (bcrypt_hash lib password) name now)
             Hinsert); [|apply String.eqb_refl].
  cbn [u_password u_id u_name u_email]. rewrite (Hhash password). reflexivity.
Qed.

Lemma demo_hash_verifies : hash_verifies Demo.demo_lib.
Proof. intros p. unfold Demo.demo_lib, Demo.demo_compare. simpl. apply String.eqb_refl. Qed.

Lemma signup_then_login_witness :
  let d' := db_of (serve Demo.demo_lib
                     (PostSignup (mkSignup (VStr "Carol") (VStr "carol@x.com")
                                           (VStr "12345678"))
                                 "u-carol" Demo.later (fun d => d)) Demo.demo_db) in
  serve Demo.demo_lib (PostLogin (mkLogin (VStr "carol@x.com") (VStr "12345678"))) d'
  = (mkResponse 200
       (Session "Login successful."
                (jwt_sign Demo.demo_lib (mkIdentity "u-carol" (VStr "carol@x.com")))
                (mkUserView "u-carol" (VStr "Carol") (VStr "carol@x.com"))),
     d', [SelectUserByEmail]).
Proof.
  apply (signup_then_login Demo.demo_lib "Carol" "carol@x.com" "12345678" "u-carol"
           Demo.later (fun d => d) Demo.demo_db);
    try reflexivity; try discriminate.
  exact demo_hash_verifies.
Defined.

(** X20. A login with the email of a user row and a password that
    compares equal to the stored hash is answered 200 with the token signed
    for that row's [{id, email}].  Given that this token verifies to its
    payload and has no space in it, the middleware accepts it as a Bearer
    token and sets [req.user] to that id and email, so a task route called
    with it runs its controller as that user. *)
Theorem login_token_is_accepted (lib : packages) (email password : string)
    (u : user) (d : db) :
  email <> "" -> password <> "" ->
  find (fun x => String.eqb (u_email x) email) (users d) = Some u ->
  bcrypt_compare lib password (u_password u) = true ->
  token_round_trips lib (mkIdentity (u_id u) (VStr (u_email u))) ->
  let me := mkIdentity (u_id u) (VStr (u_email u)) in
  let bearer := Some ("Bearer " ++ jwt_sign lib me)%string in
  serve lib (PostLogin (mkLogin (VStr email) (VStr password))) d
  = (mkResponse 200
       (Session "Login successful." (jwt_sign lib me)
                (mkUserView (u_id u) (VStr (u_name u)) (VStr (u_email u)))),
     d, [SelectUserByEmail]) /\
  AuthMiddleware.authenticate (jwt_verify lib) bearer = AuthMiddleware.Next me /\
  (forall q, serve lib (GetTasks bearer q) d = listTasks me q d) /\
  (forall id, serve lib (GetTaskById bearer id) d = getTask me id d) /\
  (forall req taskId now,
     serve lib (PostTasks bearer req taskId now) d = createTask me req taskId now d) /\
  (forall id req now,
     serve lib (PatchTaskById bearer id req now) d = updateTask me id req now d) /\
  (forall id, serve lib (DeleteTaskById bearer id) d = deleteTask me id d).
Proof.
  intros He Hp Hfind Hcmp [Hverify Hspace]. cbv zeta.
  apply String.eqb_neq in He, Hp.
  assert (Hauth : AuthMiddleware.authenticate (jwt_verify lib)
                    (Some ("Bearer "
                           ++ jwt_sign lib (mkIdentity (u_id u) (VStr (u_email u))))%string)
                  = AuthMiddleware.Next (mkIdentity (u_id u) (VStr (u_email u)))).
  { unfold AuthMiddleware.authenticate.
    rewrite bearer_not_empty, (split_space_bearer _ Hspace). cbn.
    now rewrite Hverify. }
  split; [|split; [exact Hauth|]].
  - cbn [serve].
    unfold login, try_next, await_compare, get_user_by_email, generateToken, bind, lift.
    cbn [l_email l_password truthy bind_args bind_each bind_value param nth col_eq].
    rewrite He, Hp. cbn [negb orb]. rewrite Hfind. cbv beta iota.
    rewrite Hcmp. reflexivity.
  - repeat match goal with |- _ /\ _ => split end; intros;
      cbn [serve]; unfold AuthMiddleware.protected; now rewrite Hauth.
Qed.

Lemma login_token_is_accepted_witness :
  let bearer := Some "Bearer tok:u-alice" in
  serve Demo.demo_lib
        (PostLogin (mkLogin (VStr "alice@x.com") (VStr "longenough1"))) Demo.demo_db
  = (mkResponse 200
       (Session "Login successful." "tok:u-alice"
                (mkUserView "u-alice" (VStr "Alice") (VStr "alice@x.com"))),
     Demo.demo_db, [SelectUserByEmail]) /\
  AuthMiddleware.authenticate Demo.demo_verify bearer = AuthMiddleware.Next Demo.alice /\
  (forall q, serve Demo.demo_lib (GetTasks bearer q) Demo.demo_db
             = listTasks Demo.alice q Demo.demo_db) /\
  (forall id, serve Demo.demo_lib (GetTaskById bearer id) Demo.demo_db
              = getTask Demo.alice id Demo.demo_db) /\
  (forall req taskId now,
     serve Demo.demo_lib (PostTasks bearer req taskId now) Demo.demo_db
     = createTask Demo.alice req taskId now Demo.demo_db) /\
  (forall id req now,
     serve Demo.demo_lib (PatchTaskById bearer id req now) Demo.demo_db
     = updateTask Demo.alice id req now Demo.demo_db) /\
  (forall id, serve Demo.demo_lib (DeleteTaskById bearer id) Demo.demo_db
              = deleteTask Demo.alice id Demo.demo_db).
Proof.
  apply (login_token_is_accepted Demo.demo_lib "alice@x.com" "longenough1"
           (mkUser "u-alice" "alice@x.com" "$2a$10$longenough1" "Alice"
                   "2024-05-01 09:00:00")
           Demo.demo_db); try reflexivity; try discriminate.
  split; reflexivity.
Defined.

(** ** Uniqueness of users *)

Lemma column_unique_after_filter {A B : Type} (col : A -> B) (keep : A -> bool)
    (rows : list A) :
  NoDup (map col rows) -> NoDup (map col (filter keep rows)).
Proof.
  induction rows as [|r rows IH]; simpl; intros H; [constructor|].
  apply NoDup_cons_iff in H. destruct H as [Hfresh Hrest].
  destruct (keep r); simpl; [|now apply IH].
  apply NoDup_cons_iff. split; [|now apply IH].
  intros Hin. apply Hfresh. apply in_map_iff in Hin.
  destruct Hin as (x & Hx & Hin). apply filter_In in Hin.
  rewrite <- Hx. apply in_map. tauto.
Qed.

Lemma column_unique_after_append {A : Type} (col : A -> string) (rows : list A)
    (r : A) :
  NoDup (map col rows) ->
  existsb (fun x => String.eqb (col x) (col r)) rows = false ->
  NoDup (map col (rows ++ [r])).
Proof.
  intros Hnd Hfresh. rewrite map_app. simpl.
  apply NoDup_app; [assumption|repeat constructor; intros []|].
  intros a Ha [<-|[]]. apply in_map_iff in Ha. destruct Ha as (x & Hx & Hin).
  assert (existsb (fun x => String.eqb (col x) (col r)) rows = true); [|congruence].
  apply existsb_exists. exists x. split; [assumption|]. now apply String.eqb_eq.
Qed.

Lemma serve_users (lib : packages) (r : request) (d : db) :
  pk_ok d -> authorization_of r <> None -> users (db_of (serve lib r d)) = users d.
Proof.
  intros Hpk Hr. destruct r; try (now contradiction Hr); cbn [serve];
    apply (protected_db (jwt_verify lib) authorization _ d
             (fun x => users x = users d)); try reflexivity; intros user.
  - now rewrite listTasks_db.
  - destruct (createTask_outcome user req taskId now d) as [[-> _] | (row & -> & _)];
      reflexivity.
  - now rewrite getTask_db.
  - destruct (updateTask_db user id req now d Hpk) as [-> | (g & _ & ->)]; reflexivity.
  - destruct (deleteTask_db user id d) as (keep & ->). reflexivity.
Qed.

(** X21. In every database the service reaches, no two user rows share
    an id and no two share an email. *)
Theorem reachable_users_unique (lib : packages) (d : db) :
  reachable lib d -> users_unique d.
Proof.
  induction 1 as [|d r Hd IHd Hafter IHafter|d uid0 Hd IH].
  - split; constructor.
  - destruct (authorization_of r) as [h|] eqn:Hr.
    + unfold users_unique.
      rewrite (serve_users lib r d (proj1 (reachable_schema_ok lib d Hd)));
        [exact IHd|congruence].
    + destruct r; try discriminate Hr; cbn [serve after_await] in *.
      * destruct (signup_rows (bcrypt_hash lib) (jwt_sign lib) req userId now
                    during_await d) as [-> | [-> | (u & -> & Hid & Hem)]];
          try assumption.
        destruct IHafter as [Hids Hemails].
        split; cbn [users]; now apply column_unique_after_append.
      * now rewrite login_db.
  - destruct IH as [Hids Hemails].
    split; unfold delete_user; cbn [users]; now apply column_unique_after_filter.
Qed.

Lemma reachable_users_unique_witness : users_unique Demo.demo_db.
Proof. apply (reachable_users_unique Demo.demo_lib Demo.demo_db). exact demo_reachable. Defined.

(** ** Requests of a deleted user *)

(** X23. The verifier is stateless, so a token outlives its user row.
    After the row is deleted, requests that carry that identity find and
    change nothing: every list is empty, GET, PATCH and DELETE answer 404
    for every id, and POST writes nothing, since the insert would break the
    foreign key. *)
Theorem requests_of_a_deleted_user (owner : string) (email : value) (d : db) :
  let me := mkIdentity owner email in
  let d' := delete_user owner d in
  (forall q, listed (response_of (listTasks me q d')) = []) /\
  (forall id, getTask me id d' = (not_found, d', [SelectTaskByIdAndUser])) /\
  (forall id req now,
     updateTask me id req now d' = (not_found, d', [SelectTaskByIdAndUser])) /\
  (forall id, deleteTask me id d' = (not_found, d', [DeleteTask])) /\
  (forall req taskId now,
     db_of (createTask me req taskId now d') = d' /\
     code (response_of (createTask me req taskId now d')) <> 201%Z).
Proof.
  intros me d'.
  assert (Hnone : forall id x, In x (tasks d') -> addressed me id x = false).
  { intros id x Hx. unfold d', delete_user in Hx. cbn [tasks] in Hx.
    apply filter_In in Hx. destruct Hx as [_ Hne]. apply negb_true_iff in Hne.
    unfold addressed. cbn [uid me]. rewrite Hne. apply andb_false_r. }
  assert (Hfind : forall id, find (addressed me id) (tasks d') = None)
    by (intros id; apply find_none_iff; apply Hnone).
  repeat match goal with |- _ /\ _ => split end.
  - intros q. destruct (listed _) as [|x l] eqn:E; [reflexivity|exfalso].
    destruct (listTasks_scope me q d') as (Hscope & _).
    destruct (Hscope x) as [Hx Hown]; [rewrite E; now left|].
    pose proof (Hnone (t_id x) x Hx) as Hmiss. unfold addressed in Hmiss.
    now rewrite Hown, !String.eqb_refl in Hmiss.
  - intros id. unfold getTask, try_next, bind, get_task_by_id_and_user.
    fold (addressed me id). now rewrite Hfind.
  - intros id req now. unfold updateTask, try_next, bind, get_task_by_id_and_user.
    fold (addressed me id). now rewrite Hfind.
  - intros id.
    assert (E : deleteTask me id d'
                = (if Nat.eqb (List.length (filter (addressed me id) (tasks d'))) 0
                   then not_found else mkResponse 200 (MessageOnly "Task deleted."),
                   mkDb (users d')
                        (filter (fun x => negb (addressed me id x)) (tasks d')),
                   [DeleteTask])).
    { unfold deleteTask, try_next, bind, delete_task. fold (addressed me id).
      now destruct (Nat.eqb (List.length (filter (addressed me id) (tasks d'))) 0). }
    rewrite E, (filter_all_false _ _ (Hnone id)).
    rewrite (filter_all_true (fun x => negb (addressed me id x)) (tasks d')).
    + cbn [List.length Nat.eqb]. now rewrite db_eta.
    + intros x Hx. now rewrite (Hnone id x Hx).
  - intros req taskId now.
    destruct (createTask_outcome me req taskId now d')
      as [H | (row & _ & _ & _ & _ & _ & _ & _ & _ & Huser)]; [exact H|].
    exfalso. apply existsb_exists in Huser. destruct Huser as (u & Hu & Hid).
    unfold d', delete_user in Hu. cbn [users] in Hu. apply filter_In in Hu.
    destruct Hu as [_ Hne]. cbn [uid me] in Hid. rewrite Hid in Hne. discriminate.
Qed.

(** ** The error handler and the middleware, in general *)

(** X16. For every error passed to [next]: the status sent is the
    error's own [status] when it has one that is not 0, and 500 otherwise; a
    500 always carries the generic message; any other status carries the
    error's own message; and the error kind sent is the error's name, or
    [InternalServerError] when the name is empty, so it is never empty. *)
Theorem errorHandler_statuses (err : exn) :
  let r := errorHandler err in
  (code r = 500%Z <->
   Js.status err = None \/ Js.status err = Some 0%Z \/ Js.status err = Some 500%Z) /\
  (code r = 500%Z ->
   body r = ErrorBody (if Js.name err =? "" then "InternalServerError" else Js.name err)
                      generic_message) /\
  (code r <> 500%Z ->
   Js.status err = Some (code r) /\
   body r = ErrorBody (if Js.name err =? "" then "InternalServerError" else Js.name err)
                      (Js.message err)) /\
  (exists kind msg, body r = ErrorBody kind msg /\ kind <> "").
Proof.
  assert (Hkind : (if Js.name err =? "" then "InternalServerError" else Js.name err)
                  <> "").
  { destruct (String.eqb_spec (Js.name err) ""); [discriminate|assumption]. }
  unfold errorHandler. cbv zeta.
  destruct (Js.status err) as [s|];
    [destruct (Z.eqb_spec s 0) as [->|Hs0];
     [|destruct (Z.eqb_spec s 500) as [->|Hs5]]|];
    cbn [code body Z.eqb Pos.eqb];
    (split; [|split; [|split]]);
    try solve [intuition congruence];
    try solve [do 2 eexists; split; [reflexivity|exact Hkind]].
Qed.

Example error_with_its_own_status :
  errorHandler (mkExn "SyntaxError" (Some 400%Z) "Unexpected token } in JSON")
  = mkResponse 400 (ErrorBody "SyntaxError" "Unexpected token } in JSON").
Proof. reflexivity. Qed.

(** X14. The middleware calls [next()] only for a header that is
    ["Bearer"], one space, and a token without a space which the verifier
    decodes, and the identity it attaches is the decoded payload: no other
    header reaches a controller. *)
Theorem authenticate_accepts_only_verified_tokens
    (verify : string -> result identity) (h : option string) (user : identity) :
  AuthMiddleware.authenticate verify h = AuthMiddleware.Next user ->
  exists token,
    h = Some ("Bearer " ++ token)%string /\ has_space token = false /\
    verify token = Ok user.
Proof.
  unfold AuthMiddleware.authenticate.
  destruct h as [h|]; [|discriminate].
  destruct (String.eqb h ""); [discriminate|].
  destruct (Nat.eqb_spec (List.length (split_space h)) 2) as [Hlen|];
    cbn [negb orb]; [|discriminate].
  destruct (list_of_length_2 _ Hlen) as (a & b & Hparts). rewrite Hparts. cbn [nth].
  destruct (String.eqb_spec a "Bearer") as [->|]; cbn [negb]; [|discriminate].
  destruct (split_space_pair _ _ _ Hparts) as [Hh Hb].
  destruct (verify b) as [u|e] eqn:Hv.
  - intros H. inversion H. subst. exists b. repeat split; assumption.
  - destruct (Js.name e =? "TokenExpiredError"); discriminate.
Qed.

Lemma authenticate_accepts_only_verified_tokens_witness :
  exists token,
    Some "Bearer tok:u-bob" = Some ("Bearer " ++ token)%string /\
    has_space token = false /\ Demo.demo_verify token = Ok Demo.bob.
Proof.
  apply (authenticate_accepts_only_verified_tokens Demo.demo_verify
           (Some "Bearer tok:u-bob") Demo.bob).
  reflexivity.
Defined.

(** ** Invariants of the task table *)

(** X22. In every database the service reaches, no two task rows share an
    id. *)
Theorem reachable_task_ids_unique (lib : packages) (d : db) :
  reachable lib d -> pk_ok d.
Proof. intros H. exact (proj1 (reachable_schema_ok lib d H)). Qed.

Lemma reachable_task_ids_unique_witness : pk_ok Demo.demo_db.
Proof.
  apply (reachable_task_ids_unique Demo.demo_lib Demo.demo_db). exact demo_reachable.
Defined.

Lemma kept_or_given_title (v : value) (t : task) (ti : string) :
  title_kept_or_given v = true -> title_ok t ->
  merged_title v t = Ok (VStr ti) -> trim ti <> "".
Proof.
  unfold title_kept_or_given, merged_title, title_ok.
  destruct v; simpl; try discriminate.
  - intros _ Hok H. inversion H. now subst.
  - intros Hg _ H. inversion H. subst. rewrite trim_idem.
    apply negb_true_iff in Hg. now apply String.eqb_neq.
Qed.

Lemma kept_or_checked_enum (l : list string) (v : value) (s st : string) :
  enum_kept_or_checked v = true -> rejected l v = false -> In s l ->
  bind_value (merged v (VStr s)) = Some (SqlText st) -> In st l.
Proof.
  unfold enum_kept_or_checked, merged. intros Hk Hr Hs.
  destruct (defined v) eqn:D; simpl in Hk.
  - destruct (accepted_filter l v Hr) as [T | (x & -> & _ & I)]; [congruence|].
    simpl. intros H. inversion H. subst. simpl in I.
    apply existsb_exists in I. destruct I as (y & Hy & E).
    apply String.eqb_eq in E. now subst.
  - simpl. intros H. inversion H. now subst.
Qed.

(** X10. Under the primary key, a PATCH whose title is absent or a
    non-blank string, whose status and priority are each absent or truthy,
    and whose description and due date are not arrays, keeps the table
    valid: if every row had a non-blank title and status and priority in
    their enumerations before, every row has after, whether the request
    succeeds or not.  (A blank title, a status or priority sent as an empty
    string, and an array, which is spread over the parameters of the UPDATE,
    are what this excludes.) *)
Theorem patch_keeps_rows_valid (user : identity) (id : string) (req : task_body)
    (now : string) (d : db) :
  pk_ok d ->
  title_kept_or_given (b_title req) = true ->
  enum_kept_or_checked (b_status req) = true ->
  enum_kept_or_checked (b_priority req) = true ->
  no_array req ->
  Forall valid_row (tasks d) ->
  Forall valid_row (tasks (db_of (updateTask user id req now d))).
Proof.
  intros Hpk Hti Hst Hpr Hflat Hall. rewrite Forall_forall in *. intros y.
  destruct (updateTask_outcome user id req now d Hpk)
    as [[-> _] | (t & ti & de & st & pr & du & Ht & Htid & _
                  & Hrs & Hrp & Hmt & Hb & E)]; [apply Hall|].
  destruct (patch_args_in_place _ _ _ _ _ _ _ _ _ Hflat Hrs Hrp Hb)
    as (_ & Hbs & Hbp & _).
  rewrite E. unfold db_of. cbn [fst snd tasks]. intros Hy.
  apply in_rewritten_rows in Hy.
  destruct Hy as [Hy | (x & Hx & Hhit & ->)]; [now apply Hall|].
  assert (x = t) as ->.
  { unfold addressed in Hhit. apply andb_prop in Hhit. destruct Hhit as [Hid _].
    apply String.eqb_eq in Hid. eapply nodup_map_inj; eauto. congruence. }
  destruct (Hall t Ht) as [Htitle [Hes Hep]].
  split; [|split].
  - unfold title_ok. cbn [t_title set_columns text_or].
    exact (kept_or_given_title _ t ti Hti Htitle Hmt).
  - cbn [t_status set_columns text_or].
    exact (kept_or_checked_enum _ _ (t_status t) st Hst Hrs Hes Hbs).
  - cbn [t_priority set_columns text_or].
    exact (kept_or_checked_enum _ _ (t_priority t) pr Hpr Hrp Hep Hbp).
Qed.

(** With an array in the body the table does not stay valid: the row is
    left with a status and a priority outside their enumerations. *)
Example patch_with_arrays_leaves_an_invalid_row :
  stored (db_of (updateTask Demo.alice "task-1"
                   (mkBody VUndefined (VArr [VStr "x"; VStr "y"]) VUndefined
                           VUndefined (VArr []))
                   Demo.later Demo.demo_db)) "task-1"
  = Some (mkTask "task-1" "u-alice" "t1" (Some "x") "y" "pending" (Some "medium")
                 "2024-05-02 08:00:00" Demo.later).
Proof. reflexivity. Qed.

Lemma demo_rows_valid : Forall valid_row (tasks Demo.demo_db).
Proof.
  repeat constructor; try discriminate; simpl; tauto.
Qed.

Lemma patch_keeps_rows_valid_witness :
  Forall valid_row
         (tasks (db_of (updateTask Demo.alice "task-1"
                          (mkBody (VStr " t1 bis ") VUndefined (VStr "in_progress")
                                  VUndefined VUndefined)
                          Demo.later Demo.demo_db))).
Proof.
  apply (patch_keeps_rows_valid Demo.alice "task-1"
           (mkBody (VStr " t1 bis ") VUndefined (VStr "in_progress")
                   VUndefined VUndefined)
           Demo.later Demo.demo_db); try reflexivity.
  - exact demo_pk_ok.
  - split; reflexivity.
  - exact demo_rows_valid.
Defined.

(** ** Requests that only read *)

(** X24. Login and the two GET routes never change the database and
    never step an INSERT, UPDATE or DELETE: whatever the header, query, id or
    body, the database after is the database before and the statements run
    are at most one SELECT. *)
Theorem reading_requests_write_nothing (lib : packages) (r : request) (d : db) :
  reads_only r = true ->
  db_of (serve lib r d) = d /\
  (ran (serve lib r d) = [] \/
   ran (serve lib r d) = [SelectUserByEmail] \/
   ran (serve lib r d) = [SelectTasksOfUser] \/
   ran (serve lib r d) = [SelectTaskByIdAndUser]).
Proof.
  intros Hr. destruct r; try discriminate Hr; cbn [serve].
  - split; [apply login_db|].
    unfold login, try_next, get_user_by_email, bind, lift, ran.
    destruct (negb _ || negb _); [now left|].
    destruct (bind_args 1 [l_email req]); [|now left]. cbv beta iota.
    destruct (find _ (users d)); [|right; now left]. cbv beta iota.
    destruct (await_compare _ _ _) as [[|]|]; right; now left.
  - unfold AuthMiddleware.protected.
    destruct (AuthMiddleware.authenticate _ _) as [resp|who];
      [split; [reflexivity|now left]|].
    split; [apply listTasks_db|].
    destruct (listTasks_outcome who query d) as [(r & -> & _) | (l & -> & _)];
      unfold ran; cbn [snd]; tauto.
  - unfold AuthMiddleware.protected.
    destruct (AuthMiddleware.authenticate _ _); [split; [reflexivity|now left]|].
    split; [apply getTask_db|].
    unfold getTask, try_next, bind, get_task_by_id_and_user, ran.
    destruct (find _ (tasks d)); cbn; tauto.
Qed.

Lemma reading_requests_write_nothing_witness :
  db_of (serve Demo.demo_lib (GetTasks (Some "Bearer tok:u-bob")
                                       (mkQuery VUndefined (VStr "medium")))
               Demo.demo_db) = Demo.demo_db /\
  (ran (serve Demo.demo_lib (GetTasks (Some "Bearer tok:u-bob")
                                      (mkQuery VUndefined (VStr "medium")))
              Demo.demo_db) = [] \/
   ran (serve Demo.demo_lib (GetTasks (Some "Bearer tok:u-bob")
                                      (mkQuery VUndefined (VStr "medium")))
              Demo.demo_db) = [SelectUserByEmail] \/
   ran (serve Demo.demo_lib (GetTasks (Some "Bearer tok:u-bob")
                                      (mkQuery VUndefined (VStr "medium")))
              Demo.demo_db) = [SelectTasksOfUser] \/
   ran (serve Demo.demo_lib (GetTasks (Some "Bearer tok:u-bob")
                                      (mkQuery VUndefined (VStr "medium")))
              Demo.demo_db) = [SelectTaskByIdAndUser]).
Proof.
  apply (reading_requests_write_nothing Demo.demo_lib
           (GetTasks (Some "Bearer tok:u-bob") (mkQuery VUndefined (VStr "medium")))
           Demo.demo_db).
  reflexivity.
Defined.

Example requests_after_alice_is_deleted :
  createTask Demo.alice (Demo.only_title (VStr "t4")) "task-4" Demo.later
             (delete_user "u-alice" Demo.demo_db)
  = (mkResponse 500 (ErrorBody "SqliteError" generic_message),
     delete_user "u-alice" Demo.demo_db, [InsertTask]).
Proof. reflexivity. Qed.

